(** * A shallow embedding of the PDF viewer's handlers

    The repository is a React front end over pdf.js, Tesseract and a remote
    completion endpoint.  This development embeds the handlers that carry
    its logic:

    - [performOCR] (utils/pdfOCR) and [handlePerformOCR] (PDFViewer),
    - [handleSplit] (PDFControls and PDFViewer),
    - [handleJumpToPage] (PDFPageNavigator and PDFViewer),
    - [handleFileSelect] (pages/Index), [getHistory] and [handleFileOpen]
      (PDFHistory),
    - [handleSubmit] (ChatBot),
    - the [onChange] callback of the virtualizer and [handleDownload]
      (PDFViewer), [onDrop] (FileUpload).

    Conventions.  JavaScript strings are modelled by [string], read as
    sequences of code units below 256.  Page numbers are integers ([Z]).
    The zoom scale and pixel offsets are doubles, each given by its exact
    value, a rational ([Q]); products are rounded as IEEE 754 rounds them.
    The external collaborators (pdf.js, the canvas, Tesseract,
    [fetch], [JSON.parse]) are oracles carried by the inputs.  Every handler
    runs in a small monad that logs the user-visible effects (toasts,
    scrolling) and the calls to the collaborators, and that propagates
    thrown exceptions. *)

From Stdlib Require Import Ascii QArith Qabs Lqa.
From stdpp Require Import base numbers list strings pretty gmap.

Local Open Scope Z_scope.

(** ** JavaScript strings *)

Module JsString.

(** Code units that [String.prototype.trim] strips, among those below 256:
    TAB, LF, VT, FF, CR, SPACE and NO-BREAK SPACE. *)
Definition isWhiteSpace (c : ascii) : bool :=
  match c with
  | "009" | "010" | "011" | "012" | "013" | " " | "160" => true
  | _ => false
  end%char.

Fixpoint trimStart (s : string) : string :=
  match s with
  | EmptyString => EmptyString
  | String c s' => if isWhiteSpace c then trimStart s' else s
  end.

Definition trimEnd (s : string) : string :=
  String.rev (trimStart (String.rev s)).

Definition trim (s : string) : string := trimEnd (trimStart s).

(** [Array.prototype.join]. *)
Fixpoint join (sep : string) (l : list string) : string :=
  match l with
  | [] => ""
  | [x] => x
  | x :: l' => x +:+ sep +:+ join sep l'
  end.

Fixpoint startsWith (s p : string) : bool :=
  match p, s with
  | EmptyString, _ => true
  | String _ _, EmptyString => false
  | String a p', String b s' => if decide (a = b) then startsWith s' p' else false
  end.

(** [String.prototype.includes]. *)
Fixpoint includes (s p : string) : bool :=
  startsWith s p ||
  match s with
  | EmptyString => false
  | String _ s' => includes s' p
  end.

(** A string is falsy exactly when it is empty. *)
Definition truthy (s : string) : bool :=
  match s with EmptyString => false | _ => true end.

(** Concatenation of a list of strings, as repeated [+=]. *)
Definition concat (l : list string) : string := foldr String.app "" l.

End JsString.

(** ** IEEE 754 double-precision numbers *)

(** A JavaScript number is a double.  A finite double is given here by its
    exact value, a rational; [round] is the rounding to the nearest double
    (ties to the even significand, subnormals included) that every
    arithmetic operation ends with.  Magnitudes from [2 ^ 1024] on, where
    the source has [Infinity], are outside the model. *)

Module Double.

(** [⌊log2 (a / b)⌋]. *)
Definition ilog2 (a b : positive) : Z :=
  let k := Z.log2 (Z.pos a) - Z.log2 (Z.pos b) in
  if Z.pos b * 2 ^ Z.max k 0 <=? Z.pos a * 2 ^ Z.max (- k) 0 then k else k - 1.

(** [2 ^ e], for an exponent of either sign. *)
Definition pow2 (e : Z) : Q :=
  if 0 <=? e then inject_Z (2 ^ e) else 1 # Z.to_pos (2 ^ (- e)).

(** The integer nearest to [n / d], for [d] positive; a tie goes to the
    even one. *)
Definition nearestEven (n d : Z) : Z :=
  let q := n / d in
  let r := n mod d in
  match 2 * r ?= d with
  | Lt => q
  | Gt => q + 1
  | Eq => if Z.even q then q else q + 1
  end.

(** The double nearest to [a / b]: a significand of 53 bits, or fewer
    below [2 ^ -1022]. *)
Definition roundPos (a b : positive) : Q :=
  let e := Z.max (ilog2 a b - 52) (-1074) in
  let m := nearestEven (Z.pos a * 2 ^ Z.max (- e) 0) (Z.pos b * 2 ^ Z.max e 0) in
  Qred (inject_Z m * pow2 e).

(** The double nearest to a rational. *)
Definition round (x : Q) : Q :=
  match Qnum x with
  | Z0 => 0
  | Z.pos a => roundPos a (Qden x)
  | Z.neg a => - roundPos a (Qden x)
  end.

(** [x * y] on doubles. *)
Definition mul (x y : Q) : Q := round (x * y).

(** The double nearest to an integer, and its value as an integer. *)
Definition ofZ (z : Z) : Q := round (inject_Z z).
Definition roundZ (z : Z) : Z := Qnum (ofZ z) / Z.pos (Qden (ofZ z)).

(** The number of decimal digits of a positive integer. *)
Definition digits (z : Z) : Z := Z.of_nat (String.length (pretty z)).

(** Number::toString on a positive integer-valued double [x]: the
    search for the least number [k] of significant digits such that some
    [s * 10 ^ j] of [k] digits rounds to [x], the closest one being chosen.
    The result is that value [s * 10 ^ j] and [k]; seventeen digits always
    suffice. *)
Fixpoint shortest (fuel : nat) (k : Z) (x : Z) : Z * Z :=
  let j := digits x - k in
  match fuel with
  | O => (x, digits x)
  | S fuel' =>
      if j <=? 0 then (x, digits x)
      else
        let lo := x / 10 ^ j * 10 ^ j in
        let hi := lo + 10 ^ j in
        let oklo := bool_decide (roundZ lo = x) in
        let okhi := bool_decide (roundZ hi = x) in
        if oklo && okhi then
          match x - lo ?= hi - x with
          | Lt => (lo, k)
          | Gt => (hi, k)
          | Eq => if Z.even (lo / 10 ^ j) then (lo, k) else (hi, k)
          end
        else if oklo then (lo, k)
        else if okhi then (hi, k)
        else shortest fuel' (k + 1) x
  end.

(** The digits are written in full up to 21 of them, and with an exponent
    beyond. *)
Definition toStringPos (x : Z) : string :=
  let '(v, k) := shortest 17 1 x in
  let n := digits v in
  if n <=? 21 then pretty v
  else
    let s := pretty (v / 10 ^ (n - k)) in
    match s with
    | String d EmptyString => String d "" +:+ "e+" +:+ pretty (n - 1)
    | String d rest => String d "." +:+ rest +:+ "e+" +:+ pretty (n - 1)
    | EmptyString => ""
    end.

(** [String(x)] for the double nearest to the integer [z]. *)
Definition toStringZ (z : Z) : string :=
  match roundZ z with
  | Z0 => "0"
  | Z.pos x => toStringPos (Z.pos x)
  | Z.neg x => "-" +:+ toStringPos (Z.pos x)
  end.

End Double.

Arguments Double.round : simpl never.
Arguments Double.mul : simpl never.
Arguments Double.ofZ : simpl never.
Arguments Double.roundZ : simpl never.
Arguments Double.toStringZ : simpl never.

(** ** Effects: a log of events and thrown exceptions *)

(** The id of a toast: one the caller chose, or the one [toast.loading]
    returned for the toast showing [msg]. *)
Inductive toastId :=
| CustomId (id : string)
| ReturnedId (msg : string).

Inductive event :=
| ToastLoading (msg : string) (id : toastId)
| ToastSuccess (msg : string)
| ToastError (msg : string)
| ToastWarning (msg : string)
| ToastDismiss (id : toastId)
| GetTextContent (pageNum : Z)
| ExtractImages (pageNum : Z)
| Recognize (imageUrl : string)
| ScrollTo (top : Q).

(** A completed computation: a value, or a thrown error with its message. *)
Inductive result (A : Type) :=
| Ok (a : A)
| Throw (message : string).
Arguments Ok {A} a.
Arguments Throw {A} message.

Definition M (A : Type) : Type := list event * result A.

Definition ret {A} (a : A) : M A := ([], Ok a).
Definition throw {A} (message : string) : M A := ([], Throw message).
Definition emit (e : event) : M unit := ([e], Ok tt).
Definition lift {A} (r : result A) : M A := ([], r).

Definition bind {A B} (m : M A) (f : A → M B) : M B :=
  match m with
  | (t, Ok a) => let '(t', r) := f a in (t ++ t', r)
  | (t, Throw e) => (t, Throw e)
  end.

(** [try { m } catch (error) { handler error }]. *)
Definition try_catch {A} (m : M A) (handler : string → M A) : M A :=
  match m with
  | (t, Throw e) => let '(t', r) := handler e in (t ++ t', r)
  | (t, Ok a) => (t, Ok a)
  end.

Notation "'let!' x ':=' m 'in' k" := (bind m (λ x, k))
  (at level 10, x name, m at level 100, k at level 200, only parsing).
Notation "'let!' ' p ':=' m 'in' k" := (bind m (λ x, match x with p => k end))
  (at level 10, p pattern, m at level 100, k at level 200, only parsing).

Arguments bind : simpl never.
Arguments try_catch : simpl never.

Definition trace {A} (m : M A) : list event := fst m.
Definition outcome {A} (m : M A) : result A := snd m.

(** The messages of the error toasts a run shows, in order. *)
Definition errorToasts (t : list event) : list string :=
  omap (λ e, match e with ToastError msg => Some msg | _ => None end) t.

Global Instance toastId_eq_dec : EqDecision toastId.
Proof. solve_decision. Defined.
Global Instance Q_eq_dec : EqDecision Q.
Proof. solve_decision. Defined.
Global Instance event_eq_dec : EqDecision event.
Proof. solve_decision. Defined.

(** ** Text extraction: utils/pdfOCR *)

Module PdfOCR.

(** A page of the loaded document: the [str] fields of the items of its
    text content, and the PNG data URL the canvas gives once the page is
    rendered on it.  Either call can throw. *)
Record PDFPageProxy := {
  getTextContent : result (list string);
  render : result string
}.

Record PDFDocumentProxy := {
  numPages : Z;
  getPage : Z → result PDFPageProxy
}.

(** What the browser and the libraries answer during one extraction:
    loading the document from the file, whether a canvas gives a 2d context
    for the page being rasterised, and [Tesseract.recognize] on an image. *)
Record Env := {
  getDocument : result PDFDocumentProxy;
  getContext2d : Z → bool;
  recognize : string → result string
}.

Record OcrResult := { text : string }.

Definition extractImagesFromPage (env : Env) (pdf : PDFDocumentProxy)
    (pageNumber : Z) : M (list string) :=
  let! _ := emit (ExtractImages pageNumber) in
  let! page := lift (getPage pdf pageNumber) in
  let images : list string := [] in
  if negb (getContext2d env pageNumber) then ret images
  else
    let! imageDataUrl := lift (render page) in
    ret (images ++ [imageDataUrl]).

(** The inner loop over the images of a page: each recognised text is
    appended to [pageText] after a single space. *)
Fixpoint recognizeImages (env : Env) (images : list string) (pageText : string)
    : M string :=
  match images with
  | [] => ret pageText
  | imageUrl :: images' =>
      let! _ := emit (Recognize imageUrl) in
      let! data_text := lift (recognize env imageUrl) in
      recognizeImages env images' (pageText +:+ " " +:+ data_text)
  end.

Definition ocrToastId (pageNum : Z) : toastId :=
  CustomId ("ocr-page-" +:+ pretty pageNum).

(** The body of the loop of [performOCR] for an in-range page, up to the
    value of [pageText] that is appended to [fullText]; the flag tells
    whether the page counted as image-based. *)
Definition extractPageText (env : Env) (pdf : PDFDocumentProxy) (pageNum : Z)
    : M (string * bool) :=
  let! _ := emit (GetTextContent pageNum) in
  let! page := lift (getPage pdf pageNum) in
  let! items := lift (getTextContent page) in
  let pageText := JsString.join " " items in
  if (String.length (JsString.trim pageText) <? 50)%nat then
    let! _ := emit (ToastLoading
                ("Page " +:+ pretty pageNum +:+
                 " appears to be image-based, using advanced OCR...")
                (ocrToastId pageNum)) in
    let! images := extractImagesFromPage env pdf pageNum in
    let! pageText := recognizeImages env images pageText in
    let! _ := emit (ToastDismiss (ocrToastId pageNum)) in
    ret (pageText, true)
  else ret (pageText, false).

Definition pageHeader (pageNum : Z) : string :=
  "Page " +:+ pretty pageNum +:+ ":" +:+ String "010" "".

(** What one processed page adds to [fullText]:
    [`Page ${pageNum}:\n${pageText.trim()}\n\n`]. *)
Definition pageSection (pageNum : Z) (pageText : string) : string :=
  pageHeader pageNum +:+ JsString.trim pageText +:+ String "010" (String "010" "").

Fixpoint performOCR_loop (env : Env) (pdf : PDFDocumentProxy)
    (pageNumbers : list Z) (fullText : string) (imageBasedPagesCount : nat)
    : M (string * nat) :=
  match pageNumbers with
  | [] => ret (fullText, imageBasedPagesCount)
  | pageNum :: rest =>
      if (numPages pdf <? pageNum) || (pageNum <? 1)
      then performOCR_loop env pdf rest fullText imageBasedPagesCount
      else
        let! '(pageText, imageBased) := extractPageText env pdf pageNum in
        performOCR_loop env pdf rest
          (fullText +:+ pageSection pageNum pageText)
          (if imageBased then S imageBasedPagesCount else imageBasedPagesCount)
  end.

Definition noTextFound : string := "No text found in the PDF.".

Definition performOCR (env : Env) (pageNumbers : list Z) : M OcrResult :=
  try_catch
    (let! pdf := lift (getDocument env) in
     let! '(fullText, imageBasedPagesCount) :=
       performOCR_loop env pdf pageNumbers "" 0 in
     let! _ :=
       (if (0 <? imageBasedPagesCount)%nat
        then emit (ToastSuccess
               ("Advanced OCR completed on " +:+ pretty imageBasedPagesCount +:+
                " image-based pages"))
        else ret tt) in
     ret {| text := if JsString.truthy fullText then fullText else noTextFound |})
    (λ error,
       let! _ := emit (ToastError "Failed to extract text from PDF") in
       throw error).

(** A page number the document has. *)
Definition inRange (pdf : PDFDocumentProxy) (p : Z) : Prop := 1 ≤ p ≤ numPages pdf.

Global Instance inRange_dec pdf p : Decision (inRange pdf p).
Proof. unfold inRange. apply _. Defined.

(** The events one page can log: its own calls and toasts, and the
    recognition of its images. *)
Definition pageEvent (p : Z) (e : event) : Prop :=
  match e with
  | GetTextContent q | ExtractImages q => q = p
  | ToastLoading _ id | ToastDismiss id => id = ocrToastId p
  | Recognize _ => True
  | _ => False
  end.

(** The text [performOCR] extracts for a page: the final value of
    [pageText] in the loop body, and the empty string if the body throws. *)
Definition extractedText (env : Env) (pdf : PDFDocumentProxy) (p : Z) : string :=
  match outcome (extractPageText env pdf p) with
  | Ok (pageText, _) => pageText
  | Throw _ => ""
  end.

End PdfOCR.

(** ** The viewer: components/PDFViewer *)

Module PDFViewer.

Record state := {
  numPages : Z;
  currentPage : Z;
  scale : Q;
  splitPdfPages : list Z;
  isSplit : bool;
  isLoading : bool;
  ocrText : string;
  showChat : bool;
  isProcessingOCR : bool
}.

Definition setSplit (pages : list Z) (st : state) : state :=
  {| numPages := numPages st; currentPage := currentPage st; scale := scale st;
     splitPdfPages := pages; isSplit := true; isLoading := isLoading st;
     ocrText := ocrText st; showChat := showChat st;
     isProcessingOCR := isProcessingOCR st |}.

Definition setCurrentPage (p : Z) (st : state) : state :=
  {| numPages := numPages st; currentPage := p; scale := scale st;
     splitPdfPages := splitPdfPages st; isSplit := isSplit st;
     isLoading := isLoading st; ocrText := ocrText st; showChat := showChat st;
     isProcessingOCR := isProcessingOCR st |}.

Definition setScale (s : Q) (st : state) : state :=
  {| numPages := numPages st; currentPage := currentPage st; scale := s;
     splitPdfPages := splitPdfPages st; isSplit := isSplit st;
     isLoading := isLoading st; ocrText := ocrText st; showChat := showChat st;
     isProcessingOCR := isProcessingOCR st |}.

Definition setOcrText (t : string) (st : state) : state :=
  {| numPages := numPages st; currentPage := currentPage st; scale := scale st;
     splitPdfPages := splitPdfPages st; isSplit := isSplit st;
     isLoading := isLoading st; ocrText := t; showChat := showChat st;
     isProcessingOCR := isProcessingOCR st |}.

Definition setShowChat (b : bool) (st : state) : state :=
  {| numPages := numPages st; currentPage := currentPage st; scale := scale st;
     splitPdfPages := splitPdfPages st; isSplit := isSplit st;
     isLoading := isLoading st; ocrText := ocrText st; showChat := b;
     isProcessingOCR := isProcessingOCR st |}.

Definition setIsProcessingOCR (b : bool) (st : state) : state :=
  {| numPages := numPages st; currentPage := currentPage st; scale := scale st;
     splitPdfPages := splitPdfPages st; isSplit := isSplit st;
     isLoading := isLoading st; ocrText := ocrText st; showChat := showChat st;
     isProcessingOCR := b |}.

(** The state of a freshly mounted viewer. *)
Definition initial : state :=
  {| numPages := 0; currentPage := 1; scale := 1; splitPdfPages := [];
     isSplit := false; isLoading := true; ocrText := ""; showChat := false;
     isProcessingOCR := false |}.

(** [updateScale], run on mount and on every resize. *)
Definition updateScale (innerWidth : Z) (st : state) : state :=
  if innerWidth <? 640 then setScale (Double.round (6 # 10)) st
  else if innerWidth <? 768 then setScale (Double.round (8 # 10)) st
  else setScale 1 st.

(** [Array.from({ length: n }, (_, i) => f i)]; a negative length counts
    as zero. *)
Definition arrayFrom (n : Z) (f : Z → Z) : list Z :=
  map (λ i : nat, f (Z.of_nat i)) (seq 0 (Z.to_nat n)).

(** The active page sequence: [pages] in the component body. *)
Definition pages (st : state) : list Z :=
  if isSplit st then splitPdfPages st
  else arrayFrom (numPages st) (λ i, i + 1).

(** The [totalPages] the viewer hands to the navigator. *)
Definition totalPages (st : state) : Z :=
  if isSplit st then Z.of_nat (length (splitPdfPages st)) else numPages st.

(** The height the virtualizer gives every item ([estimateSize]): item
    [i] of [pages] starts at [i * estimateSize]. *)
Definition estimateSize (st : state) : Q := Double.mul 842 (scale st).

Definition handleSplit (start end_ : Z) (st : state) : M state :=
  let pages := arrayFrom (end_ - start + 1) (λ i, start + i) in
  let st := setSplit pages st in
  let st := setCurrentPage start st in
  let! _ := emit (ToastSuccess
              ("PDF split from page " +:+ pretty start +:+ " to " +:+ pretty end_)) in
  ret st.

(** [arr[i]] for a list of numbers: [None] is [undefined]. *)
Definition index (l : list Z) (i : Z) : option Z :=
  if i <? 0 then None else l !! Z.to_nat i.

(** [handleJumpToPage]; [None] stands for the run in which
    [splitPdfPages[pageNum - 1]] is [undefined], so that the scroll target
    and the current page are not numbers. *)
Definition handleJumpToPage (pageNum : Z) (st : state) : option (M state) :=
  targetPage ← (if isSplit st then index (splitPdfPages st) (pageNum - 1)
                 else Some pageNum);
  let pageHeight := Double.mul 842 (scale st) in
  let scrollPosition := Double.mul (Double.ofZ (targetPage - 1)) pageHeight in
  Some (let! _ := emit (ScrollTo scrollPosition) in
        ret (setCurrentPage targetPage st)).

Definition extractingToast : toastId :=
  ReturnedId "Extracting text from PDF pages...".

Definition handlePerformOCR (env : PdfOCR.Env) (st : state) : M state :=
  if negb (isSplit st) || (length (splitPdfPages st) =? 0)%nat then
    let! _ := emit (ToastError "Please split the PDF first before performing OCR") in
    ret st
  else
    let st := setIsProcessingOCR true st in
    let! _ := emit (ToastLoading "Extracting text from PDF pages..." extractingToast) in
    let! st :=
      try_catch
        (let! ocrResult := PdfOCR.performOCR env (splitPdfPages st) in
         let st := setOcrText (PdfOCR.text ocrResult) st in
         let st := setShowChat true st in
         let! _ := emit (ToastDismiss extractingToast) in
         let! _ := emit (ToastSuccess
                     "OCR completed! You can now ask questions about the content.") in
         ret st)
        (λ error,
           let! _ := emit (ToastDismiss extractingToast) in
           let! _ := emit (ToastError
                       "Failed to extract text from PDF. Please try again.") in
           ret st) in
    ret (setIsProcessingOCR false st).

End PDFViewer.

(** ** The split control: components/pdf/PDFControls *)

Module PDFControls.

Record state := {
  startPage : Z;
  endPage : Z;
  showSplitControls : bool
}.

Definition setShowSplitControls (b : bool) (c : state) : state :=
  {| startPage := startPage c; endPage := endPage c; showSplitControls := b |}.

(** [handleSplit], with the props wired as the viewer wires them:
    [numPages] is the viewer's, [onSplit] is the viewer's [handleSplit]. *)
Definition handleSplit (c : state) (v : PDFViewer.state)
    : M (state * PDFViewer.state) :=
  if (startPage c <=? endPage c) && (1 <=? startPage c)
     && (endPage c <=? PDFViewer.numPages v) then
    let! v := PDFViewer.handleSplit (startPage c) (endPage c) v in
    ret (setShowSplitControls false c, v)
  else ret (c, v).

End PDFControls.

(** ** The page navigator: components/pdf/PDFPageNavigator *)

Module PDFPageNavigator.

(** The value of a digit in radix 36, from its code unit. *)
Definition digitValue (c : ascii) : option Z :=
  let n := Z.of_N (N_of_ascii c) in
  if (48 <=? n) && (n <=? 57) then Some (n - 48)
  else if (97 <=? n) && (n <=? 122) then Some (n - 87)
  else if (65 <=? n) && (n <=? 90) then Some (n - 55)
  else None.

(** The value of the longest prefix of [s] made of digits of the radix;
    [acc] is the value read so far, [None] while no digit was read. *)
Fixpoint parseDigits (radix : Z) (s : string) (acc : option Z) : option Z :=
  match s with
  | EmptyString => acc
  | String c s' =>
      match digitValue c with
      | Some d =>
          if d <? radix then parseDigits radix s' (Some (default 0 acc * radix + d))
          else acc
      | None => acc
      end
  end.

(** [parseInt(s)] with no radix: leading white space, a sign, a [0x]
    prefix, then digits; the result is the double nearest to the integer
    that was read, and [None] is [NaN]. *)
Definition parseInt (s : string) : option Z :=
  let str := JsString.trimStart s in
  let '(sign, str) :=
    match str with
    | String "-" r => (-1, r)
    | String "+" r => (1, r)
    | _ => (1, str)
    end%char in
  let '(radix, str) :=
    match str with
    | String "0" (String "x" r) | String "0" (String "X" r) => (16, r)
    | _ => (10, str)
    end%char in
  (λ n, Double.roundZ (sign * n)) <$> parseDigits radix str None.

Record state := {
  isDialogOpen : bool;
  jumpToPage : string
}.

(** The dialog once a jump went through: closed, its field emptied. *)
Definition closed : state := {| isDialogOpen := false; jumpToPage := "" |}.

(** [handleJumpToPage], with the props wired as the viewer wires them:
    [totalPages] is the viewer's, [onJumpToPage] its [handleJumpToPage].
    The outer [None] is the viewer's (see [PDFViewer.handleJumpToPage]). *)
Definition handleJumpToPage (n : state) (v : PDFViewer.state)
    : option (M (state * PDFViewer.state)) :=
  let totalPages := PDFViewer.totalPages v in
  let reject :=
    let! _ := emit (ToastError
                ("Please enter a valid page number between 1 and " +:+
                 pretty totalPages)) in
    ret (n, v) in
  match parseInt (jumpToPage n) with
  | None => Some reject
  | Some pageNum =>
      if (pageNum <? 1) || (totalPages <? pageNum) then Some reject
      else
        jump ← PDFViewer.handleJumpToPage pageNum v;
        Some (let! v := jump in
              let n := closed in
              let! _ := emit (ToastSuccess ("Jumped to page " +:+ pretty pageNum)) in
              ret (n, v))
  end.

End PDFPageNavigator.

(** ** Handlers that mutate component state before they throw *)

(** A handler over a state of type [S]: it logs events, updates the state
    and completes or throws; a [catch] block sees the state as the [try]
    block left it. *)
Definition Act (S A : Type) : Type := S → list event * S * result A.

Section Act.
Context {S : Type}.

Definition act_ret {A} (a : A) : Act S A := λ s, ([], s, Ok a).
Definition act_throw {A} (message : string) : Act S A := λ s, ([], s, Throw message).
Definition act_emit (e : event) : Act S unit := λ s, ([e], s, Ok tt).
Definition act_lift {A} (r : result A) : Act S A := λ s, ([], s, r).
Definition act_get : Act S S := λ s, ([], s, Ok s).
Definition act_modify (f : S → S) : Act S unit := λ s, ([], f s, Ok tt).

Definition act_bind {A B} (m : Act S A) (f : A → Act S B) : Act S B :=
  λ s,
    match m s with
    | (t, s', Ok a) => let '(t', s'', r) := f a s' in (t ++ t', s'', r)
    | (t, s', Throw e) => (t, s', Throw e)
    end.

Definition act_try {A} (m : Act S A) (handler : string → Act S A) : Act S A :=
  λ s,
    match m s with
    | (t, s', Throw e) => let '(t', s'', r) := handler e s' in (t ++ t', s'', r)
    | (t, s', Ok a) => (t, s', Ok a)
    end.

(** [try { m } finally { f }] for a [finally] block that cannot throw. *)
Definition act_finally {A} (m : Act S A) (f : S → S) : Act S A :=
  λ s, let '(t, s', r) := m s in (t, f s', r).
End Act.

Notation "'act!' x ':=' m 'in' k" := (act_bind m (λ x, k))
  (at level 10, x name, m at level 100, k at level 200, only parsing).

(** ** JSON values *)

Set Warnings "-register-all".

(** A number of a JSON text is given by its value when that value is an
    integer: [JNumber n] is the double nearest to [n].  A text with a
    number that has a fractional part has no value here. *)
Inductive json :=
| JNull
| JBool (b : bool)
| JNumber (n : Z)
| JString (s : string)
| JArray (items : list json)
| JObject (fields : list (string * json)).

Module Json.

(** Own data properties of an object, in insertion order. *)
Fixpoint lookup (k : string) (fields : list (string * json)) : option json :=
  match fields with
  | [] => None
  | (k', v) :: fields' => if decide (k = k') then Some v else lookup k fields'
  end.

(** V8's wording of the [TypeError] for a property read on [null]. *)
Definition nullRead (k : string) : string :=
  "Cannot read properties of null (reading '" +:+ k +:+ "')".

(** [v.k] for a parsed value and one of the keys the handlers read
    ([name], [error], [message], [choices], [content]): [None] is
    [undefined]; no primitive or array has a property of these names. *)
Definition getProp (v : json) (k : string) : result (option json) :=
  match v with
  | JNull => Throw (nullRead k)
  | JObject fields => Ok (lookup k fields)
  | _ => Ok None
  end.

(** [v?.k] on a possibly [undefined] value. *)
Definition optProp (v : option json) (k : string) : option json :=
  match v with
  | Some (JObject fields) => lookup k fields
  | _ => None
  end.

Definition truthy (v : option json) : bool :=
  match v with
  | None | Some JNull => false
  | Some (JBool b) => b
  | Some (JNumber n) => negb (n =? 0)
  | Some (JString s) => JsString.truthy s
  | Some (JArray _) | Some (JObject _) => true
  end.

(** [a || b]. *)
Definition or (a b : option json) : option json := if truthy a then a else b.

(** [ToString], as string concatenation and [new Error] apply it. *)
Fixpoint toString (v : json) : string :=
  match v with
  | JNull => "null"
  | JBool true => "true"
  | JBool false => "false"
  | JNumber n => Double.toStringZ n
  | JString s => s
  | JArray items =>
      JsString.join ","
        (map (λ x, match x with JNull => "" | _ => toString x end) items)
  | JObject _ => "[object Object]"
  end.

Definition isArray (v : json) : bool :=
  match v with JArray _ => true | _ => false end.

Definition quote : ascii := "034"%char.
Definition backslash : ascii := "092"%char.

Definition hexDigit (n : N) : ascii :=
  ascii_of_N (if (n <? 10)%N then 48 + n else 87 + n).

(** How [JSON.stringify] writes one code unit inside a string. *)
Definition escape (c : ascii) : string :=
  let n := N_of_ascii c in
  if decide (c = quote) then String backslash (String quote "")
  else if decide (c = backslash) then String backslash (String backslash "")
  else if (n =? 8)%N then String backslash "b"
  else if (n =? 9)%N then String backslash "t"
  else if (n =? 10)%N then String backslash "n"
  else if (n =? 12)%N then String backslash "f"
  else if (n =? 13)%N then String backslash "r"
  else if (n <? 32)%N then
    String backslash ("u00" +:+ String (hexDigit (n / 16)) (String (hexDigit (n mod 16)) ""))
  else String c "".

Fixpoint escapeString (s : string) : string :=
  match s with
  | EmptyString => ""
  | String c s' => escape c +:+ escapeString s'
  end.

Definition quoted (s : string) : string :=
  String quote (escapeString s +:+ String quote "").

(** [JSON.stringify]. *)
Fixpoint stringify (v : json) : string :=
  match v with
  | JNull => "null"
  | JBool true => "true"
  | JBool false => "false"
  | JNumber n => Double.toStringZ n
  | JString s => quoted s
  | JArray items => "[" +:+ JsString.join "," (map stringify items) +:+ "]"
  | JObject fields =>
      "{" +:+ JsString.join ","
                (map (λ kv, quoted (fst kv) +:+ ":" +:+ stringify (snd kv)) fields)
          +:+ "}"
  end.

End Json.

(** A string that is handed to [JSON.parse], together with what
    [JSON.parse] makes of it: a value, or a [SyntaxError] with its message. *)
Record jsonText := {
  raw : string;
  parsed : result json
}.

(** The text [JSON.stringify] writes for [v]; [JSON.parse] gives [v] back. *)
Definition stringified (v : json) : jsonText :=
  {| raw := Json.stringify v; parsed := Ok v |}.

(** ** The recent-files cache: pages/Index and components/PDFHistory *)

Module History.

(** Browser storage: string keys and string values, each value carried
    with what [JSON.parse] makes of it. *)
Abbreviation localStorage := (gmap string jsonText).

Definition key : string := "pdfHistory".

Definition MAX_STORAGE_SIZE : Z := 4 * 1024 * 1024.

(** A file: its name, and what a [FileReader] gives for it, namely the
    part of the data URL after the comma, or a read error. *)
Record File := {
  name : string;
  readAsDataURL : result string
}.

(** The state the two components share: the file on display and the
    browser's storage. *)
Record state := {
  pdfFile : option File;
  storage : localStorage
}.

Definition setPdfFile (f : File) (st : state) : state :=
  {| pdfFile := Some f; storage := storage st |}.
Definition setStorage (ls : localStorage) (st : state) : state :=
  {| pdfFile := pdfFile st; storage := ls |}.

(** Whether [localStorage.setItem] refuses a write for lack of space,
    given the storage, the key and the value. *)
Definition Quota := localStorage → string → string → bool.

Definition setItem (quota : Quota) (k : string) (v : jsonText) : Act state unit :=
  act! st := act_get in
  if quota (storage st) k (raw v)
  then act_throw "QuotaExceededError"
  else act_modify (setStorage (<[k := v]> (storage st))).

Definition removeItem (k : string) : Act state unit :=
  act_modify (λ st, setStorage (delete k (storage st)) st).

Definition clear : Act state unit := act_modify (setStorage ∅).

(** [getHistory] of PDFHistory. *)
Definition getHistory : Act state (list json) :=
  act_try
    (act! st := act_get in
     match storage st !! key with
     | None => act_ret []
     | Some historyData =>
         if negb (JsString.truthy (raw historyData)) then act_ret []
         else
           act! parsedHistory := act_lift (parsed historyData) in
           match parsedHistory with
           | JArray items => act_ret items
           | _ => act_ret []
           end
     end)
    (λ _,
       act! _ := removeItem key in
       act_ret []).

(** [item.name !== fileName]. *)
Definition nameDiffers (fileName : string) (item : json) : result bool :=
  match Json.getProp item "name" with
  | Throw e => Throw e
  | Ok (Some (JString s)) => Ok (negb (bool_decide (s = fileName)))
  | Ok _ => Ok true
  end.

(** [items.filter(item => item.name !== fileName)]; the callback throws
    on a [null] item. *)
Fixpoint filterByName (fileName : string) (items : list json) : result (list json) :=
  match items with
  | [] => Ok []
  | item :: items' =>
      match nameDiffers fileName item with
      | Throw e => Throw e
      | Ok keep =>
          match filterByName fileName items' with
          | Throw e => Throw e
          | Ok kept => Ok (if keep then item :: kept else kept)
          end
      end
  end.

(** [history.filter(...)] on whatever [JSON.parse] returned: only an
    array has a [filter] method. *)
Definition historyFilter (fileName : string) (history : json) : result (list json) :=
  match history with
  | JArray items => filterByName fileName items
  | JNull => Throw (Json.nullRead "filter")
  | _ => Throw "history.filter is not a function"
  end.

Definition historyItem (fileName base64Data : string) (now : Z) : json :=
  JObject [("name", JString fileName); ("data", JString base64Data);
           ("lastOpened", JNumber now)].

(** [base64Data.length * 0.75]. *)
Definition estimatedSize (base64Data : string) : Q :=
  inject_Z (Z.of_nat (String.length base64Data)) * (75 # 100).

(** [estimatedSize > MAX_STORAGE_SIZE]. *)
Definition tooLarge (base64Data : string) : bool :=
  negb (Qle_bool (estimatedSize base64Data) (inject_Z MAX_STORAGE_SIZE)).

(** [handleFileSelect] of Index; [now] is [Date.now()]. *)
Definition handleFileSelect (quota : Quota) (now : Z) (file : File)
    : Act state unit :=
  act! _ := act_modify (setPdfFile file) in
  match readAsDataURL file with
  | Throw _ => act_emit (ToastError "Error reading file")
  | Ok base64Data =>
      if tooLarge base64Data then
        act_emit (ToastWarning "File too large to save in history")
      else
        let item := historyItem (name file) base64Data now in
        act_try
          (act! st := act_get in
           let stored :=
             match storage st !! key with
             | Some t => if JsString.truthy (raw t) then parsed t
                         else Ok (JArray [])
             | None => Ok (JArray [])
             end in
           act! history := act_lift stored in
           act! others := act_lift (historyFilter (name file) history) in
           let updatedHistory := take 3 (item :: others) in
           setItem quota key (stringified (JArray updatedHistory)))
          (λ storageError,
             act! _ := clear in
             act_try
               (setItem quota key (stringified (JArray [item])))
               (λ finalError,
                  act_emit (ToastError "Could not save to history: storage full")))
  end.

(** [a === b] for two values read out of separately parsed texts: arrays
    and objects are distinct references, hence never identical. *)
Definition strictEq (a b : option json) : bool :=
  match a, b with
  | None, None => true
  | Some JNull, Some JNull => true
  | Some (JBool x), Some (JBool y) => bool_decide (x = y)
  | Some (JNumber x), Some (JNumber y) => bool_decide (x = y)
  | Some (JString x), Some (JString y) => bool_decide (x = y)
  | _, _ => false
  end.

(** [items.filter(item => item.name !== historyItem.name)]. *)
Fixpoint filterOut (historyItem : json) (items : list json) : result (list json) :=
  match items with
  | [] => Ok []
  | item :: items' =>
      match Json.getProp item "name" with
      | Throw e => Throw e
      | Ok itemName =>
          match Json.getProp historyItem "name" with
          | Throw e => Throw e
          | Ok openedName =>
              match filterOut historyItem items' with
              | Throw e => Throw e
              | Ok kept => Ok (if strictEq itemName openedName then kept else item :: kept)
              end
          end
      end
  end.

(** [handleFileOpen] of PDFHistory on an entry of the list on display.
    [decoded] is how the [try] block ends before it hands the file to
    [onFileSelect]: the file rebuilt from the entry's [data], or the error
    thrown on the way ([atob] on text that is not base64, for one). *)
Definition handleFileOpen (quota : Quota) (now : Z) (decoded : result File)
    (historyItem : json) : Act state unit :=
  act_try
    (act! file := act_lift decoded in
     handleFileSelect quota now file)
    (λ error,
       act! _ := act_emit (ToastError
                   "Could not open the file. Please try uploading it again.") in
       act! history := getHistory in
       act! updatedHistory := act_lift (filterOut historyItem history) in
       setItem quota key (stringified (JArray updatedHistory))).

(** The entries of the cache: what [getHistory] reads from the storage. *)
Definition entries (ls : localStorage) : list json :=
  match ls !! key with
  | Some t =>
      if JsString.truthy (raw t) then
        match parsed t with
        | Ok (JArray items) => items
        | _ => []
        end
      else []
  | None => []
  end.

(** The [name] of an entry; [None] is [undefined]. *)
Definition entryName (item : json) : option json :=
  match item with
  | JObject fields => Json.lookup "name" fields
  | _ => None
  end.

(** A user action on the cache: selecting a file at some time, showing
    the list of recent files, or opening one of its entries. *)
Inductive action :=
| Select (file : File) (now : Z)
| ShowRecent
| Open (decoded : result File) (historyItem : json) (now : Z).

Definition step (quota : Quota) (a : action) (st : state) : state :=
  match a with
  | Select file now => snd (fst (handleFileSelect quota now file st))
  | ShowRecent => snd (fst (getHistory st))
  | Open decoded historyItem now =>
      snd (fst (handleFileOpen quota now decoded historyItem st))
  end.

Definition run (quota : Quota) (actions : list action) (st : state) : state :=
  foldl (λ st a, step quota a st) st actions.

Definition initial : state := {| pdfFile := None; storage := ∅ |}.

(** The invariant of the cache: at most three entries, no two of them
    with the same name. *)
Definition cacheOk (ls : localStorage) : Prop :=
  (length (entries ls) ≤ 3)%nat ∧ NoDup (entryName <$> entries ls).

End History.

(** ** The chat panel: components/pdf/ChatBot *)

Module ChatBot.

Inductive Role := user | assistant.

Record Message := {
  role : Role;
  content : string
}.

Record state := {
  messages : list Message;
  input : string;
  isProcessing : bool
}.

Definition setMessages (f : list Message → list Message) (st : state) : state :=
  {| messages := f (messages st); input := input st; isProcessing := isProcessing st |}.
Definition setInput (s : string) (st : state) : state :=
  {| messages := messages st; input := s; isProcessing := isProcessing st |}.
Definition setIsProcessing (b : bool) (st : state) : state :=
  {| messages := messages st; input := input st; isProcessing := b |}.

Definition greeting : Message :=
  {| role := assistant;
     content := "Hello! I can answer questions about the PDF content. What would you like to know?" |}.

Definition initial : state :=
  {| messages := [greeting]; input := ""; isProcessing := false |}.

(** How the request ended: [fetch] rejected with an error of the given
    message, or a response arrived with a status and a body. *)
Inductive fetchOutcome :=
| Rejected (message : string)
| Response (status : Z) (body : jsonText).

(** [response.ok]: the status is in the range 200-299. *)
Definition ok (status : Z) : bool := (200 <=? status) && (status <=? 299).

Definition thinking : string := "Thinking...".

(** [prev.filter(m => m.content !== "Thinking...")]. *)
Definition removeThinking (prev : list Message) : list Message :=
  List.filter (λ m, negb (bool_decide (content m = thinking))) prev.

(** The message of the [Error] thrown for a response that is not [ok]. *)
Definition httpErrorMessage (status : Z) (body : jsonText) : string :=
  let errorText := raw body in
  let errorMessage := JString "Failed to get response from AI" in
  let fromBody : result json :=
    match parsed body with
    | Throw e => Throw e
    | Ok errorData =>
        match Json.getProp errorData "error" with
        | Throw e => Throw e
        | Ok error =>
            match Json.getProp errorData "message" with
            | Throw e => Throw e
            | Ok message =>
                Ok (default errorMessage
                      (Json.or (Json.or (Json.optProp error "message") message)
                               (Some errorMessage)))
            end
        end
    end in
  match fromBody with
  | Ok m => Json.toString m
  | Throw _ => "HTTP " +:+ pretty status +:+ ": " +:+ errorText
  end.

(** [v[0]] on a truthy parsed value. *)
Definition first (v : json) : option json :=
  match v with
  | JArray items => head items
  | JString (String c _) => Some (JString (String c ""))
  | JObject fields => Json.lookup "0" fields
  | _ => None
  end.

(** The reply read out of the body of an [ok] response, or the message of
    the error thrown on the way. *)
Definition aiResponseOf (body : jsonText) : result string :=
  match parsed body with
  | Throw e => Throw e
  | Ok data =>
      match Json.getProp data "choices" with
      | Throw e => Throw e
      | Ok choices =>
          let choice := if Json.truthy choices then choices ≫= first else None in
          let message := if Json.truthy choice then Json.optProp choice "message" else None in
          if negb (Json.truthy message) then Throw "Invalid response format from API"
          else
            let aiResponse := Json.optProp message "content" in
            if negb (Json.truthy aiResponse) then Throw "Empty response from AI"
            else
              match aiResponse with
              | Some (JString s) =>
                  if decide (JsString.trim s = "") then Throw "Empty response from AI"
                  else Ok s
              | _ => Throw "aiResponse.trim is not a function"
              end
      end
  end.

Definition rateLimited : string :=
  "Rate limit exceeded. Please wait a moment and try again.".

Definition tryAgain : string := " Please try again or rephrase your question.".

(** The text shown for a caught error, by what its message includes. *)
Definition categorize (message : string) : string :=
  if JsString.includes message "Failed to fetch"
     || JsString.includes message "NetworkError" then
    "Network error. Please check your internet connection and try again."
  else if JsString.includes message "401" then
    "Authentication error. The API key may be invalid."
  else if JsString.includes message "429" then rateLimited
  else if JsString.includes message "404" then
    "The AI model is not available. Please try again later."
  else "Error: " +:+ message.

Definition processingToast : toastId := ReturnedId "Processing your question...".

Definition append (m : Message) (prev : list Message) : list Message := prev ++ [m].

(** [handleSubmit]; [API_KEY] is [None] when the variable is not defined,
    [reply] is how the request to the completion endpoint ends.  Every
    value thrown in the [try] block is an [Error], given by its message. *)
Definition handleSubmit (API_KEY : option string) (reply : fetchOutcome)
    : Act state unit :=
  act! st := act_get in
  if negb (JsString.truthy (JsString.trim (input st))) || isProcessing st then act_ret tt
  else if negb (JsString.truthy (default "" API_KEY)) then
    act_emit (ToastError
      "API key not configured. Please check your environment variables.")
  else
    let userMessage := {| role := user; content := JsString.trim (input st) |} in
    act! _ := act_modify (setMessages (append userMessage)) in
    act! _ := act_modify (setInput "") in
    act! _ := act_modify (setIsProcessing true) in
    act_finally
      (act_try
         (act! _ := act_modify
                      (setMessages (append {| role := assistant; content := thinking |})) in
          act! _ := act_emit (ToastLoading "Processing your question..." processingToast) in
          act! response :=
            match reply with
            | Rejected message => act_throw message
            | Response status body => act_ret (status, body)
            end in
          let '(status, body) := response in
          act! _ := act_modify (setMessages removeThinking) in
          act! _ := (if negb (ok status) then act_throw (httpErrorMessage status body)
                     else act_ret tt) in
          act! aiResponse := act_lift (aiResponseOf body) in
          act! _ := act_modify
                      (setMessages (append {| role := assistant; content := aiResponse |})) in
          act! _ := act_emit (ToastDismiss processingToast) in
          act_emit (ToastSuccess "Response generated successfully!"))
         (λ error,
            act! _ := act_modify (setMessages removeThinking) in
            let errorMessage := categorize error in
            act! _ := act_modify
                        (setMessages (append
                           {| role := assistant;
                              content := errorMessage +:+ tryAgain |})) in
            act! _ := act_emit (ToastDismiss processingToast) in
            act_emit (ToastError "Failed to generate response")))
      (setIsProcessing false).

(** The message of the error the [try] block of [handleSubmit] throws
    for a reply, if it throws. *)
Definition thrown (reply : fetchOutcome) : option string :=
  match reply with
  | Rejected message => Some message
  | Response status body =>
      if negb (ok status) then Some (httpErrorMessage status body)
      else match aiResponseOf body with
           | Throw message => Some message
           | Ok _ => None
           end
  end.

End ChatBot.

(** ** The viewer's visibility tracker and download handler *)

Module Virtualizer.

(** The offsets of the buffer loop: [for (let i = -2; i <= 2; i++)]. *)
Definition bufferOffsets : list Z := [-2; -1; 0; 1; 2].

(** [if (idx >= 0 && idx < pages.length) visibleIndexes.add(pages[idx])]. *)
Definition addBuffered (pages : list Z) (idx : Z) (visibleIndexes : gset (option Z))
    : gset (option Z) :=
  if (0 <=? idx) && (idx <? Z.of_nat (length pages))
  then {[ PDFViewer.index pages idx ]} ∪ visibleIndexes
  else visibleIndexes.

(** The [onChange] callback of the virtualizer.  [pages] is the active page
    sequence and [visibleRange] the [index] of each virtual item, in order.
    The result is the argument of [setCurrentPage], when it is called, and
    the set handed to [setLoadedPages]; [None] in either is [undefined]. *)
Definition onChange (pages visibleRange : list Z)
    : option (option Z) * gset (option Z) :=
  let visibleIndexes : gset (option Z) :=
    list_to_set (map (PDFViewer.index pages) visibleRange) in
  let currentPageNumber :=
    match visibleRange with
    | [] => None
    | firstVisibleIndex :: _ => Some (PDFViewer.index pages firstVisibleIndex)
    end in
  let firstVisible := default 0 (head visibleRange) in
  let lastVisible := default 0 (last visibleRange) in
  let visibleIndexes :=
    foldl (λ acc i, addBuffered pages (lastVisible + i)
                      (addBuffered pages (firstVisible + i) acc))
          visibleIndexes bufferOffsets in
  (currentPageNumber, visibleIndexes).

(** [isLoaded] of a page, as the viewer computes it: [loadedPages.has]. *)
Definition isLoaded (loadedPages : gset (option Z)) (pageNumber : Z) : bool :=
  bool_decide (Some pageNumber ∈ loadedPages).

End Virtualizer.

Module Download.

(** The class [[a-zA-Z0-9-_\.]] of the file-name pattern. *)
Definition isSafeChar (c : ascii) : bool :=
  let n := N_of_ascii c in
  ((97 <=? n) && (n <=? 122) || (65 <=? n) && (n <=? 90) ||
   (48 <=? n) && (n <=? 57) || (n =? 45) || (n =? 95) || (n =? 46))%N.

(** [name.replace(/[^a-zA-Z0-9-_\.]/g, '_')]. *)
Fixpoint replaceUnsafe (name : string) : string :=
  match name with
  | EmptyString => EmptyString
  | String c name' => String (if isSafeChar c then c else "_"%char) (replaceUnsafe name')
  end.

(** [s.substring(0, n)]. *)
Fixpoint prefix (n : nat) (s : string) : string :=
  match n, s with
  | S n', String c s' => String c (prefix n' s')
  | _, _ => EmptyString
  end.

Definition safeFileName (name : string) : string := prefix 50 (replaceUnsafe name).

(** Whether every character of a name is in the class. *)
Fixpoint allSafe (name : string) : bool :=
  match name with
  | EmptyString => true
  | String c name' => isSafeChar c && allSafe name'
  end.

(** [handleDownload] of the viewer on a file of the given name; [now] is
    [Date.now()] and [createObjectURL] how [URL.createObjectURL] ends.  The
    value is the [download] name of the link that is clicked, if one is. *)
Definition handleDownload (createObjectURL : result string) (now : Z)
    (fileName : string) : M (option string) :=
  if negb (JsString.truthy fileName) then
    let! _ := emit (ToastError "Invalid file data") in
    ret None
  else
    let safe := safeFileName fileName in
    try_catch
      (let! url := lift createObjectURL in
       let download := safe +:+ "_" +:+ pretty now +:+ ".pdf" in
       let! _ := emit (ToastSuccess "Download started successfully") in
       ret (Some download))
      (λ error,
         let! _ := emit (ToastError "Download failed. Please try again.") in
         ret None).

End Download.

(** ** The drop zone: components/FileUpload *)

Module FileUpload.

(** A file that was dropped: its MIME type and the file itself. *)
Record Dropped := {
  type : string;
  file : History.File
}.

(** [onDrop], with [onFileSelect] wired to [handleFileSelect] of Index as
    the page wires it. *)
Definition onDrop (quota : History.Quota) (now : Z) (acceptedFiles : list Dropped)
    : Act History.state unit :=
  match head acceptedFiles with
  | Some dropped =>
      if decide (type dropped = "application/pdf")
      then History.handleFileSelect quota now (file dropped)
      else act_emit (ToastError "Please upload a PDF file")
  | None => act_emit (ToastError "Please upload a PDF file")
  end.

End FileUpload.

(** ** Notions used in the statements about the cache *)

Module Recent.

(** Whether an entry is kept when a file of the given name is inserted:
    its [name] is not that string. *)
Definition otherName (fileName : string) (item : json) : bool :=
  match History.entryName item with
  | Some (JString s) => negb (bool_decide (s = fileName))
  | _ => true
  end.

(** The entries a sequence of selections builds up when nothing is ever
    dropped for lack of room: the latest selection of each name, most
    recent first. *)
Fixpoint mostRecentFirst (selections : list (string * string * Z)) (acc : list json)
    : list json :=
  match selections with
  | [] => acc
  | (fileName, base64Data, now) :: selections' =>
      mostRecentFirst selections'
        (History.historyItem fileName base64Data now ::
         List.filter (otherName fileName) acc)
  end.

Definition select (selection : string * string * Z) : History.action :=
  let '(fileName, base64Data, now) := selection in
  History.Select {| History.name := fileName;
                    History.readAsDataURL := Ok base64Data |} now.

(** A storage whose history the handlers read without an error: the key
    is absent or empty, or its text parses to an array with no [null]
    entry. *)
Definition readable (ls : gmap string jsonText) : Prop :=
  (∀ t, ls !! History.key = Some t → JsString.truthy (raw t) = true →
        ∃ items, parsed t = Ok (JArray items)) ∧
  Forall (λ item, item ≠ JNull) (History.entries ls).


End Recent.

(** ** Sample inputs *)

Module Sample.

Definition longText : string :=
  "This page holds far more than fifty characters of embedded text.".

Definition pageOf (s : string) : PdfOCR.PDFPageProxy :=
  {| PdfOCR.getTextContent := Ok [s; "tail"];
     PdfOCR.render := Ok "data:image/png;base64,AAAA" |}.

(** A ten-page document whose page 4 is a scan with a stray mark of text. *)
Definition doc : PdfOCR.PDFDocumentProxy :=
  {| PdfOCR.numPages := 10;
     PdfOCR.getPage := λ p, if decide (p = 4) then Ok (pageOf " iv ")
                            else Ok (pageOf longText) |}.

Definition env : PdfOCR.Env :=
  {| PdfOCR.getDocument := Ok doc;
     PdfOCR.getContext2d := λ _, true;
     PdfOCR.recognize := λ _, Ok "recognised text" |}.

(** A three-page document whose page 2 cannot be read. *)
Definition brokenDoc : PdfOCR.PDFDocumentProxy :=
  {| PdfOCR.numPages := 3;
     PdfOCR.getPage := λ p,
       if decide (p = 2)
       then Ok {| PdfOCR.getTextContent := Throw "Invalid page request";
                  PdfOCR.render := Throw "Invalid page request" |}
       else Ok (pageOf longText) |}.

Definition brokenEnv : PdfOCR.Env :=
  {| PdfOCR.getDocument := Ok brokenDoc;
     PdfOCR.getContext2d := λ _, true;
     PdfOCR.recognize := λ _, Ok "recognised text" |}.

(** A one-page document with no text layer, on which recognition finds
    nothing. *)
Definition blankDoc : PdfOCR.PDFDocumentProxy :=
  {| PdfOCR.numPages := 1;
     PdfOCR.getPage := λ _, Ok {| PdfOCR.getTextContent := Ok [];
                                  PdfOCR.render := Ok "data:image/png;base64,AAAA" |} |}.

Definition blankEnv : PdfOCR.Env :=
  {| PdfOCR.getDocument := Ok blankDoc;
     PdfOCR.getContext2d := λ _, true;
     PdfOCR.recognize := λ _, Ok "" |}.

(** A viewer showing a document of [n] pages, split to [pages]. *)
Definition splitViewer (n : Z) (pages : list Z) : PDFViewer.state :=
  PDFViewer.setSplit pages
    {| PDFViewer.numPages := n; PDFViewer.currentPage := 1; PDFViewer.scale := 1;
       PDFViewer.splitPdfPages := []; PDFViewer.isSplit := false;
       PDFViewer.isLoading := false; PDFViewer.ocrText := "";
       PDFViewer.showChat := false; PDFViewer.isProcessingOCR := false |}.

(** A ten-page document split to pages 5 to 7. *)
Definition rangeViewer : PDFViewer.state := splitViewer 10 [5; 6; 7].

(** A viewer showing a document of [n] pages with no split. *)
Definition unsplitViewer (n : Z) : PDFViewer.state :=
  {| PDFViewer.numPages := n; PDFViewer.currentPage := 1; PDFViewer.scale := 1;
     PDFViewer.splitPdfPages := []; PDFViewer.isSplit := false;
     PDFViewer.isLoading := false; PDFViewer.ocrText := "";
     PDFViewer.showChat := false; PDFViewer.isProcessingOCR := false |}.

(** A storage whose history key holds a JSON object, not an array. *)
Definition objectStorage : gmap string jsonText :=
  {[ History.key := {| raw := "{}"; parsed := Ok (JObject []) |} ]}.

(** A storage whose history key holds text that is not JSON. *)
Definition garbledText : jsonText :=
  {| raw := "[{"; parsed := Throw "Unexpected end of JSON input" |}.

Definition garbledStorage : gmap string jsonText := {[ History.key := garbledText ]}.

(** A quota that refuses no write. *)
Definition roomy : History.Quota := λ _ _ _, false.

Fixpoint repeatChar (n : nat) (c : ascii) : string :=
  match n with
  | O => ""
  | S n' => String c (repeatChar n' c)
  end.

(** The base64 text of a file of a little over 4 MiB. *)
Definition largeData : string := repeatChar (Z.to_nat 5592408) "A".

Definition pdf (fileName base64Data : string) : History.File :=
  {| History.name := fileName; History.readAsDataURL := Ok base64Data |}.

(** A storage left by another writer: four entries, two of one name. *)
Definition crowded : History.state :=
  {| History.pdfFile := None;
     History.storage :=
       {[ History.key :=
            stringified
              (JArray [History.historyItem "x.pdf" "WA==" 1;
                       History.historyItem "a.pdf" "QQ==" 2;
                       History.historyItem "x.pdf" "WA==" 3;
                       History.historyItem "y.pdf" "WQ==" 4]) ]} |}.

(** A chat in which the user has typed a first question. *)
Definition asking : ChatBot.state :=
  ChatBot.setInput "What is on page 3?" ChatBot.initial.

(** The body of a 429 response, as completion endpoints send it: a JSON
    object with the error's message and code. *)
Definition tooManyRequests : jsonText :=
  stringified
    (JObject [("error", JObject [("message", JString "Too many requests");
                                 ("code", JNumber 429)])]).

End Sample.

(** ** Notions used in the statements about extraction *)

Module Extracted.

(** Whether [performOCR] counts a page as image-based: the flag of the
    loop body, [false] if the body throws. *)
Definition imageBased (env : PdfOCR.Env) (pdf : PdfOCR.PDFDocumentProxy) (p : Z) : bool :=
  match outcome (PdfOCR.extractPageText env pdf p) with
  | Ok (_, imageBased) => imageBased
  | Throw _ => false
  end.



End Extracted.

(** ** Further sample inputs *)

Module Scenario.

(** A three-page document whose page 2 is a scan, in a browser where text
    recognition fails. *)
Definition scanDoc : PdfOCR.PDFDocumentProxy :=
  {| PdfOCR.numPages := 3;
     PdfOCR.getPage := λ p, if decide (p = 2) then Ok (Sample.pageOf "")
                            else Ok (Sample.pageOf Sample.longText) |}.

Definition noWorker : PdfOCR.Env :=
  {| PdfOCR.getDocument := Ok scanDoc;
     PdfOCR.getContext2d := λ _, true;
     PdfOCR.recognize := λ _, Throw "Failed to load the recognition worker" |}.

(** A quota that refuses every write. *)
Definition full : History.Quota := λ _ _ _, true.


End Scenario.

(** * Properties *)

(** ** The effect monad *)

Lemma bind_unfold {A B} (m : M A) (f : A → M B) :
  bind m f =
    match outcome m with
    | Ok a => (trace m ++ trace (f a), outcome (f a))
    | Throw e => (trace m, Throw e)
    end.
Proof.
  destruct m as [t [a|e]]; unfold bind; simpl; [|done].
  by destruct (f a).
Qed.

Lemma elem_of_trace_bind {A B} (m : M A) (f : A → M B) (e : event) :
  e ∈ trace (bind m f) ↔
  e ∈ trace m ∨ ∃ a, outcome m = Ok a ∧ e ∈ trace (f a).
Proof.
  rewrite bind_unfold. destruct (outcome m) as [a|msg] eqn:Hm; simpl.
  - rewrite elem_of_app. split.
    + intros [?|?]; [by left|right; eauto].
    + intros [?|(a' & [= <-] & ?)]; [by left|by right].
  - split; [by left|]. by intros [?|(a & [=] & _)].
Qed.

Lemma Forall_trace_bind {A B} (P : event → Prop) (m : M A) (f : A → M B) :
  Forall P (trace m) →
  (∀ a, outcome m = Ok a → Forall P (trace (f a))) →
  Forall P (trace (bind m f)).
Proof.
  intros Hm Hf. rewrite bind_unfold.
  destruct (outcome m) as [a|msg] eqn:Ho; simpl; [|done].
  apply Forall_app. split; [done|]. by apply Hf.
Qed.

Lemma bind_ext {A B} (m : M A) (f g : A → M B) :
  (∀ a, f a = g a) → bind m f = bind m g.
Proof.
  intros Hfg. destruct m as [t [a|e]]; unfold bind; [|done]. by rewrite Hfg.
Qed.

Lemma outcome_bind_Ok {A B} (m : M A) (f : A → M B) (a : A) :
  outcome m = Ok a → outcome (bind m f) = outcome (f a).
Proof. intros H. by rewrite bind_unfold, H. Qed.

Lemma outcome_bind_Throw {A B} (m : M A) (f : A → M B) (msg : string) :
  outcome m = Throw msg → outcome (bind m f) = Throw msg.
Proof. intros H. by rewrite bind_unfold, H. Qed.

Lemma try_catch_unfold {A} (m : M A) (h : string → M A) :
  try_catch m h =
    match outcome m with
    | Ok a => (trace m, Ok a)
    | Throw e => (trace m ++ trace (h e), outcome (h e))
    end.
Proof.
  destruct m as [t [a|e]]; unfold try_catch; simpl; [done|].
  by destruct (h e).
Qed.

(** ** Text extraction *)

Section Extraction.
Import PdfOCR.

Variable env : Env.
Variable pdf : PDFDocumentProxy.

Lemma skip_iff (p : Z) :
  (numPages pdf <? p) || (p <? 1) = false ↔ inRange pdf p.
Proof. unfold inRange. rewrite orb_false_iff, !Z.ltb_ge. lia. Qed.

Lemma recognizeImages_events p images pageText :
  Forall (pageEvent p) (trace (recognizeImages env images pageText)).
Proof.
  revert pageText. induction images as [|url images IH]; intros pageText; simpl.
  - constructor.
  - apply Forall_trace_bind; [by repeat constructor|]. intros _ _.
    apply Forall_trace_bind; [constructor|]. intros txt _. apply IH.
Qed.

Lemma extractImagesFromPage_events p :
  Forall (pageEvent p) (trace (extractImagesFromPage env pdf p)).
Proof.
  unfold extractImagesFromPage.
  apply Forall_trace_bind; [by repeat constructor|]. intros _ _.
  apply Forall_trace_bind; [constructor|]. intros page _.
  destruct (getContext2d env p); simpl; [|constructor].
  apply Forall_trace_bind; [constructor|]. intros url _. constructor.
Qed.

Lemma extractPageText_events p :
  Forall (pageEvent p) (trace (extractPageText env pdf p)).
Proof.
  unfold extractPageText.
  apply Forall_trace_bind; [by repeat constructor|]. intros _ _.
  apply Forall_trace_bind; [constructor|]. intros page _.
  apply Forall_trace_bind; [constructor|]. intros items _.
  destruct (_ <? 50)%nat; [|constructor].
  apply Forall_trace_bind; [by repeat constructor|]. intros _ _.
  apply Forall_trace_bind; [apply extractImagesFromPage_events|]. intros images _.
  apply Forall_trace_bind; [apply recognizeImages_events|]. intros txt _.
  apply Forall_trace_bind; [by repeat constructor|]. intros _ _. constructor.
Qed.

(** Every event of the loop is an event of one of the in-range pages. *)
Lemma loop_events pageNumbers fullText count e :
  e ∈ trace (performOCR_loop env pdf pageNumbers fullText count) →
  ∃ q, q ∈ pageNumbers ∧ inRange pdf q ∧ e ∈ trace (extractPageText env pdf q).
Proof.
  revert fullText count.
  induction pageNumbers as [|p rest IH]; intros fullText count; simpl.
  - by intros ?%elem_of_nil.
  - destruct (_ || _) eqn:Hskip.
    + intros (q & ? & ?)%IH. exists q. split; [by right|done].
    + apply skip_iff in Hskip.
      intros [He|([txt b] & _ & (q & ? & ?)%IH)]%elem_of_trace_bind.
      * exists p. split; [by left|done].
      * exists q. split; [by right|done].
Qed.

(** A page that the loop starts to process logs all its events. *)
Lemma loop_reached pageNumbers fullText count p :
  GetTextContent p ∈ trace (performOCR_loop env pdf pageNumbers fullText count) →
  inRange pdf p ∧
  ∀ e, e ∈ trace (extractPageText env pdf p) →
       e ∈ trace (performOCR_loop env pdf pageNumbers fullText count).
Proof.
  revert fullText count.
  induction pageNumbers as [|q rest IH]; intros fullText count; simpl.
  - by intros ?%elem_of_nil.
  - destruct (_ || _) eqn:Hskip; [apply IH|].
    apply skip_iff in Hskip.
    intros [He|([txt b] & Hq & Hrest)]%elem_of_trace_bind.
    + pose proof (extractPageText_events q) as Hev.
      rewrite Forall_forall in Hev. apply Hev in He. simpl in He. subst q.
      split; [done|]. intros e ?. apply elem_of_trace_bind. by left.
    + apply IH in Hrest as [? Hall]. split; [done|].
      intros e ?. apply elem_of_trace_bind. right. eauto.
Qed.

End Extraction.

Section ExtractionResults.
Import PdfOCR.

Variable env : Env.
Variable pdf : PDFDocumentProxy.
Hypothesis Hdoc : getDocument env = Ok pdf.

Local Abbreviation loop := (performOCR_loop env pdf).

(** [performOCR] once the document is loaded: the loop, then the summary
    toast or the error toast. *)
Lemma performOCR_unfold pageNumbers :
  performOCR env pageNumbers =
    match outcome (loop pageNumbers "" 0%nat) with
    | Ok (fullText, count) =>
        (trace (loop pageNumbers "" 0%nat) ++
           (if (0 <? count)%nat
            then [ToastSuccess ("Advanced OCR completed on " +:+ pretty count +:+
                                " image-based pages")]
            else []),
         Ok {| text := if JsString.truthy fullText then fullText else noTextFound |})
    | Throw e =>
        (trace (loop pageNumbers "" 0%nat) ++
           [ToastError "Failed to extract text from PDF"], Throw e)
    end.
Proof.
  unfold performOCR. rewrite Hdoc.
  destruct (loop pageNumbers "" 0%nat) as [t [[fullText count]|e]] eqn:Hloop.
  - unfold try_catch, bind, lift; simpl. rewrite Hloop; simpl.
    destruct (0 <? count)%nat; simpl; by rewrite ?app_nil_r.
  - unfold try_catch, bind, lift; simpl. by rewrite Hloop.
Qed.

(** Calls to pdf.js and to the rasteriser are logged by the loop only. *)
Lemma performOCR_page_event pageNumbers e p :
  pageEvent p e →
  e ∈ trace (performOCR env pageNumbers) ↔ e ∈ trace (loop pageNumbers "" 0%nat).
Proof.
  intros He. rewrite performOCR_unfold.
  destruct (outcome _) as [[fullText count]|msg]; simpl; rewrite elem_of_app.
  - split; [|by left]. intros [?|Hin]; [done|].
    destruct (0 <? count)%nat; [|by apply elem_of_nil in Hin].
    apply list_elem_of_singleton in Hin. by subst e.
  - split; [|by left]. intros [?|Hin]; [done|].
    apply list_elem_of_singleton in Hin. by subst e.
Qed.

Lemma extractPageText_long p page items :
  getPage pdf p = Ok page →
  getTextContent page = Ok items →
  (50 ≤ String.length (JsString.trim (JsString.join " " items)))%nat →
  extractPageText env pdf p = ([GetTextContent p], Ok (JsString.join " " items, false)).
Proof.
  intros Hpage Hitems Hlen. unfold extractPageText. rewrite Hpage.
  unfold bind, lift, emit; simpl. rewrite Hitems; simpl.
  by apply Nat.ltb_ge in Hlen as ->.
Qed.

Lemma extractPageText_short p page items :
  getPage pdf p = Ok page →
  getTextContent page = Ok items →
  (String.length (JsString.trim (JsString.join " " items)) < 50)%nat →
  ExtractImages p ∈ trace (extractPageText env pdf p).
Proof.
  intros Hpage Hitems Hlen. unfold extractPageText.
  apply elem_of_trace_bind. right. exists tt. split; [done|].
  apply elem_of_trace_bind. right. exists page. split; [by rewrite Hpage|].
  apply elem_of_trace_bind. right. exists items. split; [by rewrite Hitems|].
  apply Nat.ltb_lt in Hlen as ->.
  apply elem_of_trace_bind. right. exists tt. split; [done|].
  apply elem_of_trace_bind. left.
  unfold extractImagesFromPage. apply elem_of_trace_bind. left. by left.
Qed.

(** Out-of-range pages leave no mark on the loop. *)
Lemma loop_filter pageNumbers fullText count :
  loop pageNumbers fullText count = loop (filter (inRange pdf) pageNumbers) fullText count.
Proof.
  revert fullText count.
  induction pageNumbers as [|p rest IH]; intros fullText count; [done|].
  rewrite filter_cons. simpl. destruct (_ || _) eqn:Hskip.
  - rewrite decide_False; [apply IH|].
    intros Hin%skip_iff. congruence.
  - rewrite decide_True by by apply skip_iff.
    simpl. rewrite Hskip. apply bind_ext. intros [txt b]. apply IH.
Qed.

End ExtractionResults.

Lemma string_app_assoc (s1 s2 s3 : string) :
  (s1 +:+ s2) +:+ s3 = s1 +:+ (s2 +:+ s3).
Proof.
  induction s1 as [|c s1 IH]; [done|].
  change (String c ((s1 +:+ s2) +:+ s3) = String c (s1 +:+ (s2 +:+ s3))).
  by rewrite IH.
Qed.

Lemma string_app_nil_l (s : string) : "" +:+ s = s.
Proof. done. Qed.

Lemma string_app_nil_r (s : string) : s +:+ "" = s.
Proof.
  induction s as [|c s IH]; [done|].
  change (String c (s +:+ "") = String c s). by rewrite IH.
Qed.

Section ExtractionOutcome.
Import PdfOCR.

Variable env : Env.
Variable pdf : PDFDocumentProxy.

Local Abbreviation loop := (performOCR_loop env pdf).
Local Abbreviation sections :=
  (λ l : list Z, JsString.concat (map (λ p, pageSection p (extractedText env pdf p)) l)).

(** The loop throws as soon as one in-range page does. *)
Lemma loop_throws pageNumbers fullText count p msg :
  p ∈ pageNumbers → inRange pdf p →
  outcome (extractPageText env pdf p) = Throw msg →
  ∃ msg', outcome (loop pageNumbers fullText count) = Throw msg'.
Proof.
  intros Hin Hp Hthrow. revert fullText count.
  induction pageNumbers as [|q rest IH]; intros fullText count.
  - by apply elem_of_nil in Hin.
  - simpl. destruct (_ || _) eqn:Hskip.
    + apply elem_of_cons in Hin as [->|Hin]; [|by apply IH].
      apply skip_iff in Hp. congruence.
    + destruct (outcome (extractPageText env pdf q)) as [[txt b]|msg'] eqn:Hq.
      * rewrite (outcome_bind_Ok _ _ _ Hq).
        apply elem_of_cons in Hin as [->|Hin]; [congruence|by apply IH].
      * exists msg'. by apply outcome_bind_Throw.
Qed.

(** When every in-range page yields a text, the loop appends their
    sections to [fullText], in order. *)
Lemma loop_outcome pageNumbers fullText count :
  (∀ p, p ∈ pageNumbers → inRange pdf p →
        ∃ r, outcome (extractPageText env pdf p) = Ok r) →
  ∃ count',
    outcome (loop pageNumbers fullText count) =
      Ok (fullText +:+ sections (filter (inRange pdf) pageNumbers), count').
Proof.
  revert fullText count.
  induction pageNumbers as [|p rest IH]; intros fullText count Hok.
  - exists count. simpl. by rewrite string_app_nil_r.
  - rewrite filter_cons. simpl. destruct (_ || _) eqn:Hskip.
    + rewrite decide_False by (intros ?%skip_iff; congruence).
      apply IH. intros q ?. apply Hok. by right.
    + apply skip_iff in Hskip. rewrite decide_True by done.
      destruct (Hok p) as [[txt b] Hp]; [by left|done|].
      rewrite (outcome_bind_Ok _ _ _ Hp).
      destruct (IH (fullText +:+ pageSection p txt)
                  (if b then S count else count)) as [count' ->].
      { intros q ?. apply Hok. by right. }
      exists count'. do 2 f_equal. simpl.
      unfold extractedText. rewrite Hp. by rewrite string_app_assoc.
Qed.

(** A loop that completes has appended the section of every in-range page. *)
Lemma loop_Ok_inv pageNumbers fullText count fullText' count' :
  outcome (loop pageNumbers fullText count) = Ok (fullText', count') →
  fullText' = fullText +:+ sections (filter (inRange pdf) pageNumbers).
Proof.
  intros Hloop.
  destruct (loop_outcome pageNumbers fullText count) as [c Hc]; [|congruence].
  intros p Hin Hp.
  destruct (outcome (extractPageText env pdf p)) as [r|msg] eqn:Hq; [eauto|].
  destruct (loop_throws pageNumbers fullText count p msg) as [? ?]; congruence.
Qed.

Lemma sections_truthy (l : list Z) :
  l ≠ [] → JsString.truthy (sections l) = true.
Proof. by destruct l. Qed.

Lemma sections_not_sentinel (l : list Z) : l ≠ [] → sections l ≠ noTextFound.
Proof. destruct l; [done|]. by intros _ [=]. Qed.

End ExtractionOutcome.

Lemma errorToasts_app (t1 t2 : list event) :
  errorToasts (t1 ++ t2) = errorToasts t1 ++ errorToasts t2.
Proof. apply omap_app. Qed.

Lemma errorToasts_pageEvents (t : list event) :
  (∀ e, e ∈ t → ∃ q, PdfOCR.pageEvent q e) → errorToasts t = [].
Proof.
  induction t as [|e t IH]; intros Hall; [done|].
  unfold errorToasts in *. simpl.
  destruct (Hall e) as [q Hq]; [by left|].
  destruct e; try done; apply IH; intros e' ?; apply Hall; by right.
Qed.

Lemma errorToasts_loop env pdf pageNumbers fullText count :
  errorToasts (trace (PdfOCR.performOCR_loop env pdf pageNumbers fullText count)) = [].
Proof.
  apply errorToasts_pageEvents. intros e (q & _ & _ & Hq)%loop_events.
  exists q. pose proof (extractPageText_events env pdf q) as Hev.
  rewrite Forall_forall in Hev. by apply Hev.
Qed.

Lemma pageSection_eq (p : Z) (pageText : string) :
  PdfOCR.pageSection p pageText =
  "Page " +:+ pretty p +:+ ":" +:+ String "010" "" +:+
  JsString.trim pageText +:+ String "010" "" +:+ String "010" "".
Proof.
  unfold PdfOCR.pageSection, PdfOCR.pageHeader.
  by rewrite !string_app_assoc.
Qed.

(** What [extractImagesFromPage] returns for a page that can be fetched:
    no image without a 2d context, the rendering of the page otherwise. *)
Lemma extractImagesFromPage_outcome (env : PdfOCR.Env) (pdf : PdfOCR.PDFDocumentProxy)
    (p : Z) (page : PdfOCR.PDFPageProxy) :
  PdfOCR.getPage pdf p = Ok page →
  PdfOCR.extractImagesFromPage env pdf p =
    ([ExtractImages p],
     if PdfOCR.getContext2d env p
     then match PdfOCR.render page with
          | Ok imageDataUrl => Ok [imageDataUrl]
          | Throw e => Throw e
          end
     else Ok []).
Proof.
  intros Hpage. unfold PdfOCR.extractImagesFromPage, bind, emit, lift, ret.
  rewrite Hpage. destruct (PdfOCR.getContext2d env p); [|done].
  by destruct (PdfOCR.render page).
Qed.

(** The body of the loop on a short page whose rendering succeeds calls
    the recognition engine on the rendered image. *)
Lemma extractPageText_recognizes (env : PdfOCR.Env) (pdf : PdfOCR.PDFDocumentProxy)
    (p : Z) (page : PdfOCR.PDFPageProxy) (items : list string) (imageUrl : string) :
  PdfOCR.getPage pdf p = Ok page →
  PdfOCR.getTextContent page = Ok items →
  (String.length (JsString.trim (JsString.join " " items)) < 50)%nat →
  PdfOCR.getContext2d env p = true →
  PdfOCR.render page = Ok imageUrl →
  Recognize imageUrl ∈ trace (PdfOCR.extractPageText env pdf p).
Proof.
  intros Hpage Hitems Hlen Hcontext Hrender. unfold PdfOCR.extractPageText.
  apply elem_of_trace_bind. right. exists tt. split; [done|].
  apply elem_of_trace_bind. right. exists page. split; [by rewrite Hpage|].
  apply elem_of_trace_bind. right. exists items. split; [by rewrite Hitems|].
  apply Nat.ltb_lt in Hlen as ->.
  apply elem_of_trace_bind. right. exists tt. split; [done|].
  apply elem_of_trace_bind. right. exists [imageUrl]. split.
  { rewrite (extractImagesFromPage_outcome env pdf p page Hpage).
    by rewrite Hcontext, Hrender. }
  apply elem_of_trace_bind. left. cbn [PdfOCR.recognizeImages].
  apply elem_of_trace_bind. left. by left.
Qed.

(** A call of the recognition engine in the body of the loop is on the
    rendering of the page, and the native text of the page is short. *)
Lemma recognize_origin (env : PdfOCR.Env) (pdf : PdfOCR.PDFDocumentProxy)
    (p : Z) (imageUrl : string) :
  Recognize imageUrl ∈ trace (PdfOCR.extractPageText env pdf p) →
  ∃ page items,
    PdfOCR.getPage pdf p = Ok page ∧
    PdfOCR.getTextContent page = Ok items ∧
    (String.length (JsString.trim (JsString.join " " items)) < 50)%nat ∧
    PdfOCR.getContext2d env p = true ∧
    PdfOCR.render page = Ok imageUrl.
Proof.
  unfold PdfOCR.extractPageText.
  rewrite bind_unfold. cbn [outcome trace emit snd fst].
  rewrite bind_unfold. cbn [outcome trace lift snd fst].
  destruct (PdfOCR.getPage pdf p) as [page|e] eqn:Hpage;
    [|by intros [=]%list_elem_of_singleton].
  rewrite bind_unfold. cbn [outcome trace lift snd fst].
  destruct (PdfOCR.getTextContent page) as [items|e] eqn:Hitems;
    [|by intros [=]%list_elem_of_singleton].
  destruct (_ <? 50)%nat eqn:Hlen; [|by intros [=]%list_elem_of_singleton].
  apply Nat.ltb_lt in Hlen.
  rewrite bind_unfold. cbn [outcome trace emit snd fst].
  rewrite bind_unfold, (extractImagesFromPage_outcome env pdf p page Hpage).
  cbn [outcome trace snd fst app].
  destruct (PdfOCR.getContext2d env p) eqn:Hcontext.
  - destruct (PdfOCR.render page) as [url|e] eqn:Hrender.
    + cbn [PdfOCR.recognizeImages]. unfold bind, emit, lift, ret.
      intros Hin. exists page, items. repeat split; try done.
      destruct (PdfOCR.recognize env url); cbn [trace fst app] in Hin;
        repeat (apply elem_of_cons in Hin as [Hin|Hin]; try discriminate);
        try (by apply elem_of_nil in Hin); by injection Hin as ->.
    + intros Hin. exfalso.
      repeat (apply elem_of_cons in Hin as [[=]|Hin]). by apply elem_of_nil in Hin.
  - cbn [PdfOCR.recognizeImages]. unfold bind, emit, ret. cbn [trace fst app].
    intros Hin. exfalso.
    repeat (apply elem_of_cons in Hin as [[=]|Hin]). by apply elem_of_nil in Hin.
Qed.

(** C3.  For every page that [performOCR] processes (its text content is
    requested during the run), with [items] the runs of its native text.
    If the native text, trimmed, has at least 50 characters, the slow path
    is not entered for that page: the page is not rasterised, the steps
    of the run for it are the request of its text alone, and its text is
    the native one.  If it has fewer than 50, the slow path is entered:
    the page is handed to [extractImagesFromPage], and the recognition
    engine is called on the image of the page as soon as the page is
    rendered.  Throughout the run, the recognition engine is only ever
    called on the rendering of a requested page whose native text,
    trimmed, has fewer than 50 characters. *)
Theorem fallback_iff_short_text (env : PdfOCR.Env) (pdf : PdfOCR.PDFDocumentProxy)
    (pageNumbers : list Z) (p : Z) (page : PdfOCR.PDFPageProxy) (items : list string) :
  PdfOCR.getDocument env = Ok pdf →
  GetTextContent p ∈ trace (PdfOCR.performOCR env pageNumbers) →
  PdfOCR.getPage pdf p = Ok page →
  PdfOCR.getTextContent page = Ok items →
  let nativeText := JsString.join " " items in
  ((50 ≤ String.length (JsString.trim nativeText))%nat →
     (ExtractImages p ∉ trace (PdfOCR.performOCR env pageNumbers)) ∧
     trace (PdfOCR.extractPageText env pdf p) = [GetTextContent p] ∧
     PdfOCR.extractedText env pdf p = nativeText) ∧
  ((String.length (JsString.trim nativeText) < 50)%nat →
     ExtractImages p ∈ trace (PdfOCR.performOCR env pageNumbers) ∧
     ∀ imageUrl,
       PdfOCR.getContext2d env p = true →
       PdfOCR.render page = Ok imageUrl →
       Recognize imageUrl ∈ trace (PdfOCR.performOCR env pageNumbers)) ∧
  (∀ imageUrl,
     Recognize imageUrl ∈ trace (PdfOCR.performOCR env pageNumbers) →
     ∃ q page' items',
       q ∈ pageNumbers ∧
       PdfOCR.getPage pdf q = Ok page' ∧
       PdfOCR.getTextContent page' = Ok items' ∧
       (String.length (JsString.trim (JsString.join " " items')) < 50)%nat ∧
       PdfOCR.getContext2d env q = true ∧
       PdfOCR.render page' = Ok imageUrl).
Proof.
  intros Hdoc Hreached Hpage Hitems nativeText. split; [|split].
  - intros Hlen. split; [|split].
    + intros Hin.
      apply (performOCR_page_event env pdf Hdoc _ _ p) in Hin; [|done].
      apply loop_events in Hin as (q & _ & _ & Hq).
      pose proof (extractPageText_events env pdf q) as Hev.
      rewrite Forall_forall in Hev. pose proof (Hev _ Hq) as Heq.
      simpl in Heq. subst q.
      rewrite (extractPageText_long env pdf p page items) in Hq by done.
      simpl in Hq. by apply list_elem_of_singleton in Hq.
    + by rewrite (extractPageText_long env pdf p page items).
    + unfold PdfOCR.extractedText.
      by rewrite (extractPageText_long env pdf p page items).
  - intros Hlen.
    apply (performOCR_page_event env pdf Hdoc _ _ p) in Hreached; [|done].
    apply loop_reached in Hreached as [_ Hall]. split.
    + apply (performOCR_page_event env pdf Hdoc _ _ p); [done|].
      apply Hall. by apply (extractPageText_short env pdf p page items).
    + intros imageUrl Hcontext Hrender.
      apply (performOCR_page_event env pdf Hdoc _ _ p); [done|].
      apply Hall. by apply (extractPageText_recognizes env pdf p page items).
  - intros imageUrl Hin.
    apply (performOCR_page_event env pdf Hdoc _ _ p) in Hin; [|done].
    apply loop_events in Hin as (q & Hq & _ & Hin).
    apply recognize_origin in Hin as (page' & items' & ? & ? & ? & ? & ?).
    by exists q, page', items'.
Qed.

(** C4.  For every list of in-range page numbers whose pages can all be
    extracted, [performOCR] returns, and the text it returns is the
    concatenation, in the order of the list, of one section per page: the
    header [Page <n>:], a line break, the page's extracted text (trimmed)
    and a blank line.  For the empty list the text is the sentinel, which
    holds no section. *)
Theorem performOCR_sections (env : PdfOCR.Env) (pdf : PdfOCR.PDFDocumentProxy)
    (pageNumbers : list Z) :
  PdfOCR.getDocument env = Ok pdf →
  (∀ p, p ∈ pageNumbers → 1 ≤ p ≤ PdfOCR.numPages pdf) →
  (∀ p, p ∈ pageNumbers → ∃ r, outcome (PdfOCR.extractPageText env pdf p) = Ok r) →
  outcome (PdfOCR.performOCR env pageNumbers) =
    Ok {| PdfOCR.text :=
            match pageNumbers with
            | [] => PdfOCR.noTextFound
            | _ =>
                JsString.concat
                  (map (λ p, "Page " +:+ pretty p +:+ ":" +:+ String "010" "" +:+
                             JsString.trim (PdfOCR.extractedText env pdf p) +:+
                             String "010" "" +:+ String "010" "")
                       pageNumbers)
            end |}.
Proof.
  intros Hdoc Hrange Hok.
  rewrite (performOCR_unfold env pdf Hdoc).
  destruct (loop_outcome env pdf pageNumbers "" 0%nat) as [count Hloop].
  { intros p ? _. by apply Hok. }
  rewrite Hloop. simpl. do 2 f_equal.
  assert (filter (PdfOCR.inRange pdf) pageNumbers = pageNumbers) as ->.
  { clear -Hrange. induction pageNumbers as [|p rest IH]; [done|].
    rewrite filter_cons, decide_True by (apply Hrange; by left).
    f_equal. apply IH. intros q ?. apply Hrange. by right. }
  destruct pageNumbers as [|p rest]; [done|].
  rewrite string_app_nil_l, sections_truthy by done.
  unfold JsString.concat. f_equal.
  apply map_ext. intros q. apply pageSection_eq.
Qed.

(** C10, amended.  Out-of-range page numbers are skipped silently: the run
    (result, calls and toasts) is the run on the list without them.  If no
    requested page is in range, the result is the sentinel and nothing is
    logged.  If some requested page is in range and the run completes, the
    text is the concatenation of the sections of the in-range pages and is
    not the sentinel, whatever the pages' texts are. *)
Theorem out_of_range_pages_skipped (env : PdfOCR.Env) (pdf : PdfOCR.PDFDocumentProxy)
    (pageNumbers : list Z) :
  PdfOCR.getDocument env = Ok pdf →
  let kept := filter (PdfOCR.inRange pdf) pageNumbers in
  PdfOCR.performOCR env pageNumbers = PdfOCR.performOCR env kept ∧
  (kept = [] →
     PdfOCR.performOCR env pageNumbers = ([], Ok {| PdfOCR.text := PdfOCR.noTextFound |})) ∧
  (kept ≠ [] →
     ∀ r, outcome (PdfOCR.performOCR env pageNumbers) = Ok r →
          PdfOCR.text r =
            JsString.concat
              (map (λ p, PdfOCR.pageSection p (PdfOCR.extractedText env pdf p)) kept) ∧
          PdfOCR.text r ≠ PdfOCR.noTextFound).
Proof.
  intros Hdoc kept.
  assert (PdfOCR.performOCR env pageNumbers = PdfOCR.performOCR env kept) as Heq.
  { rewrite !(performOCR_unfold env pdf Hdoc).
    by rewrite (loop_filter env pdf pageNumbers). }
  split; [done|]. split.
  - intros Hnil. rewrite Heq, Hnil. unfold PdfOCR.performOCR. by rewrite Hdoc.
  - intros Hne r. rewrite (performOCR_unfold env pdf Hdoc).
    destruct (outcome (PdfOCR.performOCR_loop env pdf pageNumbers "" 0%nat))
      as [[fullText count]|msg] eqn:Hloop; [|done].
    apply loop_Ok_inv in Hloop. rewrite string_app_nil_l in Hloop. subst fullText.
    intros [= <-]. simpl. fold kept.
    rewrite (sections_truthy env pdf kept Hne).
    split; [done|]. by apply sections_not_sentinel.
Qed.

Lemma fallback_iff_short_text_witness :
  let nativeText := JsString.join " " [" iv "; "tail"] in
  ((50 ≤ String.length (JsString.trim nativeText))%nat →
     (ExtractImages 4 ∉ trace (PdfOCR.performOCR Sample.env [3; 4; 5])) ∧
     trace (PdfOCR.extractPageText Sample.env Sample.doc 4) = [GetTextContent 4] ∧
     PdfOCR.extractedText Sample.env Sample.doc 4 = nativeText) ∧
  ((String.length (JsString.trim nativeText) < 50)%nat →
     ExtractImages 4 ∈ trace (PdfOCR.performOCR Sample.env [3; 4; 5]) ∧
     ∀ imageUrl,
       PdfOCR.getContext2d Sample.env 4 = true →
       PdfOCR.render (Sample.pageOf " iv ") = Ok imageUrl →
       Recognize imageUrl ∈ trace (PdfOCR.performOCR Sample.env [3; 4; 5])) ∧
  (∀ imageUrl,
     Recognize imageUrl ∈ trace (PdfOCR.performOCR Sample.env [3; 4; 5]) →
     ∃ q page' items',
       q ∈ [3; 4; 5] ∧
       PdfOCR.getPage Sample.doc q = Ok page' ∧
       PdfOCR.getTextContent page' = Ok items' ∧
       (String.length (JsString.trim (JsString.join " " items')) < 50)%nat ∧
       PdfOCR.getContext2d Sample.env q = true ∧
       PdfOCR.render page' = Ok imageUrl).
Proof.
  apply (fallback_iff_short_text Sample.env Sample.doc [3; 4; 5] 4
           (Sample.pageOf " iv ") [" iv "; "tail"]).
  - reflexivity.
  - apply (bool_decide_unpack _). vm_compute. exact I.
  - reflexivity.
  - reflexivity.
Defined.

Lemma performOCR_sections_witness :
  outcome (PdfOCR.performOCR Sample.env [3; 4; 5]) =
    Ok {| PdfOCR.text :=
            JsString.concat
              (map (λ p, "Page " +:+ pretty p +:+ ":" +:+ String "010" "" +:+
                         JsString.trim (PdfOCR.extractedText Sample.env Sample.doc p) +:+
                         String "010" "" +:+ String "010" "")
                   [3; 4; 5]) |}.
Proof.
  apply (performOCR_sections Sample.env Sample.doc [3; 4; 5]).
  - reflexivity.
  - intros p Hp. rewrite !elem_of_cons, elem_of_nil in Hp.
    destruct Hp as [->|[->|[->|[]]]]; simpl; lia.
  - intros p Hp. rewrite !elem_of_cons, elem_of_nil in Hp.
    destruct Hp as [->|[->|[->|[]]]]; eexists; vm_compute; reflexivity.
Defined.

Lemma out_of_range_pages_skipped_witness :
  let kept := filter (PdfOCR.inRange Sample.doc) [0; 3; 11] in
  PdfOCR.performOCR Sample.env [0; 3; 11] = PdfOCR.performOCR Sample.env kept ∧
  (kept = [] →
     PdfOCR.performOCR Sample.env [0; 3; 11] =
       ([], Ok {| PdfOCR.text := PdfOCR.noTextFound |})) ∧
  (kept ≠ [] →
     ∀ r, outcome (PdfOCR.performOCR Sample.env [0; 3; 11]) = Ok r →
          PdfOCR.text r =
            JsString.concat
              (map (λ p, PdfOCR.pageSection p
                           (PdfOCR.extractedText Sample.env Sample.doc p)) kept) ∧
          PdfOCR.text r ≠ PdfOCR.noTextFound).
Proof.
  apply (out_of_range_pages_skipped Sample.env Sample.doc [0; 3; 11]).
  reflexivity.
Defined.

(** C10, as stated, fails: a page that yields empty text still adds its
    header, so the text returned is not the sentinel. *)
Lemma empty_text_is_not_sentinel :
  PdfOCR.performOCR Sample.blankEnv [1] =
    ([GetTextContent 1;
      ToastLoading "Page 1 appears to be image-based, using advanced OCR..."
        (CustomId "ocr-page-1");
      ExtractImages 1; Recognize "data:image/png;base64,AAAA";
      ToastDismiss (CustomId "ocr-page-1");
      ToastSuccess "Advanced OCR completed on 1 image-based pages"],
     Ok {| PdfOCR.text := "Page 1:" +:+ String "010" (String "010" (String "010" "")) |})
  ∧ outcome (PdfOCR.performOCR Sample.blankEnv [1]) ≠
      Ok {| PdfOCR.text := PdfOCR.noTextFound |}.
Proof. split; [by vm_compute|]. vm_compute. by intros [=]. Qed.

Lemma handlePerformOCR_throw env st t msg :
  PDFViewer.isSplit st = true →
  PDFViewer.splitPdfPages st ≠ [] →
  PdfOCR.performOCR env (PDFViewer.splitPdfPages st) = (t, Throw msg) →
  PDFViewer.handlePerformOCR env st =
    ([ToastLoading "Extracting text from PDF pages..." PDFViewer.extractingToast] ++ t ++
       [ToastDismiss PDFViewer.extractingToast;
        ToastError "Failed to extract text from PDF. Please try again."],
     Ok (PDFViewer.setIsProcessingOCR false (PDFViewer.setIsProcessingOCR true st))).
Proof.
  intros Hsplit Hne Hocr. unfold PDFViewer.handlePerformOCR. rewrite Hsplit.
  destruct (PDFViewer.splitPdfPages st) as [|q rest] eqn:Hpages; [done|].
  simpl negb. simpl orb. cbv iota.
  change (PDFViewer.splitPdfPages (PDFViewer.setIsProcessingOCR true st))
    with (PDFViewer.splitPdfPages st).
  rewrite Hpages, Hocr. unfold bind, try_catch, emit, ret. simpl.
  by rewrite app_nil_r.
Qed.

(** C2, amended.  When the extraction of some requested in-range page
    throws, [performOCR] throws for the whole batch; [handlePerformOCR]
    then leaves the extracted-text record and the chat flag as they were,
    clears the processing flag, and two error toasts are shown: one by
    [performOCR], one by [handlePerformOCR]. *)
Theorem failing_page_aborts_batch (env : PdfOCR.Env) (pdf : PdfOCR.PDFDocumentProxy)
    (st : PDFViewer.state) (p : Z) (msg : string) :
  PDFViewer.isSplit st = true →
  PdfOCR.getDocument env = Ok pdf →
  p ∈ PDFViewer.splitPdfPages st →
  1 ≤ p ≤ PdfOCR.numPages pdf →
  outcome (PdfOCR.extractPageText env pdf p) = Throw msg →
  (∃ msg', outcome (PdfOCR.performOCR env (PDFViewer.splitPdfPages st)) = Throw msg') ∧
  (∃ st', outcome (PDFViewer.handlePerformOCR env st) = Ok st' ∧
          PDFViewer.ocrText st' = PDFViewer.ocrText st ∧
          PDFViewer.showChat st' = PDFViewer.showChat st ∧
          PDFViewer.splitPdfPages st' = PDFViewer.splitPdfPages st ∧
          PDFViewer.isProcessingOCR st' = false) ∧
  errorToasts (trace (PDFViewer.handlePerformOCR env st)) =
    ["Failed to extract text from PDF";
     "Failed to extract text from PDF. Please try again."].
Proof.
  intros Hsplit Hdoc Hin Hp Hthrow.
  destruct (loop_throws env pdf (PDFViewer.splitPdfPages st) "" 0%nat p msg)
    as [msg' Hloop]; [done..|].
  assert (PdfOCR.performOCR env (PDFViewer.splitPdfPages st) =
          (trace (PdfOCR.performOCR_loop env pdf (PDFViewer.splitPdfPages st) "" 0%nat)
             ++ [ToastError "Failed to extract text from PDF"], Throw msg')) as Hocr.
  { by rewrite (performOCR_unfold env pdf Hdoc), Hloop. }
  split; [exists msg'; by rewrite Hocr|].
  assert (PDFViewer.splitPdfPages st ≠ []) as Hne.
  { intros Hnil. rewrite Hnil in Hin. by apply elem_of_nil in Hin. }
  rewrite (handlePerformOCR_throw env st _ msg' Hsplit Hne Hocr).
  split.
  - eexists. split; [reflexivity|]. by repeat split.
  - change (trace (?t, _)) with t.
    rewrite (errorToasts_app [_]), !errorToasts_app, errorToasts_loop. done.
Qed.

Lemma failing_page_aborts_batch_witness :
  (∃ msg', outcome (PdfOCR.performOCR Sample.brokenEnv [1; 2; 3]) = Throw msg') ∧
  (∃ st', outcome (PDFViewer.handlePerformOCR Sample.brokenEnv
                     (Sample.splitViewer 3 [1; 2; 3])) = Ok st' ∧
          PDFViewer.ocrText st' = "" ∧
          PDFViewer.showChat st' = false ∧
          PDFViewer.splitPdfPages st' = [1; 2; 3] ∧
          PDFViewer.isProcessingOCR st' = false) ∧
  errorToasts (trace (PDFViewer.handlePerformOCR Sample.brokenEnv
                        (Sample.splitViewer 3 [1; 2; 3]))) =
    ["Failed to extract text from PDF";
     "Failed to extract text from PDF. Please try again."].
Proof.
  apply (failing_page_aborts_batch Sample.brokenEnv Sample.brokenDoc
           (Sample.splitViewer 3 [1; 2; 3]) 2 "Invalid page request").
  - reflexivity.
  - reflexivity.
  - apply (bool_decide_unpack _). vm_compute. exact I.
  - simpl. lia.
  - vm_compute. reflexivity.
Defined.

(** C2, as stated, fails: the failure of one page is surfaced by two error
    toasts, not one. *)
Lemma failure_is_surfaced_twice :
  trace (PDFViewer.handlePerformOCR Sample.brokenEnv (Sample.splitViewer 3 [1; 2; 3])) =
    [ToastLoading "Extracting text from PDF pages..."
       (ReturnedId "Extracting text from PDF pages...");
     GetTextContent 1; GetTextContent 2;
     ToastError "Failed to extract text from PDF";
     ToastDismiss (ReturnedId "Extracting text from PDF pages...");
     ToastError "Failed to extract text from PDF. Please try again."]
  ∧ length (errorToasts
      (trace (PDFViewer.handlePerformOCR Sample.brokenEnv
                (Sample.splitViewer 3 [1; 2; 3])))) ≠ 1%nat.
Proof. split; [by vm_compute|]. vm_compute. lia. Qed.

(** ** Split *)

Lemma arrayFrom_seqZ (start len : Z) :
  PDFViewer.arrayFrom len (λ i, start + i) = seqZ start len.
Proof.
  unfold PDFViewer.arrayFrom, seqZ. apply map_ext. intros i. lia.
Qed.

(** C6.  For every [(start, end)] with [1 ≤ start ≤ end ≤ numPages], the
    split control fires the viewer's [handleSplit], after which the active
    page sequence is exactly [start, start+1, ..., end] and the current
    page is [start]. *)
Theorem split_sets_page_range (c : PDFControls.state) (v : PDFViewer.state) :
  1 ≤ PDFControls.startPage c →
  PDFControls.startPage c ≤ PDFControls.endPage c →
  PDFControls.endPage c ≤ PDFViewer.numPages v →
  let start := PDFControls.startPage c in
  let end_ := PDFControls.endPage c in
  ∃ v', outcome (PDFControls.handleSplit c v) =
          Ok (PDFControls.setShowSplitControls false c, v') ∧
        outcome (PDFViewer.handleSplit start end_ v) = Ok v' ∧
        PDFViewer.pages v' = seqZ start (end_ - start + 1) ∧
        (∀ p, p ∈ PDFViewer.pages v' ↔ start ≤ p ≤ end_) ∧
        PDFViewer.currentPage v' = start.
Proof.
  intros H1 H2 H3 start end_.
  unfold PDFControls.handleSplit.
  destruct (_ && _) eqn:Hguard.
  2: { rewrite !andb_false_iff, !Z.leb_gt in Hguard. lia. }
  unfold PDFViewer.handleSplit, bind, emit, ret; simpl.
  eexists. split; [reflexivity|]. split; [reflexivity|].
  unfold PDFViewer.pages; simpl. rewrite arrayFrom_seqZ.
  split; [done|]. split; [|done].
  intros p. rewrite elem_of_seqZ. subst start end_. lia.
Qed.

Lemma split_sets_page_range_witness :
  ∃ v', outcome (PDFControls.handleSplit
                   {| PDFControls.startPage := 2; PDFControls.endPage := 4;
                      PDFControls.showSplitControls := true |}
                   (PDFViewer.setCurrentPage 7 (Sample.splitViewer 10 [1]))) =
          Ok ({| PDFControls.startPage := 2; PDFControls.endPage := 4;
                 PDFControls.showSplitControls := false |}, v') ∧
        outcome (PDFViewer.handleSplit 2 4
                   (PDFViewer.setCurrentPage 7 (Sample.splitViewer 10 [1]))) = Ok v' ∧
        PDFViewer.pages v' = seqZ 2 (4 - 2 + 1) ∧
        (∀ p, p ∈ PDFViewer.pages v' ↔ 2 ≤ p ≤ 4) ∧
        PDFViewer.currentPage v' = 2.
Proof.
  apply (split_sets_page_range
           {| PDFControls.startPage := 2; PDFControls.endPage := 4;
              PDFControls.showSplitControls := true |}
           (PDFViewer.setCurrentPage 7 (Sample.splitViewer 10 [1])));
    simpl; lia.
Defined.

(** C7.  For every invalid range ([start > end], [start < 1] or
    [end > numPages]) the split control does nothing: the viewer's state
    (active page sequence, current page, split flag) and the control's own
    state are unchanged, and nothing is shown. *)
Theorem invalid_split_is_ignored (c : PDFControls.state) (v : PDFViewer.state) :
  PDFControls.endPage c < PDFControls.startPage c ∨
  PDFControls.startPage c < 1 ∨
  PDFViewer.numPages v < PDFControls.endPage c →
  PDFControls.handleSplit c v = ([], Ok (c, v)).
Proof.
  intros Hbad. unfold PDFControls.handleSplit.
  destruct (_ && _) eqn:Hguard; [|done].
  apply andb_prop in Hguard as [[?%Z.leb_le ?%Z.leb_le]%andb_prop ?%Z.leb_le]. lia.
Qed.

Lemma invalid_split_is_ignored_witness :
  PDFControls.handleSplit
    {| PDFControls.startPage := 4; PDFControls.endPage := 12;
       PDFControls.showSplitControls := true |}
    (Sample.splitViewer 10 [1; 2]) =
  ([], Ok ({| PDFControls.startPage := 4; PDFControls.endPage := 12;
              PDFControls.showSplitControls := true |},
           Sample.splitViewer 10 [1; 2])).
Proof.
  apply (invalid_split_is_ignored
           {| PDFControls.startPage := 4; PDFControls.endPage := 12;
              PDFControls.showSplitControls := true |}
           (Sample.splitViewer 10 [1; 2])).
  right. right. simpl. lia.
Defined.

(** ** Jump to page *)

(** X1.  A target that is not a number, or lies outside [1, totalPages],
    is rejected: an error toast is shown, nothing is scrolled, and the
    navigator and the viewer keep their state. *)
Theorem jump_out_of_range_is_rejected (n : PDFPageNavigator.state) (v : PDFViewer.state) :
  PDFPageNavigator.parseInt (PDFPageNavigator.jumpToPage n) = None ∨
  (∃ p, PDFPageNavigator.parseInt (PDFPageNavigator.jumpToPage n) = Some p ∧
        (p < 1 ∨ PDFViewer.totalPages v < p)) →
  PDFPageNavigator.handleJumpToPage n v =
    Some ([ToastError ("Please enter a valid page number between 1 and " +:+
                       pretty (PDFViewer.totalPages v))],
          Ok (n, v)).
Proof.
  unfold PDFPageNavigator.handleJumpToPage.
  intros [->|(p & -> & Hp)]; [done|].
  destruct (_ || _) eqn:Hguard; [done|].
  rewrite orb_false_iff, !Z.ltb_ge in Hguard. lia.
Qed.

Lemma jump_out_of_range_is_rejected_witness :
  PDFPageNavigator.handleJumpToPage
    {| PDFPageNavigator.isDialogOpen := true; PDFPageNavigator.jumpToPage := "4" |}
    Sample.rangeViewer =
  Some ([ToastError ("Please enter a valid page number between 1 and " +:+
                     pretty (PDFViewer.totalPages Sample.rangeViewer))],
        Ok ({| PDFPageNavigator.isDialogOpen := true;
               PDFPageNavigator.jumpToPage := "4" |},
            Sample.splitViewer 10 [5; 6; 7])).
Proof.
  apply (jump_out_of_range_is_rejected
           {| PDFPageNavigator.isDialogOpen := true; PDFPageNavigator.jumpToPage := "4" |}
           Sample.rangeViewer).
  right. exists 4. split; [reflexivity|]. right. vm_compute. reflexivity.
Defined.

(** An integer below [2 ^ 53] in magnitude is a double. *)
Lemma roundPos_integer (a : positive) :
  Z.pos a < 2 ^ 53 → Double.roundPos a 1 = inject_Z (Z.pos a).
Proof.
  intros Ha. unfold Double.roundPos.
  destruct (Z.log2_spec (Z.pos a)) as [Hlow Hhigh]; [lia|].
  pose proof (Z.log2_nonneg (Z.pos a)) as Hnonneg.
  assert (Z.log2 (Z.pos a) < 53) as Hlog by (apply Z.log2_lt_pow2; lia).
  assert (Double.ilog2 a 1 = Z.log2 (Z.pos a)) as ->.
  { unfold Double.ilog2. change (Z.log2 (Z.pos 1)) with 0. rewrite Z.sub_0_r.
    rewrite Z.max_l, Z.max_r by lia. rewrite Z.pow_0_r.
    destruct (Z.leb_spec (1 * 2 ^ Z.log2 (Z.pos a)) (Z.pos a * 1)); [done|lia]. }
  set (l := Z.log2 (Z.pos a)) in *.
  rewrite (Z.max_l (l - 52) (-1074)) by lia.
  rewrite (Z.max_l (- (l - 52)) 0), (Z.max_r (l - 52) 0) by lia.
  unfold Double.nearestEven.
  rewrite Z.pow_0_r. change (1 * 1) with 1. rewrite Z.div_1_r, Z.mod_1_r.
  change (2 * 0 ?= 1) with Lt. cbv iota.
  rewrite <- (inject_Z_Qred (Z.pos a)). apply Qred_complete.
  unfold Double.pow2, Qeq, inject_Z. cbn [Qmult Qnum Qden].
  assert (0 < 2 ^ (- (l - 52))) as Hpow by (apply Z.pow_pos_nonneg; lia).
  destruct (0 <=? l - 52) eqn:Hexact.
  - apply Z.leb_le in Hexact. assert (l - 52 = 0) as -> by lia.
    cbn [Z.opp Z.pow Z.pow_pos Pos.iter Qnum Qden Pos.mul]. lia.
  - cbn [Qnum Qden]. rewrite Pos2Z.inj_mul, Z2Pos.id by done. lia.
Qed.

Lemma round_integer (z : Z) :
  - 2 ^ 53 < z < 2 ^ 53 → Double.round (inject_Z z) = inject_Z z.
Proof.
  intros Hz. unfold Double.round, inject_Z. cbn [Qnum Qden].
  destruct z as [|a|a]; [done| |].
  - apply roundPos_integer. lia.
  - rewrite roundPos_integer by lia. done.
Qed.

Lemma roundZ_integer (z : Z) : - 2 ^ 53 < z < 2 ^ 53 → Double.roundZ z = z.
Proof.
  intros Hz. unfold Double.roundZ, Double.ofZ. rewrite round_integer by done.
  cbn [inject_Z Qnum Qden]. apply Z.div_1_r.
Qed.

(** *** The accuracy of rounding *)

Lemma nearestEven_spec (n d : Z) :
  0 < d → 2 * Z.abs (Double.nearestEven n d * d - n) ≤ d.
Proof.
  intros Hd. unfold Double.nearestEven.
  pose proof (Z.div_mod n d) as Hdiv. pose proof (Z.mod_pos_bound n d Hd) as Hmod.
  destruct (Z.compare_spec (2 * (n mod d)) d) as [Heq|Hlt|Hgt].
  - destruct (Z.even (n / d)); nia.
  - nia.
  - nia.
Qed.

Lemma pow2_pred (n : Z) : 0 < n → 2 ^ n = 2 ^ (n - 1) * 2.
Proof.
  intros Hn. replace n with (Z.succ (n - 1)) at 1 by lia.
  rewrite Z.pow_succ_r by lia. lia.
Qed.

(** [ilog2] brackets the quotient between two powers of two. *)
Lemma ilog2_spec (a b : positive) :
  let l := Double.ilog2 a b in
  Z.pos b * 2 ^ Z.max l 0 ≤ Z.pos a * 2 ^ Z.max (- l) 0 ∧
  Z.pos a * 2 ^ Z.max (- (l + 1)) 0 < Z.pos b * 2 ^ Z.max (l + 1) 0.
Proof.
  unfold Double.ilog2.
  destruct (Z.log2_spec (Z.pos a)) as [Ha1 Ha2]; [lia|].
  destruct (Z.log2_spec (Z.pos b)) as [Hb1 Hb2]; [lia|].
  pose proof (Z.log2_nonneg (Z.pos a)) as Hla.
  pose proof (Z.log2_nonneg (Z.pos b)) as Hlb.
  set (la := Z.log2 (Z.pos a)) in *. set (lb := Z.log2 (Z.pos b)) in *.
  rewrite <- !Z.add_1_r in *.
  destruct (Z.le_gt_cases 0 (la - lb)) as [Hk|Hk].
  - (* the quotient is at least 1/2 *)
    assert (2 ^ la = 2 ^ lb * 2 ^ (la - lb)) as Hpow.
    { rewrite <- Z.pow_add_r by lia. f_equal. lia. }
    assert (0 < 2 ^ (la - lb)) as Hpos by (apply Z.pow_pos_nonneg; lia).
    rewrite (Z.max_l (la - lb) 0), (Z.max_r (- (la - lb)) 0) by lia.
    rewrite Z.pow_0_r.
    destruct (Z.leb_spec (Z.pos b * 2 ^ (la - lb)) (Z.pos a * 1)) as [Htest|Htest].
    + rewrite (Z.max_l (la - lb) 0), (Z.max_r (- (la - lb)) 0) by lia.
      rewrite (Z.max_r (- (la - lb + 1)) 0), (Z.max_l (la - lb + 1) 0) by lia.
      rewrite Z.pow_0_r, (Z.pow_add_r 2 (la - lb) 1) by lia.
      rewrite (Z.pow_add_r 2 la 1) in Ha2 by lia. change (2 ^ 1) with 2 in *.
      split; [lia|]. nia.
    + replace (la - lb - 1 + 1) with (la - lb) by lia.
      rewrite (Z.max_r (- (la - lb)) 0), (Z.max_l (la - lb) 0) by lia.
      rewrite Z.pow_0_r. split; [|lia].
      rewrite (Z.pow_add_r 2 lb 1) in Hb2 by lia. change (2 ^ 1) with 2 in *.
      destruct (Z.eq_dec (la - lb) 0) as [Hzero|Hnonzero].
      * rewrite Hzero in *. change (Z.max (0 - 1) 0) with 0.
        change (Z.max (- (0 - 1)) 0) with 1. change (2 ^ 0) with 1 in *.
        change (2 ^ 1) with 2. nia.
      * rewrite (Z.max_l (la - lb - 1) 0), (Z.max_r (- (la - lb - 1)) 0) by lia.
        rewrite Z.pow_0_r.
        assert (2 ^ (la - lb) = 2 ^ (la - lb - 1) * 2) as Hhalf
          by (apply pow2_pred; lia).
        assert (0 < 2 ^ (la - lb - 1)) by (apply Z.pow_pos_nonneg; lia).
        nia.
  - (* the quotient is below 2 *)
    assert (2 ^ lb = 2 ^ la * 2 ^ (lb - la)) as Hpow.
    { rewrite <- Z.pow_add_r by lia. f_equal. lia. }
    assert (0 < 2 ^ (lb - la)) as Hpos by (apply Z.pow_pos_nonneg; lia).
    rewrite (Z.max_r (la - lb) 0), (Z.max_l (- (la - lb)) 0) by lia.
    rewrite Z.pow_0_r. replace (- (la - lb)) with (lb - la) by lia.
    destruct (Z.leb_spec (Z.pos b * 1) (Z.pos a * 2 ^ (lb - la))) as [Htest|Htest].
    + rewrite (Z.max_r (la - lb) 0), (Z.max_l (- (la - lb)) 0) by lia.
      replace (- (la - lb)) with (lb - la) by lia. rewrite Z.pow_0_r.
      split; [lia|].
      rewrite (Z.max_l (- (la - lb + 1)) 0), (Z.max_r (la - lb + 1) 0) by lia.
      rewrite Z.pow_0_r. replace (- (la - lb + 1)) with (lb - la - 1) by lia.
      assert (2 ^ (lb - la) = 2 ^ (lb - la - 1) * 2) as Hhalf
        by (apply pow2_pred; lia).
      assert (0 < 2 ^ (lb - la - 1)) by (apply Z.pow_pos_nonneg; lia).
      rewrite (Z.pow_add_r 2 la 1) in Ha2 by lia. change (2 ^ 1) with 2 in *.
      nia.
    + rewrite (Z.max_r (la - lb - 1) 0), (Z.max_l (- (la - lb - 1)) 0) by lia.
      rewrite Z.pow_0_r. replace (- (la - lb - 1)) with (lb - la + 1) by lia.
      replace (la - lb - 1 + 1) with (la - lb) by lia.
      rewrite (Z.max_l (- (la - lb)) 0), (Z.max_r (la - lb) 0) by lia.
      replace (- (la - lb)) with (lb - la) by lia. rewrite Z.pow_0_r.
      split; [|lia].
      rewrite (Z.pow_add_r 2 (lb - la) 1) by lia.
      rewrite (Z.pow_add_r 2 lb 1) in Hb2 by lia. change (2 ^ 1) with 2 in *.
      nia.
Qed.

Lemma significand_bounds (a b : positive) :
  let e := Double.ilog2 a b - 52 in
  2 ^ 52 * (Z.pos b * 2 ^ Z.max e 0) ≤ Z.pos a * 2 ^ Z.max (- e) 0.
Proof.
  destruct (ilog2_spec a b) as [Hlow _]. revert Hlow.
  set (l := Double.ilog2 a b). intros Hlow e. subst e.
  destruct (Z.le_gt_cases 52 l) as [Hl|Hl].
  - rewrite (Z.max_l (l - 52) 0), (Z.max_r (- (l - 52)) 0) by lia.
    rewrite (Z.max_l l 0), (Z.max_r (- l) 0) in Hlow by lia.
    assert (2 ^ l = 2 ^ 52 * 2 ^ (l - 52)) as Hpow.
    { rewrite <- Z.pow_add_r by lia. f_equal. lia. }
    rewrite Z.pow_0_r in *. nia.
  - rewrite (Z.max_r (l - 52) 0), (Z.max_l (- (l - 52)) 0) by lia.
    rewrite Z.pow_0_r.
    destruct (Z.le_gt_cases 0 l) as [Hl'|Hl'].
    + rewrite (Z.max_l l 0), (Z.max_r (- l) 0) in Hlow by lia.
      assert (2 ^ 52 = 2 ^ l * 2 ^ (- (l - 52))) as Hpow.
      { rewrite <- Z.pow_add_r by lia. f_equal. lia. }
      assert (0 < 2 ^ (- (l - 52))) by (apply Z.pow_pos_nonneg; lia).
      rewrite Z.pow_0_r in *. rewrite Hpow. nia.
    + rewrite (Z.max_r l 0), (Z.max_l (- l) 0) in Hlow by lia.
      assert (2 ^ (- (l - 52)) = 2 ^ (- l) * 2 ^ 52) as Hpow.
      { rewrite <- Z.pow_add_r by lia. f_equal. lia. }
      rewrite Z.pow_0_r in *. rewrite Hpow. nia.
Qed.

Lemma ilog2_normal (a b : positive) :
  Z.pos b ≤ Z.pos a * 2 ^ 1022 → -1022 ≤ Double.ilog2 a b.
Proof.
  intros Hx. destruct (ilog2_spec a b) as [_ Hhigh]. revert Hhigh.
  set (l := Double.ilog2 a b). intros Hhigh.
  destruct (Z.le_gt_cases (-1022) l) as [|Hl]; [done|]. exfalso.
  rewrite (Z.max_l (- (l + 1)) 0), (Z.max_r (l + 1) 0) in Hhigh by lia.
  rewrite Z.pow_0_r in Hhigh.
  assert (2 ^ 1022 ≤ 2 ^ (- (l + 1))) by (apply Z.pow_le_mono_r; lia).
  nia.
Qed.

(** Rounding a rational of the normal range moves it by at most one part
    in [2 ^ 53]. *)
Lemma roundPos_error (a b : positive) :
  Z.pos b ≤ Z.pos a * 2 ^ 1022 →
  (Qabs (Double.roundPos a b - (Z.pos a # b)) <= (Z.pos a # b) * (1 # 2 ^ 53))%Q.
Proof.
  intros Hnormal. unfold Double.roundPos.
  pose proof (ilog2_normal a b Hnormal) as Hl.
  pose proof (significand_bounds a b) as Hsig. cbv zeta in Hsig.
  rewrite (Z.max_l (Double.ilog2 a b - 52) (-1074)) by lia.
  set (e := Double.ilog2 a b - 52) in *.
  set (N := Z.pos a * 2 ^ Z.max (- e) 0) in *.
  set (D := Z.pos b * 2 ^ Z.max e 0) in *.
  assert (0 < D) as HD.
  { subst D. apply Z.mul_pos_pos; [lia|]. apply Z.pow_pos_nonneg; lia. }
  pose proof (nearestEven_spec N D HD) as Hnear.
  set (m := Double.nearestEven N D) in *.
  rewrite Qred_correct.
  apply Qabs_Qle_condition.
  unfold Double.pow2.
  destruct (Z.leb_spec 0 e) as [He|He].
  - subst N D. rewrite (Z.max_l e 0), (Z.max_r (- e) 0) in * by lia.
    rewrite Z.pow_0_r in *.
    assert (0 < 2 ^ e) as Hpow by (apply Z.pow_pos_nonneg; lia).
    unfold Qle, Qminus, Qplus, Qopp, Qmult, inject_Z. cbn [Qnum Qden].
    rewrite !Pos2Z.inj_mul. change (Z.pos (2 ^ 53)) with (2 ^ 53).
    split; nia.
  - subst N D. rewrite (Z.max_r e 0), (Z.max_l (- e) 0) in * by lia.
    rewrite Z.pow_0_r in *.
    assert (0 < 2 ^ (- e)) as Hpow by (apply Z.pow_pos_nonneg; lia).
    unfold Qle, Qminus, Qplus, Qopp, Qmult, inject_Z. cbn [Qnum Qden].
    rewrite !Pos2Z.inj_mul, !Z2Pos.id by done. change (Z.pos (2 ^ 53)) with (2 ^ 53).
    split; nia.
Qed.

Lemma round_error (x : Q) :
  (1 # 2 ^ 1022 <= x)%Q →
  (Qabs (Double.round x - x) <= x * (1 # 2 ^ 53))%Q.
Proof.
  destruct x as [n b]. unfold Qle at 1. cbn [Qnum Qden]. intros Hnormal.
  unfold Double.round. cbn [Qnum Qden].
  destruct n as [|a|a]; [lia| |lia].
  apply roundPos_error. change (Z.pos (2 ^ 1022)) with (2 ^ 1022) in Hnormal. lia.
Qed.

Lemma round_zero (x : Q) : Qnum x = 0 → Double.round x = 0%Q.
Proof. intros Hx. unfold Double.round. by rewrite Hx. Qed.

(** The offset the source computes for page [t] is within one part in
    [2 ^ 51] of [(t - 1) × 842 × scale]. *)
Lemma offset_accuracy (t : Z) (s : Q) :
  1 ≤ t ≤ 2 ^ 53 →
  (1 # 2 <= s)%Q →
  (Qabs (Double.round (Double.round (inject_Z (t - 1)) * Double.round (842 * s))
         - inject_Z (t - 1) * 842 * s)
   <= inject_Z (t - 1) * 842 * s * (1 # 2 ^ 51))%Q.
Proof.
  intros Ht Hs.
  rewrite (round_integer (t - 1)) by lia.
  destruct (Z.eq_dec t 1) as [->|Hne].
  { rewrite round_zero by done. change (inject_Z (1 - 1)) with 0%Q.
    rewrite !Qmult_0_l. done. }
  pose proof (round_error (842 * s)) as Hh.
  pose proof (round_error (inject_Z (t - 1) * Double.round (842 * s))) as Htop.
  rewrite !Qabs_Qle_condition in *.
  assert (1 <= inject_Z (t - 1))%Q as HT.
  { change 1%Q with (inject_Z 1). rewrite <- Zle_Qle. lia. }
  assert (1 # 2 ^ 1022 <= 1)%Q as Htiny by (by vm_compute).
  assert (0 < (1 # 2 ^ 53))%Q as Heps by (by vm_compute).
  assert ((1 # 2 ^ 53) <= 1 # 2)%Q as Heps1 by (by vm_compute).
  assert (((1 # 2 ^ 53) * 4 == 1 # 2 ^ 51)%Q) as Hfour by (by vm_compute).
  rewrite <- Hfour.
  set (h := Double.round (842 * s)) in *.
  set (top := Double.round (inject_Z (t - 1) * h)) in *.
  set (T := inject_Z (t - 1)) in *.
  set (ε := (1 # 2 ^ 53)%Q) in *. set (tiny := (1 # 2 ^ 1022)%Q) in *.
  clearbody top h T ε tiny.
  assert (tiny <= 842 * s)%Q as Hnormal1 by lra.
  specialize (Hh Hnormal1).
  assert (0 <= 842 * s * ε <= 842 * s * (1 # 2))%Q as Hw by nra.
  assert (421 * s <= h)%Q as Hhpos by lra.
  assert (tiny <= T * h)%Q as Hnormal2 by nra.
  specialize (Htop Hnormal2).
  assert (T * h <= T * (842 * s) + T * (842 * s * ε))%Q as Hup by nra.
  assert (T * (842 * s) - T * (842 * s * ε) <= T * h)%Q as Hdown by nra.
  assert (0 <= T * (842 * s))%Q as Hexact by nra.
  assert (0 <= T * (842 * s) * ε)%Q as Hexact' by nra.
  assert (T * h * ε <= T * (842 * s) * ε + T * (842 * s) * ε)%Q as Hsecond by nra.
  split; lra.
Qed.

(** The offset of page [t] at scale 1, where every product is exact. *)
Lemma offset_at_scale_1 (t : Z) :
  1 ≤ t ≤ 2 ^ 43 →
  Double.mul (Double.ofZ (t - 1)) (Double.mul 842 1) = inject_Z ((t - 1) * 842).
Proof.
  intros Ht. assert (Double.mul 842 1 = inject_Z 842) as -> by (by vm_compute).
  unfold Double.ofZ. rewrite round_integer by lia.
  unfold Double.mul. apply round_integer. lia.
Qed.

(** X2.  With no split active, a valid target [p] becomes the current
    page and the view scrolls to the double the source computes for
    [(p - 1) * (842 * scale)], each product rounded.  At a scale of one
    half or more, as the three the viewer uses are, this is within one
    part in [2 ^ 51] of [(p - 1) × 842 × scale]; at scale 1 it is
    [(p - 1) × 842] exactly. *)
Theorem jump_offset_without_split (n : PDFPageNavigator.state) (v : PDFViewer.state)
    (p : Z) :
  PDFViewer.isSplit v = false →
  PDFPageNavigator.parseInt (PDFPageNavigator.jumpToPage n) = Some p →
  1 ≤ p ≤ PDFViewer.totalPages v →
  ∃ top,
    PDFPageNavigator.handleJumpToPage n v =
      Some ([ScrollTo top; ToastSuccess ("Jumped to page " +:+ pretty p)],
            Ok (PDFPageNavigator.closed, PDFViewer.setCurrentPage p v)) ∧
    top = Double.round (Double.round (inject_Z (p - 1)) *
                        Double.round (842 * PDFViewer.scale v)) ∧
    (p ≤ 2 ^ 53 → (1 # 2 <= PDFViewer.scale v)%Q →
     (Qabs (top - inject_Z (p - 1) * 842 * PDFViewer.scale v)
      <= inject_Z (p - 1) * 842 * PDFViewer.scale v * (1 # 2 ^ 51))%Q) ∧
    (PDFViewer.scale v = 1%Q → p ≤ 2 ^ 43 → top = inject_Z ((p - 1) * 842)).
Proof.
  intros Hsplit Hparse Hp.
  unfold PDFPageNavigator.handleJumpToPage. rewrite Hparse.
  destruct (_ || _) eqn:Hguard.
  { rewrite orb_true_iff, !Z.ltb_lt in Hguard. lia. }
  unfold PDFViewer.handleJumpToPage. rewrite Hsplit. simpl.
  eexists. split; [reflexivity|]. split; [done|]. split.
  - intros Hdouble Hscale. apply offset_accuracy; [lia|done].
  - intros -> Hsmall. apply offset_at_scale_1. lia.
Qed.

Lemma jump_offset_without_split_witness :
  ∃ top,
    PDFPageNavigator.handleJumpToPage
      {| PDFPageNavigator.isDialogOpen := true; PDFPageNavigator.jumpToPage := "4" |}
      (PDFViewer.updateScale 700 (Sample.unsplitViewer 10)) =
      Some ([ScrollTo top; ToastSuccess ("Jumped to page " +:+ pretty 4)],
            Ok (PDFPageNavigator.closed,
                PDFViewer.setCurrentPage 4
                  (PDFViewer.updateScale 700 (Sample.unsplitViewer 10)))) ∧
    top = Double.round
            (Double.round (inject_Z (4 - 1)) *
             Double.round
               (842 * PDFViewer.scale (PDFViewer.updateScale 700 (Sample.unsplitViewer 10)))) ∧
    (4 ≤ 2 ^ 53 →
     (1 # 2 <= PDFViewer.scale (PDFViewer.updateScale 700 (Sample.unsplitViewer 10)))%Q →
     (Qabs (top - inject_Z (4 - 1) * 842 *
                  PDFViewer.scale (PDFViewer.updateScale 700 (Sample.unsplitViewer 10)))
      <= inject_Z (4 - 1) * 842 *
         PDFViewer.scale (PDFViewer.updateScale 700 (Sample.unsplitViewer 10)) *
         (1 # 2 ^ 51))%Q) ∧
    (PDFViewer.scale (PDFViewer.updateScale 700 (Sample.unsplitViewer 10)) = 1%Q →
     4 ≤ 2 ^ 43 → top = inject_Z ((4 - 1) * 842)).
Proof.
  apply (jump_offset_without_split
           {| PDFPageNavigator.isDialogOpen := true; PDFPageNavigator.jumpToPage := "4" |}
           (PDFViewer.updateScale 700 (Sample.unsplitViewer 10)) 4).
  - reflexivity.
  - reflexivity.
  - vm_compute. split; discriminate.
Defined.

(** X3.  With a split active, a valid target [p] makes the page
    [t = splitPdfPages[p - 1]], found at index [p - 1] of the active range,
    the current page, and the view scrolls to the double the source
    computes for [(t - 1) * (842 * scale)], each product rounded.  At a
    scale of one half or more this is within one part in [2 ^ 51] of
    [(t - 1) × 842 × scale]; at scale 1 it is [(t - 1) × 842] exactly. *)
Theorem jump_offset_with_split (n : PDFPageNavigator.state) (v : PDFViewer.state)
    (p : Z) :
  PDFViewer.isSplit v = true →
  PDFPageNavigator.parseInt (PDFPageNavigator.jumpToPage n) = Some p →
  1 ≤ p ≤ PDFViewer.totalPages v →
  ∃ t top,
    PDFViewer.splitPdfPages v !! Z.to_nat (p - 1) = Some t ∧
    PDFPageNavigator.handleJumpToPage n v =
      Some ([ScrollTo top; ToastSuccess ("Jumped to page " +:+ pretty p)],
            Ok (PDFPageNavigator.closed, PDFViewer.setCurrentPage t v)) ∧
    top = Double.round (Double.round (inject_Z (t - 1)) *
                        Double.round (842 * PDFViewer.scale v)) ∧
    (1 ≤ t ≤ 2 ^ 53 → (1 # 2 <= PDFViewer.scale v)%Q →
     (Qabs (top - inject_Z (t - 1) * 842 * PDFViewer.scale v)
      <= inject_Z (t - 1) * 842 * PDFViewer.scale v * (1 # 2 ^ 51))%Q) ∧
    (PDFViewer.scale v = 1%Q → 1 ≤ t ≤ 2 ^ 43 → top = inject_Z ((t - 1) * 842)).
Proof.
  intros Hsplit Hparse Hp.
  unfold PDFViewer.totalPages in Hp. rewrite Hsplit in Hp.
  destruct (lookup_lt_is_Some_2 (PDFViewer.splitPdfPages v) (Z.to_nat (p - 1)))
    as [t Ht]; [lia|].
  exists t.
  unfold PDFPageNavigator.handleJumpToPage. rewrite Hparse.
  unfold PDFViewer.totalPages. rewrite Hsplit.
  destruct (_ || _) eqn:Hguard.
  { rewrite orb_true_iff, !Z.ltb_lt in Hguard. lia. }
  unfold PDFViewer.handleJumpToPage, PDFViewer.index. rewrite Hsplit.
  destruct (p - 1 <? 0) eqn:Hneg; [apply Z.ltb_lt in Hneg; lia|].
  rewrite Ht. simpl.
  eexists. split; [done|]. split; [reflexivity|]. split; [done|]. split.
  - intros Hdouble Hscale. by apply offset_accuracy.
  - intros -> Hsmall. by apply offset_at_scale_1.
Qed.

Lemma jump_offset_with_split_witness :
  ∃ t top,
    PDFViewer.splitPdfPages (PDFViewer.updateScale 500 Sample.rangeViewer)
      !! Z.to_nat (2 - 1) = Some t ∧
    PDFPageNavigator.handleJumpToPage
      {| PDFPageNavigator.isDialogOpen := true; PDFPageNavigator.jumpToPage := "2" |}
      (PDFViewer.updateScale 500 Sample.rangeViewer) =
      Some ([ScrollTo top; ToastSuccess ("Jumped to page " +:+ pretty 2)],
            Ok (PDFPageNavigator.closed,
                PDFViewer.setCurrentPage t (PDFViewer.updateScale 500 Sample.rangeViewer))) ∧
    top = Double.round
            (Double.round (inject_Z (t - 1)) *
             Double.round
               (842 * PDFViewer.scale (PDFViewer.updateScale 500 Sample.rangeViewer))) ∧
    (1 ≤ t ≤ 2 ^ 53 →
     (1 # 2 <= PDFViewer.scale (PDFViewer.updateScale 500 Sample.rangeViewer))%Q →
     (Qabs (top - inject_Z (t - 1) * 842 *
                  PDFViewer.scale (PDFViewer.updateScale 500 Sample.rangeViewer))
      <= inject_Z (t - 1) * 842 *
         PDFViewer.scale (PDFViewer.updateScale 500 Sample.rangeViewer) *
         (1 # 2 ^ 51))%Q) ∧
    (PDFViewer.scale (PDFViewer.updateScale 500 Sample.rangeViewer) = 1%Q →
     1 ≤ t ≤ 2 ^ 43 → top = inject_Z ((t - 1) * 842)).
Proof.
  apply (jump_offset_with_split
           {| PDFPageNavigator.isDialogOpen := true; PDFPageNavigator.jumpToPage := "2" |}
           (PDFViewer.updateScale 500 Sample.rangeViewer) 2).
  - reflexivity.
  - reflexivity.
  - vm_compute. split; discriminate.
Defined.

(** C1 at a failing input.  A ten-page document split to pages 5-7 at
    scale 1 shows three items of height 842, the first at offset 0.  A jump
    to page 1 of the range scrolls to 3368, the offset page 5 has in the
    unsplit document and beyond the end of the three items, where the
    claim gives (1 - 1) × 842 × 1 = 0. *)
Theorem jump_in_split_uses_document_offset :
  PDFPageNavigator.handleJumpToPage
    {| PDFPageNavigator.isDialogOpen := true; PDFPageNavigator.jumpToPage := "1" |}
    Sample.rangeViewer =
  Some ([ScrollTo (3368 # 1); ToastSuccess "Jumped to page 1"],
        Ok (PDFPageNavigator.closed, PDFViewer.setCurrentPage 5 Sample.rangeViewer))
  ∧ ¬ (3368 # 1 == inject_Z (1 - 1) * 842 * 1)%Q
  ∧ (inject_Z (Z.of_nat (length (PDFViewer.pages Sample.rangeViewer))) *
       PDFViewer.estimateSize Sample.rangeViewer == 2526 # 1)%Q.
Proof. split; [by vm_compute|]. split; [by vm_compute|]. by vm_compute. Qed.

(** ** The recent-files cache *)

Section Cache.
Import History.

Lemma tooLarge_iff (base64Data : string) :
  tooLarge base64Data = true ↔
  (inject_Z MAX_STORAGE_SIZE < estimatedSize base64Data)%Q.
Proof.
  unfold tooLarge. rewrite negb_true_iff, <- not_true_iff_false, Qle_bool_iff.
  split; [apply Qnot_le_lt|apply Qlt_not_le].
Qed.

Lemma filterByName_spec fileName items others :
  filterByName fileName items = Ok others →
  others `sublist_of` items ∧
  Forall (λ item, entryName item ≠ Some (JString fileName)) others.
Proof.
  revert others. induction items as [|item items IH]; intros others; simpl.
  - intros [= <-]. split; constructor.
  - destruct (nameDiffers fileName item) as [keep|] eqn:Hkeep; [|done].
    destruct (filterByName fileName items) as [kept|]; [|done].
    destruct (IH kept eq_refl) as [Hsub Hall].
    intros [= <-]. destruct keep.
    + split; [by constructor|]. constructor; [|done].
      unfold nameDiffers in Hkeep. intros Hname.
      destruct item; simpl in *; try done.
      rewrite Hname in Hkeep. injection Hkeep as Hkeep.
      by rewrite bool_decide_eq_true_2 in Hkeep.
    + split; [by constructor|done].
Qed.

Lemma entries_insert (ls : gmap string jsonText) (items : list json) :
  entries (<[key := stringified (JArray items)]> ls) = items.
Proof. unfold entries. by rewrite lookup_insert_eq. Qed.

Lemma entries_empty : entries ∅ = [].
Proof. done. Qed.

(** What a selection can do to the storage: leave it alone (the file
    cannot be read or is too large), empty it, reduce it to the new entry,
    or put the new entry before the others. *)
Lemma select_storage_cases quota now file st :
  let ls' := storage (step quota (Select file now) st) in
  (ls' = storage st ∧
     ((∃ e, readAsDataURL file = Throw e) ∨
      (∃ d, readAsDataURL file = Ok d ∧ tooLarge d = true))) ∨
  ls' = ∅ ∨
  (∃ d, readAsDataURL file = Ok d ∧
        ls' = <[key := stringified (JArray [historyItem (name file) d now])]> ∅) ∨
  (∃ d others,
     readAsDataURL file = Ok d ∧ tooLarge d = false ∧
     filterByName (name file) (entries (storage st)) = Ok others ∧
     ls' = <[key := stringified
                      (JArray (take 3 (historyItem (name file) d now :: others)))]>
             (storage st)).
Proof.
  unfold step, handleFileSelect, setItem, clear.
  unfold act_bind, act_try, act_modify, act_get, act_lift, act_throw, act_emit, act_ret.
  simpl.
  destruct (readAsDataURL file) as [d|]; simpl; [|left; eauto].
  destruct (tooLarge d) eqn:Hlarge; simpl; [left; eauto|].
  unfold entries.
  destruct (storage st !! key) as [t|] eqn:Hkey; simpl.
  - destruct (JsString.truthy (raw t)); simpl.
    + destruct (parsed t) as [history|]; simpl.
      * destruct history; simpl;
          try (destruct (quota ∅ _ _); simpl; [by right; left|right; right; left; eauto]).
        destruct (filterByName (name file) items) as [others|] eqn:Hfilter; simpl.
        -- destruct (quota (storage st) _ _); simpl.
           ++ destruct (quota ∅ _ _); simpl; [by right; left|right; right; left; eauto].
           ++ right; right; right. by exists d, others.
        -- destruct (quota ∅ _ _); simpl; [by right; left|right; right; left; eauto].
      * destruct (quota ∅ _ _); simpl; [by right; left|right; right; left; eauto].
    + destruct (quota (storage st) _ _); simpl.
      * destruct (quota ∅ _ _); simpl; [by right; left|right; right; left; eauto].
      * right; right; right. by exists d, [].
  - destruct (quota (storage st) _ _); simpl.
    + destruct (quota ∅ _ _); simpl; [by right; left|right; right; left; eauto].
    + right; right; right. by exists d, [].
Qed.

(** A selection that writes leaves at most three entries, the new one
    first and no other of its name, whatever the storage held. *)
Lemma select_entries quota now file st d :
  readAsDataURL file = Ok d → tooLarge d = false →
  let es := entries (storage (step quota (Select file now) st)) in
  (length es ≤ 3)%nat ∧
  (es = [] ∨
   ∃ rest, es = historyItem (name file) d now :: rest ∧
           Forall (λ item, entryName item ≠ Some (JString (name file))) rest).
Proof.
  intros Hread Hsmall.
  destruct (select_storage_cases quota now file st)
    as [[_ [[e He]|(d' & Hd' & Hlarge)]]
       |[->|[(d' & Hd' & ->)|(d' & others & Hd' & _ & Hfilter & ->)]]]; simpl.
  - congruence.
  - congruence.
  - rewrite entries_empty. split; [simpl; lia|by left].
  - rewrite entries_insert. assert (d' = d) as -> by congruence.
    split; [simpl; lia|]. right. by exists [].
  - rewrite entries_insert. assert (d' = d) as -> by congruence.
    split; [simpl; rewrite length_take; lia|]. right.
    apply filterByName_spec in Hfilter as [_ Hall].
    exists (take 2 others). split; [done|]. by apply Forall_take.
Qed.

Lemma cacheOk_empty : cacheOk ∅.
Proof. unfold cacheOk. rewrite entries_empty. split; [simpl; lia|constructor]. Qed.

Lemma cacheOk_select quota now file st :
  cacheOk (storage st) → cacheOk (storage (step quota (Select file now) st)).
Proof.
  intros [Hlen Hnodup].
  destruct (select_storage_cases quota now file st)
    as [[-> _]|[->|[(d & _ & ->)|(d & others & _ & _ & Hfilter & ->)]]].
  - done.
  - apply cacheOk_empty.
  - unfold cacheOk. rewrite entries_insert. split; [simpl; lia|].
    apply NoDup_singleton.
  - unfold cacheOk. rewrite entries_insert. split.
    + rewrite length_take. lia.
    + apply filterByName_spec in Hfilter as [Hsub Hall].
      rewrite fmap_take. eapply sublist_NoDup; [|apply sublist_take].
      rewrite fmap_cons. apply NoDup_cons. split.
      * simpl. intros (item & Hname & Hin)%list_elem_of_fmap.
        rewrite Forall_forall in Hall. by apply (Hall item).
      * eapply sublist_NoDup; [exact Hnodup|by apply fmap_sublist].
Qed.

Lemma cacheOk_getHistory quota st :
  cacheOk (storage st) → cacheOk (storage (step quota ShowRecent st)).
Proof.
  intros Hok. unfold step, getHistory.
  unfold act_bind, act_try, act_modify, act_get, act_lift, act_ret, removeItem. simpl.
  destruct (storage st !! key) as [t|] eqn:Hkey; simpl; [|done].
  destruct (JsString.truthy (raw t)); simpl; [|done].
  destruct (parsed t) as [v|]; simpl.
  - by destruct v.
  - unfold cacheOk, entries. rewrite lookup_delete_eq. apply cacheOk_empty.
Qed.

Lemma handleFileSelect_Ok quota now file st :
  snd (handleFileSelect quota now file st) = Ok tt.
Proof.
  unfold handleFileSelect, setItem, clear.
  unfold act_bind, act_try, act_modify, act_get, act_lift, act_throw, act_emit, act_ret.
  simpl.
  destruct (readAsDataURL file) as [d|]; simpl; [|done].
  destruct (tooLarge d); simpl; [done|].
  destruct (storage st !! key) as [t|]; simpl.
  - destruct (JsString.truthy (raw t)); simpl.
    + destruct (parsed t) as [history|]; simpl.
      * destruct history; simpl; try (by destruct (quota ∅ _ _)).
        destruct (filterByName (name file) items) as [others|]; simpl.
        -- destruct (quota (storage st) _ _); simpl; [|done].
           by destruct (quota ∅ _ _).
        -- by destruct (quota ∅ _ _).
      * by destruct (quota ∅ _ _).
    + destruct (quota (storage st) _ _); simpl; [|done]. by destruct (quota ∅ _ _).
  - destruct (quota (storage st) _ _); simpl; [|done]. by destruct (quota ∅ _ _).
Qed.

Lemma filterOut_sublist historyItem items kept :
  filterOut historyItem items = Ok kept → kept `sublist_of` items.
Proof.
  revert kept. induction items as [|item items IH]; intros kept; simpl.
  - intros [= <-]. constructor.
  - destruct (Json.getProp item "name"); [|done].
    destruct (Json.getProp historyItem "name"); [|done].
    destruct (filterOut historyItem items) as [kept'|]; [|done].
    intros [= <-]. destruct (strictEq _ _); constructor; by apply IH.
Qed.

Lemma cacheOk_sublist (ls ls' : gmap string jsonText) :
  entries ls' `sublist_of` entries ls → cacheOk ls → cacheOk ls'.
Proof.
  intros Hsub [Hlen Hnodup]. split.
  - apply sublist_length in Hsub. lia.
  - eapply sublist_NoDup; [exact Hnodup|by apply fmap_sublist].
Qed.

Lemma cacheOk_delete (ls : gmap string jsonText) : cacheOk (delete key ls).
Proof.
  unfold cacheOk, entries. rewrite lookup_delete_eq. apply cacheOk_empty.
Qed.

Lemma cacheOk_open quota now decoded historyItem st :
  cacheOk (storage st) →
  cacheOk (storage (step quota (Open decoded historyItem now) st)).
Proof.
  intros Hok. unfold step, handleFileOpen.
  destruct decoded as [file|error].
  - pose proof (cacheOk_select quota now file st Hok) as Hsel.
    pose proof (handleFileSelect_Ok quota now file st) as Hres.
    unfold step in Hsel. unfold act_try, act_bind, act_lift.
    destruct (handleFileSelect quota now file st) as [[t st'] r].
    simpl in *. by subst r.
  - unfold getHistory, removeItem, setItem.
    unfold act_try, act_bind, act_lift, act_emit, act_get, act_modify, act_ret,
      act_throw. simpl.
    destruct (storage st !! key) as [t|] eqn:Hkey; simpl.
    + destruct (JsString.truthy (raw t)) eqn:Hraw; simpl.
      * destruct (parsed t) as [v|] eqn:Hparsed; simpl.
        -- assert (entries (storage st) =
                   match v with JArray items => items | _ => [] end) as Hentries.
           { unfold entries. by rewrite Hkey, Hraw, Hparsed. }
           destruct v; simpl;
             try (destruct (quota (storage st) _ _); simpl; [done|];
                  eapply cacheOk_sublist; [|exact Hok];
                  rewrite entries_insert; apply sublist_nil_l).
           destruct (filterOut historyItem items) as [kept|] eqn:Hkept; simpl; [|done].
           destruct (quota (storage st) _ _); simpl; [done|].
           eapply cacheOk_sublist; [|exact Hok].
           rewrite entries_insert, Hentries. by eapply filterOut_sublist.
        -- destruct (quota (delete key (storage st)) _ _); simpl.
           ++ apply cacheOk_delete.
           ++ eapply cacheOk_sublist; [|exact Hok].
              rewrite entries_insert. apply sublist_nil_l.
      * destruct (quota (storage st) _ _); simpl; [done|].
        eapply cacheOk_sublist; [|exact Hok].
        rewrite entries_insert. apply sublist_nil_l.
    + destruct (quota (storage st) _ _); simpl; [done|].
      eapply cacheOk_sublist; [|exact Hok].
      rewrite entries_insert. apply sublist_nil_l.
Qed.

Lemma cacheOk_step quota a st :
  cacheOk (storage st) → cacheOk (storage (step quota a st)).
Proof.
  destruct a as [file now| |decoded historyItem now];
    [apply cacheOk_select|apply cacheOk_getHistory|apply cacheOk_open].
Qed.

Lemma cacheOk_run quota actions st :
  cacheOk (storage st) → cacheOk (storage (run quota actions st)).
Proof.
  revert st. induction actions as [|a actions IH]; intros st Hok; [done|].
  apply IH. by apply cacheOk_step.
Qed.

End Cache.

(** C5.  Along every sequence of file selections, history reads and
    openings of recent files from an empty storage, and from any storage that satisfies it, the cache
    holds at most three entries and no two entries of the same name.  From
    any storage at all, a selection that writes leaves at most three
    entries, the new one first and no other entry of its name.  Selecting
    a file whose estimated decoded size exceeds 4 MiB writes nothing: the
    storage is as before, and a warning is shown. *)
Theorem recent_files_cache_invariant (quota : History.Quota) :
  (∀ actions,
     let ls := History.storage (History.run quota actions History.initial) in
     (length (History.entries ls) ≤ 3)%nat ∧
     NoDup (History.entryName <$> History.entries ls)) ∧
  (∀ st file now,
     History.cacheOk (History.storage st) →
     History.cacheOk (History.storage (History.step quota (History.Select file now) st))) ∧
  (∀ st file now base64Data,
     History.readAsDataURL file = Ok base64Data →
     (History.estimatedSize base64Data <= inject_Z (4 * 1024 * 1024))%Q →
     let es := History.entries
                 (History.storage (History.step quota (History.Select file now) st)) in
     (length es ≤ 3)%nat ∧
     (es = [] ∨
      ∃ rest, es = History.historyItem (History.name file) base64Data now :: rest ∧
              Forall (λ item, History.entryName item ≠
                              Some (JString (History.name file))) rest)) ∧
  (∀ st file now base64Data,
     History.readAsDataURL file = Ok base64Data →
     (inject_Z (4 * 1024 * 1024) < History.estimatedSize base64Data)%Q →
     History.handleFileSelect quota now file st =
       ([ToastWarning "File too large to save in history"],
        History.setPdfFile file st, Ok tt) ∧
     History.storage (History.step quota (History.Select file now) st) =
       History.storage st).
Proof.
  split; [|split; [|split]].
  - intros actions. apply (cacheOk_run quota actions History.initial), cacheOk_empty.
  - intros st file now. apply cacheOk_select.
  - intros st file now d Hread Hsmall. apply select_entries; [done|].
    apply not_true_iff_false. intros Hlarge%tooLarge_iff.
    by apply Qlt_not_le in Hlarge.
  - intros st file now d Hread Hlarge.
    apply tooLarge_iff in Hlarge.
    unfold History.step, History.handleFileSelect. rewrite Hread, Hlarge.
    by unfold act_bind, act_modify, act_emit.
Qed.

Lemma length_repeatChar (n : nat) (c : ascii) :
  String.length (Sample.repeatChar n c) = n.
Proof. induction n as [|n IH]; simpl; [done|by rewrite IH]. Qed.

Lemma recent_files_cache_invariant_witness :
  (let ls := History.storage
               (History.run Sample.roomy
                  [History.Select (Sample.pdf "a.pdf" "QQ==") 1;
                History.Select (Sample.pdf "b.pdf" "Qg==") 2;
                   History.ShowRecent;
                   History.Open (Throw "The string to be decoded is not correctly encoded.")
                     (History.historyItem "b.pdf" "Qg==" 2) 3;
                   History.Select (Sample.pdf "a.pdf" "QQ==") 3;
                   History.Select (Sample.pdf "c.pdf" "Qw==") 4;
                   History.Select (Sample.pdf "d.pdf" "RA==") 5]
                  History.initial) in
   (length (History.entries ls) ≤ 3)%nat ∧
   NoDup (History.entryName <$> History.entries ls)) ∧
  (let es := History.entries
               (History.storage
                  (History.step Sample.roomy
                     (History.Select (Sample.pdf "a.pdf" "QQ==") 7) Sample.crowded)) in
   (length es ≤ 3)%nat ∧
   (es = [] ∨
    ∃ rest, es = History.historyItem "a.pdf" "QQ==" 7 :: rest ∧
            Forall (λ item, History.entryName item ≠ Some (JString "a.pdf")) rest)) ∧
  (History.handleFileSelect Sample.roomy 6 (Sample.pdf "large.pdf" Sample.largeData)
     History.initial =
     ([ToastWarning "File too large to save in history"],
      History.setPdfFile (Sample.pdf "large.pdf" Sample.largeData) History.initial,
      Ok tt) ∧
   History.storage
     (History.step Sample.roomy
        (History.Select (Sample.pdf "large.pdf" Sample.largeData) 6) History.initial) =
     History.storage History.initial).
Proof.
  destruct (recent_files_cache_invariant Sample.roomy) as (Hrun & _ & Hsmall & Hlarge).
  split; [|split].
  - apply (Hrun [_; _; _; _; _; _; _]).
  - apply (Hsmall Sample.crowded (Sample.pdf "a.pdf" "QQ==") 7 "QQ==").
    + reflexivity.
    + vm_compute. discriminate.
  - apply (Hlarge History.initial _ 6 Sample.largeData).
    + reflexivity.
    + unfold History.estimatedSize, Sample.largeData.
      rewrite length_repeatChar, Z2Nat.id by lia. reflexivity.
Defined.

(** C8, amended.  A stored recent-files value that is not empty and fails
    to parse as JSON reads as the empty list and its key is removed from
    the storage.  A stored value that parses to something other than an
    array reads as the empty list too, and the storage is left as it is. *)
Theorem corrupt_history_reads_empty (st : History.state) (t : jsonText) :
  History.storage st !! History.key = Some t →
  JsString.truthy (raw t) = true →
  (∀ msg, parsed t = Throw msg →
     History.getHistory st =
       ([], History.setStorage (delete History.key (History.storage st)) st, Ok [])) ∧
  (∀ v, parsed t = Ok v → Json.isArray v = false →
     History.getHistory st = ([], st, Ok [])).
Proof.
  intros Hkey Hraw.
  unfold History.getHistory, History.removeItem.
  unfold act_try, act_bind, act_get, act_lift, act_ret, act_modify. simpl.
  rewrite Hkey, Hraw. simpl. split.
  - by intros msg ->.
  - intros v -> Harr. by destruct v.
Qed.

Lemma corrupt_history_reads_empty_witness :
  (∀ msg, parsed Sample.garbledText = Throw msg →
     History.getHistory {| History.pdfFile := None;
                           History.storage := Sample.garbledStorage |} =
       ([], History.setStorage (delete History.key Sample.garbledStorage)
              {| History.pdfFile := None; History.storage := Sample.garbledStorage |},
        Ok [])) ∧
  (∀ v, parsed Sample.garbledText = Ok v → Json.isArray v = false →
     History.getHistory {| History.pdfFile := None;
                           History.storage := Sample.garbledStorage |} =
       ([], {| History.pdfFile := None; History.storage := Sample.garbledStorage |},
        Ok [])).
Proof.
  apply (corrupt_history_reads_empty
           {| History.pdfFile := None; History.storage := Sample.garbledStorage |}
           Sample.garbledText).
  - reflexivity.
  - reflexivity.
Defined.

(** C8, as stated, fails: a stored value that parses to an object reads as
    the empty list, and its key stays in the storage. *)
Lemma non_array_history_is_kept :
  History.getHistory {| History.pdfFile := None; History.storage := Sample.objectStorage |} =
    ([], {| History.pdfFile := None; History.storage := Sample.objectStorage |}, Ok [])
  ∧ Sample.objectStorage !! History.key =
      Some {| raw := "{}"; parsed := Ok (JObject []) |}.
Proof. split; reflexivity. Qed.

(** ** The chat panel *)

(** C9 at a failing input.  The request fails with HTTP 429 and a JSON
    error body.  The message of the thrown error is the body's
    [error.message], which does not hold the status code, so the turn that
    ends the transcript is the generic one and not the rate-limit one.  The
    placeholder is removed. *)
Theorem rate_limit_reply_gets_generic_message :
  ChatBot.handleSubmit (Some "sk-or-v1") (ChatBot.Response 429 Sample.tooManyRequests)
    Sample.asking =
  ([ToastLoading "Processing your question..." ChatBot.processingToast;
    ToastDismiss ChatBot.processingToast;
    ToastError "Failed to generate response"],
   {| ChatBot.messages :=
        [ChatBot.greeting;
         {| ChatBot.role := ChatBot.user; ChatBot.content := "What is on page 3?" |};
         {| ChatBot.role := ChatBot.assistant;
            ChatBot.content :=
              "Error: Too many requests Please try again or rephrase your question." |}];
      ChatBot.input := "";
      ChatBot.isProcessing := false |},
   Ok tt)
  ∧ JsString.includes
      "Error: Too many requests Please try again or rephrase your question."
      ChatBot.rateLimited = false.
Proof. split; by vm_compute. Qed.

Section Chat.
Import ChatBot.

Lemma removeThinking_app (l1 l2 : list Message) :
  removeThinking (l1 ++ l2) = removeThinking l1 ++ removeThinking l2.
Proof. apply List.filter_app. Qed.

Lemma removeThinking_idemp (l : list Message) :
  removeThinking (removeThinking l) = removeThinking l.
Proof.
  unfold removeThinking. induction l as [|m l IH]; simpl; [done|].
  destruct (negb _) eqn:Hm; simpl; [|done]. by rewrite Hm, IH.
Qed.




(** The final state of a submission whose request fails. *)
Lemma handleSubmit_failure API_KEY reply st msg :
  JsString.truthy (JsString.trim (input st)) = true →
  isProcessing st = false →
  JsString.truthy (default "" API_KEY) = true →
  thrown reply = Some msg →
  handleSubmit API_KEY reply st =
    ([ToastLoading "Processing your question..." processingToast;
      ToastDismiss processingToast;
      ToastError "Failed to generate response"],
     {| messages :=
          removeThinking
            (messages st ++ [{| role := user; content := JsString.trim (input st) |}])
          ++ [{| role := assistant; content := categorize msg +:+ tryAgain |}];
        input := "";
        isProcessing := false |},
     Ok tt).
Proof.
  intros Hinput Hproc Hkey Hthrown.
  unfold handleSubmit, act_finally, act_try, act_bind, act_get, act_modify,
    act_emit, act_lift, act_throw, act_ret.
  rewrite Hinput, Hproc, Hkey. simpl.
  destruct reply as [message|status body]; simpl in *.
  - injection Hthrown as ->.
    unfold setIsProcessing, setMessages, setInput, append; simpl.
    do 4 f_equal. rewrite removeThinking_app. simpl. by rewrite app_nil_r.
  - destruct (ok status); simpl in *.
    + destruct (aiResponseOf body) as [|message]; [done|].
      injection Hthrown as ->. simpl.
      unfold setIsProcessing, setMessages, setInput, append; simpl.
      do 4 f_equal.
      rewrite removeThinking_idemp, removeThinking_app. simpl. by rewrite app_nil_r.
    + injection Hthrown as ->.
      unfold setIsProcessing, setMessages, setInput, append; simpl.
      do 4 f_equal.
      rewrite removeThinking_idemp, removeThinking_app. simpl. by rewrite app_nil_r.
Qed.

End Chat.



(** ** Extraction of text-based pages *)

Lemma loop_native (env : PdfOCR.Env) (pdf : PdfOCR.PDFDocumentProxy)
    (items : Z → list string) (pageNumbers : list Z) (fullText : string) (count : nat) :
  (∀ p, p ∈ pageNumbers →
     1 ≤ p ≤ PdfOCR.numPages pdf ∧
     ∃ page, PdfOCR.getPage pdf p = Ok page ∧
             PdfOCR.getTextContent page = Ok (items p) ∧
             (50 ≤ String.length (JsString.trim (JsString.join " " (items p))))%nat) →
  PdfOCR.performOCR_loop env pdf pageNumbers fullText count =
    (GetTextContent <$> pageNumbers,
     Ok (fullText +:+
           JsString.concat
             (map (λ p, PdfOCR.pageSection p (JsString.join " " (items p))) pageNumbers),
         count)).
Proof.
  revert fullText.
  induction pageNumbers as [|p rest IH]; intros fullText Hall; simpl.
  - by rewrite string_app_nil_r.
  - destruct (Hall p) as [Hp (page & Hpage & Hitems & Hlen)]; [by left|].
    apply (skip_iff pdf) in Hp. rewrite Hp.
    rewrite (extractPageText_long env pdf p page (items p)) by done.
    unfold bind. rewrite IH by (intros q ?; apply Hall; by right).
    rewrite string_app_assoc. reflexivity.
Qed.

(** X5.  When every requested page is in range and has at least 50
    characters of native text (trimmed), [performOCR] requests the text
    content of each page in order and does nothing else, neither toast nor
    rasterisation nor recognition, and returns the sections of the pages
    with their native text. *)
Theorem text_pages_use_native_extraction_only (env : PdfOCR.Env)
    (pdf : PdfOCR.PDFDocumentProxy) (items : Z → list string) (pageNumbers : list Z) :
  PdfOCR.getDocument env = Ok pdf →
  pageNumbers ≠ [] →
  (∀ p, p ∈ pageNumbers →
     1 ≤ p ≤ PdfOCR.numPages pdf ∧
     ∃ page, PdfOCR.getPage pdf p = Ok page ∧
             PdfOCR.getTextContent page = Ok (items p) ∧
             (50 ≤ String.length (JsString.trim (JsString.join " " (items p))))%nat) →
  PdfOCR.performOCR env pageNumbers =
    (GetTextContent <$> pageNumbers,
     Ok {| PdfOCR.text :=
             JsString.concat
               (map (λ p, "Page " +:+ pretty p +:+ ":" +:+ String "010" "" +:+
                          JsString.trim (JsString.join " " (items p)) +:+
                          String "010" "" +:+ String "010" "")
                    pageNumbers) |}).
Proof.
  intros Hdoc Hne Hall.
  rewrite (performOCR_unfold env pdf Hdoc).
  rewrite (loop_native env pdf items) by done.
  rewrite (map_ext _ _ (λ q, pageSection_eq q (JsString.join " " (items q)))).
  destruct pageNumbers as [|p rest]; [done|].
  unfold outcome, trace. simpl. by rewrite app_nil_r.
Qed.

Lemma text_pages_use_native_extraction_only_witness :
  PdfOCR.performOCR Sample.env [2; 3] =
    (GetTextContent <$> [2; 3],
     Ok {| PdfOCR.text :=
             JsString.concat
               (map (λ p, "Page " +:+ pretty p +:+ ":" +:+ String "010" "" +:+
                          JsString.trim (JsString.join " " [Sample.longText; "tail"]) +:+
                          String "010" "" +:+ String "010" "")
                    [2; 3]) |}).
Proof.
  apply (text_pages_use_native_extraction_only Sample.env Sample.doc
           (λ _, [Sample.longText; "tail"]) [2; 3]).
  - reflexivity.
  - discriminate.
  - intros p Hp. rewrite !elem_of_cons, elem_of_nil in Hp.
    destruct Hp as [->|[->|[]]].
    + split; [simpl; lia|]. eexists. split; [reflexivity|].
      split; [reflexivity|]. vm_compute. lia.
    + split; [simpl; lia|]. eexists. split; [reflexivity|].
      split; [reflexivity|]. vm_compute. lia.
Defined.

(** ** The visibility tracker *)

Lemma elem_of_addBuffered (pages : list Z) (idx : Z) (s : gset (option Z))
    (x : option Z) :
  x ∈ Virtualizer.addBuffered pages idx s ↔
  x ∈ s ∨ (0 ≤ idx < Z.of_nat (length pages) ∧ x = PDFViewer.index pages idx).
Proof.
  unfold Virtualizer.addBuffered.
  destruct (_ && _) eqn:Hguard.
  - apply andb_prop in Hguard as [?%Z.leb_le ?%Z.ltb_lt].
    rewrite elem_of_union, elem_of_singleton. split.
    + intros [Hx|Hx]; [right; split; [lia|done]|by left].
    + intros [Hx|[_ Hx]]; [by right|by left].
  - rewrite andb_false_iff, Z.leb_gt, Z.ltb_ge in Hguard.
    split; [by left|]. intros [?|[? _]]; [done|]. destruct Hguard; lia.
Qed.

Lemma index_Some (pages : list Z) (i : Z) :
  0 ≤ i < Z.of_nat (length pages) →
  ∃ p, PDFViewer.index pages i = Some p ∧ pages !! Z.to_nat i = Some p.
Proof.
  intros Hi. unfold PDFViewer.index.
  destruct (i <? 0) eqn:Hneg; [apply Z.ltb_lt in Hneg; lia|].
  destruct (lookup_lt_is_Some_2 pages (Z.to_nat i)) as [p Hp]; [lia|]. eauto.
Qed.

Lemma head_seqZ (a n : Z) : 0 < n → head (seqZ a n) = Some a.
Proof. intros Hn. by rewrite seqZ_cons. Qed.

Lemma last_seqZ (a n : Z) : 0 < n → last (seqZ a n) = Some (a + n - 1).
Proof.
  intros Hn. rewrite last_lookup, length_seqZ.
  rewrite lookup_seqZ_lt by lia. f_equal. lia.
Qed.

(** X6.  When the virtualizer shows the items of indices [a] to [b] of the
    active page sequence, [onChange] makes the page at index [a] the
    current page, and hands to [setLoadedPages] exactly the pages whose
    index lies within two of the visible window, that is in
    [a - 2 .. b + 2]: every other page shows the placeholder. *)
Theorem onChange_loads_window (pages : list Z) (a b : Z) :
  0 ≤ a → a ≤ b → b < Z.of_nat (length pages) →
  let result := Virtualizer.onChange pages (seqZ a (b - a + 1)) in
  fst result = Some (pages !! Z.to_nat a) ∧
  (None ∉ snd result) ∧
  ∀ p, Virtualizer.isLoaded (snd result) p = true ↔
       ∃ i : nat, a - 2 ≤ Z.of_nat i ≤ b + 2 ∧ pages !! i = Some p.
Proof.
  intros Ha Hab Hb result.
  assert (∀ x, x ∈ snd result ↔
               ∃ i, a - 2 ≤ i ≤ b + 2 ∧ 0 ≤ i < Z.of_nat (length pages) ∧
                    x = PDFViewer.index pages i) as Hloaded.
  { intros x. subst result. unfold Virtualizer.onChange. cbn [snd].
    rewrite head_seqZ, last_seqZ by lia. cbn [default foldl Virtualizer.bufferOffsets]. unfold id.
    rewrite !elem_of_addBuffered, elem_of_list_to_set, list_elem_of_fmap.
    setoid_rewrite elem_of_seqZ. split.
    - intros Hx. decompose [or and ex] Hx; subst; eexists; (split; [|split; [|done]]); lia.
    - intros (i & Hi & Hlen & ->).
      destruct (decide (a ≤ i ≤ b)) as [?|Hout].
      { do 10 left. exists i. split; [done|lia]. }
      assert (i = a - 2 ∨ i = a - 1 ∨ i = b + 1 ∨ i = b + 2) as Hcases by lia.
      destruct Hcases as [-> | [-> | [-> | ->]]].
      + do 9 left. right. split; [lia|done].
      + do 7 left. right. split; [lia|done].
      + do 2 left. right. split; [lia|]. f_equal. lia.
      + right. split; [lia|]. f_equal. lia. }
  split; [|split].
  - subst result. unfold Virtualizer.onChange. cbn [fst].
    rewrite seqZ_cons by lia. f_equal.
    unfold PDFViewer.index. destruct (a <? 0) eqn:Hneg; [apply Z.ltb_lt in Hneg; lia|done].
  - intros (i & _ & Hlen & Hnone)%Hloaded.
    destruct (index_Some pages i Hlen) as (p & Hp & _). congruence.
  - intros p. unfold Virtualizer.isLoaded. rewrite bool_decide_eq_true, Hloaded. split.
    + intros (i & Hi & Hlen & Hp).
      destruct (index_Some pages i Hlen) as (q & Hq & Hq').
      exists (Z.to_nat i). split; [lia|]. congruence.
    + intros (i & Hi & Hp). exists (Z.of_nat i).
      apply lookup_lt_Some in Hp as Hlt. split; [done|]. split; [lia|].
      unfold PDFViewer.index.
      destruct (Z.of_nat i <? 0) eqn:Hneg; [apply Z.ltb_lt in Hneg; lia|].
      by rewrite Nat2Z.id.
Qed.

Lemma onChange_loads_window_witness :
  let result := Virtualizer.onChange (seqZ 1 10) (seqZ 4 (5 - 4 + 1)) in
  fst result = Some (seqZ 1 10 !! Z.to_nat 4) ∧
  (None ∉ snd result) ∧
  ∀ p, Virtualizer.isLoaded (snd result) p = true ↔
       ∃ i : nat, 4 - 2 ≤ Z.of_nat i ≤ 5 + 2 ∧ seqZ 1 10 !! i = Some p.
Proof.
  apply (onChange_loads_window (seqZ 1 10) 4 5); [lia|lia|].
  vm_compute. reflexivity.
Defined.

(** ** Extraction: failures, counts and the viewer's record *)

(** The loop over [before ++ p :: after] when the pages of [before] yield
    a text and page [p] throws: it ends in the body of [p]. *)
Lemma loop_stops (env : PdfOCR.Env) (pdf : PdfOCR.PDFDocumentProxy)
    (before after : list Z) (p : Z) (msg fullText : string) (count : nat) :
  (∀ q, q ∈ before → PdfOCR.inRange pdf q →
        ∃ r, outcome (PdfOCR.extractPageText env pdf q) = Ok r) →
  PdfOCR.inRange pdf p →
  outcome (PdfOCR.extractPageText env pdf p) = Throw msg →
  PdfOCR.performOCR_loop env pdf (before ++ p :: after) fullText count =
    (trace (PdfOCR.performOCR_loop env pdf before fullText count) ++
       trace (PdfOCR.extractPageText env pdf p),
     Throw msg).
Proof.
  intros Hbefore Hp Hthrow. revert fullText count.
  induction before as [|q before IH]; intros fullText count.
  - simpl. apply skip_iff in Hp. rewrite Hp, bind_unfold, Hthrow. done.
  - simpl. destruct (_ || _) eqn:Hskip.
    + apply IH. intros q' ?. apply Hbefore. by right.
    + apply skip_iff in Hskip.
      destruct (Hbefore q) as [[txt b] Hq]; [by left|done|].
      rewrite !bind_unfold, Hq. rewrite IH by (intros q' ?; apply Hbefore; by right).
      unfold trace, outcome. cbn [fst snd]. by rewrite app_assoc.
Qed.

Lemma GetTextContent_in_extractPageText (env : PdfOCR.Env)
    (pdf : PdfOCR.PDFDocumentProxy) (p q : Z) :
  GetTextContent q ∈ trace (PdfOCR.extractPageText env pdf p) → q = p.
Proof.
  intros Hin. pose proof (extractPageText_events env pdf p) as Hev.
  rewrite Forall_forall in Hev. by apply Hev in Hin.
Qed.

(** X7.  [performOCR] stops at the first requested page whose extraction
    throws: the run is the one of the list cut after that page, the error
    it rethrows is the one of that page, and no page that was not
    requested up to there is asked for its text. *)
Theorem extraction_stops_at_first_failure (env : PdfOCR.Env)
    (pdf : PdfOCR.PDFDocumentProxy) (before after : list Z) (p : Z) (msg : string) :
  PdfOCR.getDocument env = Ok pdf →
  (∀ q, q ∈ before → 1 ≤ q ≤ PdfOCR.numPages pdf →
        ∃ r, outcome (PdfOCR.extractPageText env pdf q) = Ok r) →
  1 ≤ p ≤ PdfOCR.numPages pdf →
  outcome (PdfOCR.extractPageText env pdf p) = Throw msg →
  outcome (PdfOCR.performOCR env (before ++ p :: after)) = Throw msg ∧
  PdfOCR.performOCR env (before ++ p :: after) = PdfOCR.performOCR env (before ++ [p]) ∧
  ∀ q, q ∉ before → q ≠ p →
       GetTextContent q ∉ trace (PdfOCR.performOCR env (before ++ p :: after)).
Proof.
  intros Hdoc Hbefore Hp Hthrow.
  assert (∀ rest, PdfOCR.performOCR env (before ++ p :: rest) =
            (trace (PdfOCR.performOCR_loop env pdf before "" 0%nat) ++
               trace (PdfOCR.extractPageText env pdf p) ++
               [ToastError "Failed to extract text from PDF"], Throw msg)) as Hrun.
  { intros rest. rewrite (performOCR_unfold env pdf Hdoc).
    rewrite (loop_stops env pdf before rest p msg) by done.
    simpl. by rewrite app_assoc. }
  split; [by rewrite Hrun|]. split; [by rewrite !Hrun|].
  intros q Hq Hqp. rewrite Hrun. simpl.
  rewrite !elem_of_app, list_elem_of_singleton.
  intros [Hin|[Hin|?]]; [|by apply GetTextContent_in_extractPageText in Hin|done].
  apply loop_events in Hin as (q' & Hq' & _ & Hin).
  apply GetTextContent_in_extractPageText in Hin. by subst.
Qed.

Lemma extraction_stops_at_first_failure_witness :
  outcome (PdfOCR.performOCR Sample.brokenEnv ([1] ++ 2 :: [3])) =
    Throw "Invalid page request" ∧
  PdfOCR.performOCR Sample.brokenEnv ([1] ++ 2 :: [3]) =
    PdfOCR.performOCR Sample.brokenEnv ([1] ++ [2]) ∧
  ∀ q, q ∉ [1] → q ≠ 2 →
       GetTextContent q ∉ trace (PdfOCR.performOCR Sample.brokenEnv ([1] ++ 2 :: [3])).
Proof.
  apply (extraction_stops_at_first_failure Sample.brokenEnv Sample.brokenDoc
           [1] [3] 2 "Invalid page request").
  - reflexivity.
  - intros q ->%list_elem_of_singleton _. by eexists.
  - simpl. lia.
  - reflexivity.
Defined.

Lemma ocrToastId_inj (p q : Z) : PdfOCR.ocrToastId p = PdfOCR.ocrToastId q → p = q.
Proof.
  unfold PdfOCR.ocrToastId. intros [= Heq].
  change (pretty p = pretty q) in Heq. by apply (inj pretty) in Heq.
Qed.

Lemma extractImagesFromPage_trace (env : PdfOCR.Env) (pdf : PdfOCR.PDFDocumentProxy)
    (p : Z) :
  trace (PdfOCR.extractImagesFromPage env pdf p) = [ExtractImages p].
Proof.
  unfold PdfOCR.extractImagesFromPage, bind, emit, lift, ret.
  destruct (PdfOCR.getPage pdf p) as [page|e]; [|done].
  destruct (PdfOCR.getContext2d env p); [|done].
  by destruct (PdfOCR.render page).
Qed.

Lemma recognizeImages_trace (env : PdfOCR.Env) (images : list string)
    (pageText : string) :
  Forall (λ e, ∃ imageUrl, e = Recognize imageUrl)
    (trace (PdfOCR.recognizeImages env images pageText)).
Proof.
  revert pageText. induction images as [|url images IH]; intros pageText; simpl.
  - constructor.
  - apply Forall_trace_bind; [repeat constructor; by eexists|]. intros _ _.
    apply Forall_trace_bind; [constructor|]. intros txt _. apply IH.
Qed.

(** The toast of a page is dismissed only at the end of the page's body. *)
Lemma dismiss_needs_completion (env : PdfOCR.Env) (pdf : PdfOCR.PDFDocumentProxy)
    (p : Z) (id : toastId) :
  ToastDismiss id ∈ trace (PdfOCR.extractPageText env pdf p) →
  ∃ r, outcome (PdfOCR.extractPageText env pdf p) = Ok r.
Proof.
  unfold PdfOCR.extractPageText.
  rewrite bind_unfold. cbn [outcome trace emit snd fst].
  rewrite bind_unfold. cbn [outcome trace lift snd fst].
  destruct (PdfOCR.getPage pdf p) as [page|e];
    [|by intros [=]%list_elem_of_singleton].
  rewrite bind_unfold. cbn [outcome trace lift snd fst].
  destruct (PdfOCR.getTextContent page) as [items|e];
    [|by intros [=]%list_elem_of_singleton].
  destruct (_ <? 50)%nat; [|by eexists].
  rewrite bind_unfold. cbn [outcome trace emit snd fst].
  rewrite bind_unfold, extractImagesFromPage_trace.
  destruct (outcome (PdfOCR.extractImagesFromPage env pdf p)) as [images|e].
  - rewrite bind_unfold.
    pose proof (recognizeImages_trace env images (JsString.join " " items)) as Hrec.
    rewrite Forall_forall in Hrec.
    destruct (outcome (PdfOCR.recognizeImages env images _)) as [txt|e].
    + intros _. by eexists.
    + cbn [trace fst app]. intros Hin. exfalso.
      repeat (apply elem_of_cons in Hin as [[=]|Hin]).
      by apply Hrec in Hin as [url [=]].
  - cbn [trace fst app]. intros Hin. exfalso.
    repeat (apply elem_of_cons in Hin as [[=]|Hin]). by apply elem_of_nil in Hin.
Qed.

(** X8.  When the fallback of a short page fails (the page cannot be
    rendered, or recognition throws), the loading toast that announced
    the fallback for that page is shown and never dismissed. *)
Theorem failed_fallback_leaves_its_toast (env : PdfOCR.Env)
    (pdf : PdfOCR.PDFDocumentProxy) (before after : list Z) (p : Z)
    (page : PdfOCR.PDFPageProxy) (items : list string) (msg : string) :
  PdfOCR.getDocument env = Ok pdf →
  (∀ q, q ∈ before → 1 ≤ q ≤ PdfOCR.numPages pdf →
        ∃ r, outcome (PdfOCR.extractPageText env pdf q) = Ok r) →
  p ∉ before →
  1 ≤ p ≤ PdfOCR.numPages pdf →
  PdfOCR.getPage pdf p = Ok page →
  PdfOCR.getTextContent page = Ok items →
  (String.length (JsString.trim (JsString.join " " items)) < 50)%nat →
  outcome (PdfOCR.extractPageText env pdf p) = Throw msg →
  ToastLoading ("Page " +:+ pretty p +:+
                " appears to be image-based, using advanced OCR...")
               (CustomId ("ocr-page-" +:+ pretty p))
    ∈ trace (PdfOCR.performOCR env (before ++ p :: after)) ∧
  ToastDismiss (CustomId ("ocr-page-" +:+ pretty p))
    ∉ trace (PdfOCR.performOCR env (before ++ p :: after)).
Proof.
  intros Hdoc Hbefore Hfresh Hp Hpage Hitems Hshort Hthrow.
  rewrite (performOCR_unfold env pdf Hdoc).
  rewrite (loop_stops env pdf before after p msg) by done.
  cbn [outcome trace fst snd]. split.
  - rewrite !elem_of_app. left. right.
    unfold PdfOCR.extractPageText.
    rewrite bind_unfold. cbn [outcome trace emit snd fst].
    rewrite bind_unfold, Hpage. cbn [outcome trace lift snd fst].
    rewrite bind_unfold, Hitems. cbn [outcome trace lift snd fst].
    apply Nat.ltb_lt in Hshort. rewrite Hshort.
    rewrite bind_unfold. cbn [outcome trace emit snd fst app].
    apply elem_of_cons. right. apply elem_of_cons. by left.
  - rewrite !elem_of_app, list_elem_of_singleton.
    intros [[Hin|Hin]|?]; [| |done].
    + apply loop_events in Hin as (q & Hq & _ & Hin).
      pose proof (extractPageText_events env pdf q) as Hev.
      rewrite Forall_forall in Hev. apply Hev in Hin.
      apply ocrToastId_inj in Hin. by subst.
    + apply dismiss_needs_completion in Hin as [r Hr]. congruence.
Qed.

Lemma failed_fallback_leaves_its_toast_witness :
  ToastLoading ("Page " +:+ pretty 2 +:+
                " appears to be image-based, using advanced OCR...")
               (CustomId ("ocr-page-" +:+ pretty 2))
    ∈ trace (PdfOCR.performOCR Scenario.noWorker ([1] ++ 2 :: [3])) ∧
  ToastDismiss (CustomId ("ocr-page-" +:+ pretty 2))
    ∉ trace (PdfOCR.performOCR Scenario.noWorker ([1] ++ 2 :: [3])).
Proof.
  apply (failed_fallback_leaves_its_toast Scenario.noWorker Scenario.scanDoc
           [1] [3] 2 (Sample.pageOf "") [""; "tail"]
           "Failed to load the recognition worker").
  - reflexivity.
  - intros q ->%list_elem_of_singleton _. by eexists.
  - by intros [=]%list_elem_of_singleton.
  - simpl. lia.
  - reflexivity.
  - reflexivity.
  - vm_compute. lia.
  - reflexivity.
Defined.

Lemma filter_all {A} (P : A → Prop) `{!∀ x, Decision (P x)} (l : list A) :
  (∀ x, x ∈ l → P x) → filter P l = l.
Proof.
  induction l as [|x l IH]; intros Hall; [done|].
  rewrite filter_cons, decide_True by (apply Hall; by left).
  f_equal. apply IH. intros y ?. apply Hall. by right.
Qed.






(** The viewer's handler when the extraction completes. *)
Lemma handlePerformOCR_ok (env : PdfOCR.Env) (st : PDFViewer.state)
    (t : list event) (r : PdfOCR.OcrResult) :
  PDFViewer.isSplit st = true →
  PDFViewer.splitPdfPages st ≠ [] →
  PdfOCR.performOCR env (PDFViewer.splitPdfPages st) = (t, Ok r) →
  PDFViewer.handlePerformOCR env st =
    ([ToastLoading "Extracting text from PDF pages..." PDFViewer.extractingToast] ++ t ++
       [ToastDismiss PDFViewer.extractingToast;
        ToastSuccess "OCR completed! You can now ask questions about the content."],
     Ok (PDFViewer.setIsProcessingOCR false
           (PDFViewer.setShowChat true
              (PDFViewer.setOcrText (PdfOCR.text r)
                 (PDFViewer.setIsProcessingOCR true st))))).
Proof.
  intros Hsplit Hne Hocr. unfold PDFViewer.handlePerformOCR. rewrite Hsplit.
  destruct (PDFViewer.splitPdfPages st) as [|q rest] eqn:Hpages; [done|].
  simpl negb. simpl orb. cbv iota.
  change (PDFViewer.splitPdfPages (PDFViewer.setIsProcessingOCR true st))
    with (PDFViewer.splitPdfPages st).
  rewrite Hpages, Hocr. unfold bind, try_catch, emit, ret. simpl.
  by rewrite app_nil_r.
Qed.

(** [performOCR] never returns an empty text, and shows no error toast
    when it completes. *)
Lemma performOCR_completed (env : PdfOCR.Env) (pageNumbers : list Z)
    (r : PdfOCR.OcrResult) :
  outcome (PdfOCR.performOCR env pageNumbers) = Ok r →
  JsString.truthy (PdfOCR.text r) = true ∧
  errorToasts (trace (PdfOCR.performOCR env pageNumbers)) = [].
Proof.
  destruct (PdfOCR.getDocument env) as [pdf|e] eqn:Hdoc.
  2: { unfold PdfOCR.performOCR. rewrite Hdoc. by unfold try_catch, bind, lift. }
  rewrite (performOCR_unfold env pdf Hdoc).
  destruct (outcome (PdfOCR.performOCR_loop env pdf pageNumbers "" 0%nat))
    as [[fullText count]|e] eqn:Hloop; [|done].
  intros [= <-]. cbn [trace fst PdfOCR.text]. split.
  - by destruct (JsString.truthy fullText) eqn:Htext.
  - rewrite errorToasts_app, errorToasts_loop. by destruct (0 <? _)%nat.
Qed.

(** X10.  When the extraction of the split pages completes, the viewer
    records a text that is never empty, so that the chat can be toggled,
    opens the chat panel and clears the processing flag; the split is
    kept and no error toast is shown. *)
Theorem completed_extraction_opens_chat (env : PdfOCR.Env) (st : PDFViewer.state)
    (r : PdfOCR.OcrResult) :
  PDFViewer.isSplit st = true →
  PDFViewer.splitPdfPages st ≠ [] →
  outcome (PdfOCR.performOCR env (PDFViewer.splitPdfPages st)) = Ok r →
  ∃ st', outcome (PDFViewer.handlePerformOCR env st) = Ok st' ∧
         PDFViewer.ocrText st' = PdfOCR.text r ∧
         JsString.truthy (PDFViewer.ocrText st') = true ∧
         PDFViewer.showChat st' = true ∧
         PDFViewer.isProcessingOCR st' = false ∧
         PDFViewer.isSplit st' = true ∧
         PDFViewer.splitPdfPages st' = PDFViewer.splitPdfPages st ∧
         errorToasts (trace (PDFViewer.handlePerformOCR env st)) = [].
Proof.
  intros Hsplit Hne Hok.
  destruct (performOCR_completed env _ r Hok) as [Htext Hquiet].
  destruct (PdfOCR.performOCR env (PDFViewer.splitPdfPages st)) as [t r'] eqn:Hocr.
  simpl in Hok, Hquiet. subst r'.
  rewrite (handlePerformOCR_ok env st t r Hsplit Hne Hocr).
  eexists. split; [reflexivity|]. repeat split; try done.
  cbn [trace fst]. rewrite (errorToasts_app [_]), errorToasts_app, Hquiet. done.
Qed.

Lemma completed_extraction_opens_chat_witness :
  ∃ st', outcome (PDFViewer.handlePerformOCR Sample.blankEnv (Sample.splitViewer 1 [1]))
           = Ok st' ∧
         PDFViewer.ocrText st' =
           "Page 1:" +:+ String "010" (String "010" (String "010" "")) ∧
         JsString.truthy (PDFViewer.ocrText st') = true ∧
         PDFViewer.showChat st' = true ∧
         PDFViewer.isProcessingOCR st' = false ∧
         PDFViewer.isSplit st' = true ∧
         PDFViewer.splitPdfPages st' = [1] ∧
         errorToasts (trace (PDFViewer.handlePerformOCR Sample.blankEnv
                               (Sample.splitViewer 1 [1]))) = [].
Proof.
  apply (completed_extraction_opens_chat Sample.blankEnv (Sample.splitViewer 1 [1])
           {| PdfOCR.text := "Page 1:" +:+ String "010" (String "010" (String "010" "")) |}).
  - reflexivity.
  - done.
  - reflexivity.
Defined.

(** X11.  A valid split followed by the extraction, on a document whose
    pages all yield a text: the text recorded by the viewer is made of
    the sections of the pages from the start page to the end page, in
    order and with none left out, and the chat panel is open. *)
Theorem split_then_extract (c : PDFControls.state) (v : PDFViewer.state)
    (env : PdfOCR.Env) (pdf : PdfOCR.PDFDocumentProxy) :
  1 ≤ PDFControls.startPage c →
  PDFControls.startPage c ≤ PDFControls.endPage c →
  PDFControls.endPage c ≤ PDFViewer.numPages v →
  PdfOCR.getDocument env = Ok pdf →
  PdfOCR.numPages pdf = PDFViewer.numPages v →
  (∀ p, PDFControls.startPage c ≤ p ≤ PDFControls.endPage c →
        ∃ r, outcome (PdfOCR.extractPageText env pdf p) = Ok r) →
  let start := PDFControls.startPage c in
  let end_ := PDFControls.endPage c in
  ∃ c' v' v'',
    outcome (PDFControls.handleSplit c v) = Ok (c', v') ∧
    outcome (PDFViewer.handlePerformOCR env v') = Ok v'' ∧
    PDFViewer.ocrText v'' =
      JsString.concat
        (map (λ p, PdfOCR.pageSection p (PdfOCR.extractedText env pdf p))
             (seqZ start (end_ - start + 1))) ∧
    PDFViewer.showChat v'' = true ∧
    PDFViewer.splitPdfPages v'' = seqZ start (end_ - start + 1).
Proof.
  intros H1 H2 H3 Hdoc Hnum Hpages start end_.
  unfold PDFControls.handleSplit.
  destruct (_ && _) eqn:Hguard.
  2: { rewrite !andb_false_iff, !Z.leb_gt in Hguard. lia. }
  unfold PDFViewer.handleSplit. rewrite arrayFrom_seqZ.
  unfold bind at 1 2. unfold emit, ret. cbn [outcome snd app].
  fold start end_.
  set (v' := PDFViewer.setCurrentPage start
               (PDFViewer.setSplit (seqZ start (end_ - start + 1)) v)).
  assert (seqZ start (end_ - start + 1) ≠ []) as Hne.
  { rewrite seqZ_cons by lia. done. }
  destruct (loop_outcome env pdf (seqZ start (end_ - start + 1)) "" 0%nat)
    as [count Hloop].
  { intros p Hp%elem_of_seqZ _. apply Hpages. lia. }
  rewrite filter_all, string_app_nil_l in Hloop.
  2: { intros p Hp%elem_of_seqZ. unfold PdfOCR.inRange. lia. }
  pose proof (performOCR_unfold env pdf Hdoc (seqZ start (end_ - start + 1))) as Hocr.
  rewrite Hloop, sections_truthy in Hocr by done.
  exists (PDFControls.setShowSplitControls false c), v'. eexists.
  split; [reflexivity|].
  rewrite (handlePerformOCR_ok env v' _ _ eq_refl Hne Hocr).
  split; [reflexivity|]. done.
Qed.

Lemma split_then_extract_witness :
  ∃ c' v' v'',
    outcome (PDFControls.handleSplit
               {| PDFControls.startPage := 2; PDFControls.endPage := 4;
                  PDFControls.showSplitControls := true |}
               (Sample.unsplitViewer 10)) = Ok (c', v') ∧
    outcome (PDFViewer.handlePerformOCR Sample.env v') = Ok v'' ∧
    PDFViewer.ocrText v'' =
      JsString.concat
        (map (λ p, PdfOCR.pageSection p (PdfOCR.extractedText Sample.env Sample.doc p))
             (seqZ 2 (4 - 2 + 1))) ∧
    PDFViewer.showChat v'' = true ∧
    PDFViewer.splitPdfPages v'' = seqZ 2 (4 - 2 + 1).
Proof.
  apply (split_then_extract
           {| PDFControls.startPage := 2; PDFControls.endPage := 4;
              PDFControls.showSplitControls := true |}
           (Sample.unsplitViewer 10) Sample.env Sample.doc).
  - simpl. lia.
  - simpl. lia.
  - simpl. lia.
  - reflexivity.
  - reflexivity.
  - intros p Hp. simpl in Hp.
    assert (p = 2 ∨ p = 3 ∨ p = 4) as [-> | [-> | ->]] by lia; by eexists.
Defined.

(** ** The recent-files cache: order, recovery and reads *)

Lemma filterByName_filter (fileName : string) (items : list json) :
  Forall (λ item, item ≠ JNull) items →
  History.filterByName fileName items = Ok (List.filter (Recent.otherName fileName) items).
Proof.
  induction 1 as [|item items Hitem _ IH]; [done|].
  simpl. rewrite IH.
  assert (History.nameDiffers fileName item = Ok (Recent.otherName fileName item)) as ->.
  { unfold History.nameDiffers, Recent.otherName. destruct item; try done.
    simpl. by destruct (Json.lookup "name" fields) as [[]|]. }
  done.
Qed.

Lemma entries_lookup (ls : gmap string jsonText) (t : jsonText) (items : list json) :
  ls !! History.key = Some t → JsString.truthy (raw t) = true →
  parsed t = Ok (JArray items) → History.entries ls = items.
Proof. intros Hkey Hraw Hparsed. unfold History.entries. by rewrite Hkey, Hraw, Hparsed. Qed.

Lemma entries_unreadable (ls : gmap string jsonText) :
  (ls !! History.key = None ∨
   ∃ t, ls !! History.key = Some t ∧ JsString.truthy (raw t) = false) →
  History.entries ls = [].
Proof.
  unfold History.entries. intros [->|(t & -> & ->)]; done.
Qed.

(** A selection on a readable storage with room for the new list. *)
Lemma select_inserts (quota : History.Quota) (now : Z) (file : History.File)
    (st : History.state) (base64Data : string) :
  Recent.readable (History.storage st) →
  History.readAsDataURL file = Ok base64Data →
  History.tooLarge base64Data = false →
  (∀ v, quota (History.storage st) History.key v = false) →
  History.handleFileSelect quota now file st =
    ([],
     {| History.pdfFile := Some file;
        History.storage :=
          <[History.key :=
              stringified
                (JArray (take 3 (History.historyItem (History.name file) base64Data now ::
                                 List.filter (Recent.otherName (History.name file))
                                   (History.entries (History.storage st)))))]>
            (History.storage st) |},
     Ok tt).
Proof.
  intros [Harray Hnonnull] Hread Hsmall Hroom.
  unfold History.handleFileSelect, History.setItem.
  unfold act_bind, act_try, act_modify, act_get, act_lift, act_throw, act_emit, act_ret.
  simpl. rewrite Hread. simpl. rewrite Hsmall. simpl.
  destruct (History.storage st !! History.key) as [t|] eqn:Hkey; simpl.
  - destruct (JsString.truthy (raw t)) eqn:Hraw; simpl.
    + destruct (Harray t eq_refl Hraw) as [items Hparsed].
      rewrite (entries_lookup _ t items) in * by done.
      rewrite Hparsed. simpl. rewrite filterByName_filter by done. simpl.
      by rewrite Hroom.
    + rewrite entries_unreadable by eauto. by rewrite Hroom.
  - rewrite entries_unreadable by eauto. by rewrite Hroom.
Qed.

(** X12.  Selecting a file that can be read and is small enough, on a
    storage whose history is readable and has room: the file is
    displayed, no toast is shown, and the history becomes the new entry
    followed by the former entries of another name, cut to three; the
    other keys of the storage are untouched. *)
Theorem select_puts_file_first (quota : History.Quota) (now : Z) (file : History.File)
    (st : History.state) (base64Data : string) :
  Recent.readable (History.storage st) →
  History.readAsDataURL file = Ok base64Data →
  History.tooLarge base64Data = false →
  (∀ v, quota (History.storage st) History.key v = false) →
  let updatedHistory :=
    take 3 (History.historyItem (History.name file) base64Data now ::
            List.filter (Recent.otherName (History.name file))
              (History.entries (History.storage st))) in
  ∃ st', History.handleFileSelect quota now file st = ([], st', Ok tt) ∧
         History.pdfFile st' = Some file ∧
         History.entries (History.storage st') = updatedHistory ∧
         ∀ k, k ≠ History.key → History.storage st' !! k = History.storage st !! k.
Proof.
  intros Hreadable Hread Hsmall Hroom updatedHistory.
  rewrite (select_inserts quota now file st base64Data) by done.
  eexists. split; [reflexivity|]. simpl. split; [done|]. split.
  - by rewrite entries_insert.
  - intros k Hk. by rewrite lookup_insert_ne.
Qed.

Lemma select_puts_file_first_witness :
  let updatedHistory :=
    take 3 (History.historyItem "a.pdf" "QQ==" 7 ::
            List.filter (Recent.otherName "a.pdf")
              (History.entries (History.storage Sample.crowded))) in
  ∃ st', History.handleFileSelect Sample.roomy 7 (Sample.pdf "a.pdf" "QQ==")
           Sample.crowded = ([], st', Ok tt) ∧
         History.pdfFile st' = Some (Sample.pdf "a.pdf" "QQ==") ∧
         History.entries (History.storage st') = updatedHistory ∧
         ∀ k, k ≠ History.key →
              History.storage st' !! k = History.storage Sample.crowded !! k.
Proof.
  apply (select_puts_file_first Sample.roomy 7 (Sample.pdf "a.pdf" "QQ==")
           Sample.crowded "QQ==").
  - split.
    + intros t Ht _. vm_compute in Ht. injection Ht as <-. by eexists.
    + vm_compute. repeat constructor; discriminate.
  - reflexivity.
  - reflexivity.
  - reflexivity.
Defined.

Lemma otherName_false (fileName : string) (item : json) :
  Recent.otherName fileName item = false ↔
  History.entryName item = Some (JString fileName).
Proof.
  unfold Recent.otherName.
  destruct (History.entryName item) as [[| | |s| |]|]; try (split; done).
  rewrite negb_false_iff, bool_decide_eq_true. split; [by intros ->|by intros [= ->]].
Qed.

Lemma filter_other_sublist (fileName : string) (items : list json) :
  List.filter (Recent.otherName fileName) items `sublist_of` items.
Proof.
  induction items as [|item items IH]; [constructor|].
  simpl. destruct (Recent.otherName fileName item); by constructor.
Qed.

Lemma filter_other_names (fileName : string) (items : list json) :
  Forall (λ item, History.entryName item ≠ Some (JString fileName))
    (List.filter (Recent.otherName fileName) items).
Proof.
  apply Forall_forall. intros item [_ Hother]%list_elem_of_In%filter_In.
  intros Hname%otherName_false. congruence.
Qed.

(** Removing the entries of one name from a list without repeated names
    removes at most one entry: the first [n] that are left are among the
    first [n + 1] of the list. *)
Lemma take_filter_other (fileName : string) (n : nat) (items : list json) :
  NoDup (History.entryName <$> items) →
  take n (List.filter (Recent.otherName fileName) (take (S n) items)) =
  take n (List.filter (Recent.otherName fileName) items).
Proof.
  revert n. induction items as [|item items IH]; intros n Hnodup; [done|].
  rewrite fmap_cons in Hnodup. apply NoDup_cons in Hnodup as [Hfresh Hnodup].
  destruct n as [|n]; [done|].
  change (take (S (S n)) (item :: items)) with (item :: take (S n) items).
  simpl List.filter. destruct (Recent.otherName fileName item) eqn:Hother.
  - simpl. f_equal. by apply IH.
  - apply otherName_false in Hother.
    assert (∀ l, l `sublist_of` items → List.filter (Recent.otherName fileName) l = l)
      as Hkeep.
    { intros l Hl.
      assert (Forall (λ x, Recent.otherName fileName x = true) l) as Hall.
      { apply Forall_forall. intros x Hx. apply not_false_iff_true.
        intros Hx'%otherName_false. apply Hfresh. rewrite Hother, <- Hx'.
        apply list_elem_of_fmap. exists x. split; [done|].
        by eapply elem_of_sublist. }
      clear Hl. induction Hall as [|x l Hx _ IHl]; [done|].
      simpl. by rewrite Hx, IHl. }
    rewrite !Hkeep by (done || apply sublist_take).
    by rewrite take_idemp.
Qed.

(** The state of the cache after a run of selections that all fit. *)
Lemma run_selects (quota : History.Quota) (selections : list (string * string * Z))
    (st : History.state) (acc : list json) :
  (∀ ls k v, quota ls k v = false) →
  Forall (λ selection, History.tooLarge (snd (fst selection)) = false) selections →
  Recent.readable (History.storage st) →
  History.entries (History.storage st) = take 3 acc →
  NoDup (History.entryName <$> acc) →
  History.entries (History.storage (History.run quota (Recent.select <$> selections) st)) =
    take 3 (Recent.mostRecentFirst selections acc).
Proof.
  intros Hroom Hsmall. revert st acc.
  induction Hsmall as [|[[fileName base64Data] now] selections Hfit _ IH];
    intros st acc Hreadable Hentries Hnodup; [done|].
  simpl in Hfit. rewrite fmap_cons. unfold History.run. simpl foldl.
  set (file := {| History.name := fileName; History.readAsDataURL := Ok base64Data |}).
  rewrite (select_inserts quota now file st base64Data) by done.
  cbn [snd fst]. apply IH; cbn [History.storage].
  - split.
    + intros t Ht _. rewrite lookup_insert_eq in Ht. injection Ht as <-. by eexists.
    + rewrite entries_insert. apply Forall_take. constructor; [done|].
      destruct Hreadable as [_ Hnonnull].
      rewrite Forall_forall in Hnonnull. apply Forall_forall. intros item Hin.
      apply Hnonnull. eapply elem_of_sublist; [exact Hin|apply filter_other_sublist].
  - rewrite entries_insert, Hentries.
    change (take 3 (?x :: ?l)) with (x :: take 2 l).
    f_equal. by apply take_filter_other.
  - rewrite fmap_cons. apply NoDup_cons. split.
    + intros (item & Hname & Hin)%list_elem_of_fmap.
      pose proof (filter_other_names fileName acc) as Hall.
      rewrite Forall_forall in Hall. by apply (Hall item).
    + eapply sublist_NoDup; [exact Hnodup|].
      apply fmap_sublist, filter_other_sublist.
Qed.

(** X13.  Starting from an empty storage, after any run of selections of
    files that can be read and are small enough, under a quota that
    refuses no write, the entries of the cache are the three most
    recently selected names, most recent first, each with the data and
    the time of its latest selection. *)
Theorem cache_keeps_three_most_recent (quota : History.Quota)
    (selections : list (string * string * Z)) :
  (∀ ls k v, quota ls k v = false) →
  Forall (λ selection, History.tooLarge (snd (fst selection)) = false) selections →
  History.entries
    (History.storage (History.run quota (Recent.select <$> selections) History.initial)) =
  take 3 (Recent.mostRecentFirst selections []).
Proof.
  intros Hroom Hsmall. apply run_selects; try done.
  apply NoDup_nil_2.
Qed.

Lemma cache_keeps_three_most_recent_witness :
  History.entries
    (History.storage
       (History.run Sample.roomy
          (Recent.select <$> [("a.pdf", "QQ==", 1); ("b.pdf", "Qg==", 2);
                              ("c.pdf", "Qw==", 3); ("a.pdf", "QUE=", 4);
                              ("d.pdf", "RA==", 5)])
          History.initial)) =
  take 3 (Recent.mostRecentFirst
            [("a.pdf", "QQ==", 1); ("b.pdf", "Qg==", 2); ("c.pdf", "Qw==", 3);
             ("a.pdf", "QUE=", 4); ("d.pdf", "RA==", 5)] []).
Proof.
  apply (cache_keeps_three_most_recent Sample.roomy).
  - reflexivity.
  - repeat constructor.
Defined.

(** X14.  When the first attempt to save a selection fails, because the
    stored history is not JSON or because the storage refuses the write,
    [handleFileSelect] empties the whole storage, keys of other
    applications included, and leaves at most the new entry; the error
    toast is shown only if the second write is refused as well. *)
Theorem failed_save_clears_storage (quota : History.Quota) (now : Z)
    (file : History.File) (st : History.state) (base64Data : string) :
  History.readAsDataURL file = Ok base64Data →
  History.tooLarge base64Data = false →
  (∃ t msg, History.storage st !! History.key = Some t ∧
            JsString.truthy (raw t) = true ∧ parsed t = Throw msg) ∨
  (∀ v, quota (History.storage st) History.key v = true) →
  let item := History.historyItem (History.name file) base64Data now in
  let refused := quota ∅ History.key (Json.stringify (JArray [item])) in
  History.handleFileSelect quota now file st =
    (if refused then [ToastError "Could not save to history: storage full"] else [],
     {| History.pdfFile := Some file;
        History.storage :=
          if refused then ∅ else {[ History.key := stringified (JArray [item]) ]} |},
     Ok tt).
Proof.
  intros Hread Hsmall Hfails item refused.
  assert (refused = quota ∅ History.key (raw (stringified (JArray [item])))) as Hrefused
    by reflexivity.
  clearbody refused. simpl in Hrefused.
  unfold History.handleFileSelect, History.setItem, History.clear.
  unfold act_bind, act_try, act_modify, act_get, act_lift, act_throw, act_emit, act_ret.
  simpl. rewrite Hread. simpl. rewrite Hsmall. simpl. rewrite <- !Hrefused.
  destruct Hfails as [(t & msg & -> & -> & ->)|Hfull]; simpl.
  - by destruct refused.
  - destruct (History.storage st !! History.key) as [t|]; simpl.
    + destruct (JsString.truthy (raw t)); simpl.
      * destruct (parsed t) as [history|]; simpl; [|by destruct refused].
        destruct history; simpl; try (by destruct refused).
        destruct (History.filterByName (History.name file) items); simpl;
          [|by destruct refused].
        rewrite Hfull. simpl. by destruct refused.
      * rewrite Hfull. simpl. by destruct refused.
    + rewrite Hfull. simpl. by destruct refused.
Qed.

Lemma failed_save_clears_storage_witness :
  let item := History.historyItem "a.pdf" "QQ==" 7 in
  let refused := Sample.roomy ∅ History.key (Json.stringify (JArray [item])) in
  History.handleFileSelect Sample.roomy 7 (Sample.pdf "a.pdf" "QQ==")
    {| History.pdfFile := None;
       History.storage := <["theme" := stringified (JString "dark")]> Sample.garbledStorage |} =
    (if refused then [ToastError "Could not save to history: storage full"] else [],
     {| History.pdfFile := Some (Sample.pdf "a.pdf" "QQ==");
        History.storage :=
          if refused then ∅ else {[ History.key := stringified (JArray [item]) ]} |},
     Ok tt).
Proof.
  apply (failed_save_clears_storage Sample.roomy 7 (Sample.pdf "a.pdf" "QQ==")
           {| History.pdfFile := None;
              History.storage :=
                <["theme" := stringified (JString "dark")]> Sample.garbledStorage |}
           "QQ==").
  - reflexivity.
  - reflexivity.
  - left. exists Sample.garbledText, "Unexpected end of JSON input".
    split; [reflexivity|]. split; reflexivity.
Defined.


(** What [getHistory] does, whatever the storage holds. *)
Lemma getHistory_reads (st : History.state) :
  History.getHistory st =
    ([],
     match History.storage st !! History.key with
     | Some t =>
         if JsString.truthy (raw t) then
           match parsed t with
           | Ok _ => st
           | Throw _ => History.setStorage (delete History.key (History.storage st)) st
           end
         else st
     | None => st
     end,
     Ok (History.entries (History.storage st))).
Proof.
  unfold History.getHistory, History.removeItem, History.entries.
  unfold act_bind, act_try, act_modify, act_get, act_lift, act_ret. simpl.
  destruct (History.storage st !! History.key) as [t|]; simpl; [|done].
  destruct (JsString.truthy (raw t)); simpl; [|done].
  destruct (parsed t) as [v|]; simpl; [|done]. by destruct v.
Qed.

(** X15.  [getHistory] shows no toast, never throws and returns the
    entries of the cache; it changes nothing in the storage but the
    history key, the entries are the same afterwards, and a second read
    returns the same list and changes nothing at all. *)
Theorem reading_history_is_stable (st : History.state) :
  ∃ st', History.getHistory st = ([], st', Ok (History.entries (History.storage st))) ∧
         History.pdfFile st' = History.pdfFile st ∧
         (∀ k, k ≠ History.key → History.storage st' !! k = History.storage st !! k) ∧
         History.entries (History.storage st') = History.entries (History.storage st) ∧
         History.getHistory st' = ([], st', Ok (History.entries (History.storage st))).
Proof.
  rewrite getHistory_reads.
  destruct (History.storage st !! History.key) as [t|] eqn:Hkey.
  2: { exists st. rewrite getHistory_reads, Hkey. done. }
  destruct (JsString.truthy (raw t)) eqn:Hraw.
  2: { exists st. rewrite getHistory_reads, Hkey, Hraw. done. }
  destruct (parsed t) as [v|msg] eqn:Hparsed.
  { exists st. rewrite getHistory_reads, Hkey, Hraw, Hparsed. done. }
  eexists. split; [reflexivity|]. split; [done|].
  assert (History.entries (History.storage st) = []) as Hnone.
  { unfold History.entries. by rewrite Hkey, Hraw, Hparsed. }
  split; [|split].
  - intros k Hk. simpl. by rewrite lookup_delete_ne.
  - rewrite Hnone. unfold History.entries. simpl. by rewrite lookup_delete_eq.
  - rewrite getHistory_reads. simpl. rewrite lookup_delete_eq, Hnone.
    unfold History.entries. simpl. by rewrite lookup_delete_eq.
Qed.



(** The file handed to [handleFileSelect] is put on display whatever
    happens to the cache, and the handler never throws. *)
Lemma handleFileSelect_displays (quota : History.Quota) (now : Z) (file : History.File)
    (st : History.state) :
  History.pdfFile (snd (fst (History.handleFileSelect quota now file st))) = Some file.
Proof.
  unfold History.handleFileSelect, History.setItem, History.clear.
  unfold act_bind, act_try, act_modify, act_get, act_lift, act_throw, act_emit, act_ret.
  simpl.
  destruct (History.readAsDataURL file) as [d|]; simpl; [|done].
  destruct (History.tooLarge d); simpl; [done|].
  destruct (History.storage st !! History.key) as [t|]; simpl.
  - destruct (JsString.truthy (raw t)); simpl.
    + destruct (parsed t) as [history|]; simpl.
      * destruct history; simpl; try (by destruct (quota ∅ _ _)).
        destruct (History.filterByName (History.name file) items) as [others|]; simpl.
        -- destruct (quota (History.storage st) _ _); simpl; [|done].
           by destruct (quota ∅ _ _).
        -- by destruct (quota ∅ _ _).
      * by destruct (quota ∅ _ _).
    + destruct (quota (History.storage st) _ _); simpl; [|done].
      by destruct (quota ∅ _ _).
  - destruct (quota (History.storage st) _ _); simpl; [|done]. by destruct (quota ∅ _ _).
Qed.

(** X17.  A drop never throws.  If the first dropped file is a PDF, it is
    put on display, whether or not it could be cached; otherwise (no
    file, or a file of another type) one error toast is shown and
    neither the display nor the storage changes. *)
Theorem drop_displays_pdf_only (quota : History.Quota) (now : Z)
    (acceptedFiles : list FileUpload.Dropped) (st : History.state) :
  let run := FileUpload.onDrop quota now acceptedFiles st in
  snd run = Ok tt ∧
  match head acceptedFiles with
  | Some dropped =>
      if decide (FileUpload.type dropped = "application/pdf")
      then History.pdfFile (snd (fst run)) = Some (FileUpload.file dropped)
      else run = ([ToastError "Please upload a PDF file"], st, Ok tt)
  | None => run = ([ToastError "Please upload a PDF file"], st, Ok tt)
  end.
Proof.
  unfold FileUpload.onDrop. destruct (head acceptedFiles) as [dropped|]; [|done].
  destruct (decide (FileUpload.type dropped = "application/pdf")); [|done].
  split; [apply handleFileSelect_Ok|apply handleFileSelect_displays].
Qed.

(** ** Download *)

Lemma length_prefix (n : nat) (s : string) :
  String.length (Download.prefix n s) = (n `min` String.length s)%nat.
Proof.
  revert s. induction n as [|n IH]; intros [|c s]; simpl; try done. by rewrite IH.
Qed.

Lemma prefix_all (n : nat) (s : string) :
  (String.length s ≤ n)%nat → Download.prefix n s = s.
Proof.
  revert s. induction n as [|n IH]; intros [|c s]; simpl; try done; [lia|].
  intros Hlen. rewrite IH; [done|lia].
Qed.

Lemma allSafe_prefix (n : nat) (s : string) :
  Download.allSafe s = true → Download.allSafe (Download.prefix n s) = true.
Proof.
  revert s. induction n as [|n IH]; intros [|c s]; simpl; try done.
  intros [-> Hs]%andb_prop. simpl. by apply IH.
Qed.

Lemma allSafe_replaceUnsafe (s : string) :
  Download.allSafe (Download.replaceUnsafe s) = true.
Proof.
  induction s as [|c s IH]; [done|]. simpl. rewrite IH, andb_true_r.
  by destruct (Download.isSafeChar c) eqn:Hc.
Qed.

Lemma replaceUnsafe_safe (s : string) :
  Download.allSafe s = true → Download.replaceUnsafe s = s.
Proof.
  induction s as [|c s IH]; [done|]. simpl.
  intros [-> Hs]%andb_prop. by rewrite IH.
Qed.

Lemma length_replaceUnsafe (s : string) :
  String.length (Download.replaceUnsafe s) = String.length s.
Proof. induction s as [|c s IH]; [done|]. simpl. by rewrite IH. Qed.

(** X18.  Whenever [handleDownload] starts a download, the name of the
    downloaded file is a stem, an underscore, the time stamp and [.pdf],
    and one success toast is shown.  The stem has at most 50 characters,
    all of them letters, digits, [-], [_] or [.], and it is the name of the
    file itself exactly when that name is at most 50 characters long and
    made of such characters only; the file has a non-empty name. *)
Theorem download_name_is_safe (createObjectURL : result string) (now : Z)
    (fileName download : string) :
  outcome (Download.handleDownload createObjectURL now fileName) = Ok (Some download) →
  ∃ stem,
    download = stem +:+ "_" +:+ pretty now +:+ ".pdf" ∧
    (String.length stem ≤ 50)%nat ∧
    Download.allSafe stem = true ∧
    (stem = fileName ↔
       (String.length fileName ≤ 50)%nat ∧ Download.allSafe fileName = true) ∧
    fileName ≠ "" ∧
    trace (Download.handleDownload createObjectURL now fileName) =
      [ToastSuccess "Download started successfully"].
Proof.
  unfold Download.handleDownload.
  destruct fileName as [|c fileName]; [done|]. cbn [JsString.truthy negb].
  destruct createObjectURL as [url|e]; [|done].
  unfold try_catch, bind, lift, emit, ret. cbn [outcome trace fst snd app].
  intros [= <-]. exists (Download.safeFileName (String c fileName)).
  split; [done|]. unfold Download.safeFileName. split; [|split; [|split]].
  - rewrite length_prefix. lia.
  - apply allSafe_prefix, allSafe_replaceUnsafe.
  - split.
    + intros Hsame. split.
      * rewrite <- Hsame, length_prefix. lia.
      * rewrite <- Hsame. apply allSafe_prefix, allSafe_replaceUnsafe.
    + intros [Hlen Hsafe]. rewrite replaceUnsafe_safe by done. by apply prefix_all.
  - done.
Qed.

Lemma download_name_is_safe_witness :
  ∃ stem,
    "Q3_report__final_.pdf_1700000000000.pdf" =
      stem +:+ "_" +:+ pretty 1700000000000 +:+ ".pdf" ∧
    (String.length stem ≤ 50)%nat ∧
    Download.allSafe stem = true ∧
    (stem = "Q3 report (final).pdf" ↔
       (String.length "Q3 report (final).pdf" ≤ 50)%nat ∧
       Download.allSafe "Q3 report (final).pdf" = true) ∧
    "Q3 report (final).pdf" ≠ "" ∧
    trace (Download.handleDownload (Ok "blob:1f0c") 1700000000000
             "Q3 report (final).pdf") =
      [ToastSuccess "Download started successfully"].
Proof.
  apply (download_name_is_safe (Ok "blob:1f0c") 1700000000000
           "Q3 report (final).pdf" "Q3_report__final_.pdf_1700000000000.pdf").
  reflexivity.
Defined.

(** ** The navigator and the page sequence *)

Lemma elem_of_arrayFrom (n p : Z) :
  1 ≤ p ≤ n → p ∈ PDFViewer.arrayFrom n (λ i, i + 1).
Proof.
  intros Hp. unfold PDFViewer.arrayFrom. apply list_elem_of_fmap.
  exists (Z.to_nat (p - 1)). split; [lia|]. apply elem_of_seq. lia.
Qed.

(** X19.  A jump through the navigator never reads past the active page
    sequence: whatever the field holds, the handler completes, the page
    sequence is unchanged, and either nothing changed in the viewer or its
    current page is now one of the pages of the sequence. *)
Theorem jump_lands_on_a_displayed_page (n : PDFPageNavigator.state)
    (v : PDFViewer.state) :
  ∃ t n' v',
    PDFPageNavigator.handleJumpToPage n v = Some (t, Ok (n', v')) ∧
    PDFViewer.pages v' = PDFViewer.pages v ∧
    (v' = v ∨ PDFViewer.currentPage v' ∈ PDFViewer.pages v).
Proof.
  unfold PDFPageNavigator.handleJumpToPage.
  destruct (PDFPageNavigator.parseInt _) as [p|];
    [|do 3 eexists; split; [reflexivity|]; split; [done|by left]].
  destruct (_ || _) eqn:Hguard;
    [do 3 eexists; split; [reflexivity|]; split; [done|by left]|].
  apply orb_false_iff in Hguard as [Hlow%Z.ltb_ge Hhigh%Z.ltb_ge].
  unfold PDFViewer.handleJumpToPage, PDFViewer.totalPages, PDFViewer.pages in *.
  destruct (PDFViewer.isSplit v) eqn:Hsplit.
  - unfold PDFViewer.index.
    destruct (p - 1 <? 0) eqn:Hneg; [apply Z.ltb_lt in Hneg; lia|].
    destruct (lookup_lt_is_Some_2 (PDFViewer.splitPdfPages v) (Z.to_nat (p - 1)))
      as [target Htarget]; [lia|].
    rewrite Htarget. cbn [mbind option_bind].
    unfold bind, emit, ret. do 3 eexists. split; [reflexivity|].
    cbn [PDFViewer.setCurrentPage PDFViewer.isSplit PDFViewer.splitPdfPages
         PDFViewer.currentPage].
    rewrite Hsplit. split; [done|]. right. by eapply list_elem_of_lookup_2.
  - cbn [mbind option_bind]. unfold bind, emit, ret.
    do 3 eexists. split; [reflexivity|].
    cbn [PDFViewer.setCurrentPage PDFViewer.isSplit PDFViewer.numPages
         PDFViewer.currentPage].
    rewrite Hsplit. split; [done|]. right. by apply elem_of_arrayFrom.
Qed.

(** ** The chat panel: answered requests and rate limits *)

(** The final state of a submission whose request is answered. *)
Lemma handleSubmit_success (API_KEY : option string) (status : Z) (body : jsonText)
    (st : ChatBot.state) (aiResponse : string) :
  JsString.truthy (JsString.trim (ChatBot.input st)) = true →
  ChatBot.isProcessing st = false →
  JsString.truthy (default "" API_KEY) = true →
  ChatBot.ok status = true →
  ChatBot.aiResponseOf body = Ok aiResponse →
  ChatBot.handleSubmit API_KEY (ChatBot.Response status body) st =
    ([ToastLoading "Processing your question..." ChatBot.processingToast;
      ToastDismiss ChatBot.processingToast;
      ToastSuccess "Response generated successfully!"],
     {| ChatBot.messages :=
          ChatBot.removeThinking
            (ChatBot.messages st ++
               [{| ChatBot.role := ChatBot.user;
                   ChatBot.content := JsString.trim (ChatBot.input st) |}])
          ++ [{| ChatBot.role := ChatBot.assistant; ChatBot.content := aiResponse |}];
        ChatBot.input := "";
        ChatBot.isProcessing := false |},
     Ok tt).
Proof.
  intros Hinput Hproc Hkey Hok Hreply.
  unfold ChatBot.handleSubmit, act_finally, act_try, act_bind, act_get, act_modify,
    act_emit, act_lift, act_throw, act_ret.
  rewrite Hinput, Hproc, Hkey. simpl. rewrite Hok, Hreply. simpl.
  unfold ChatBot.setIsProcessing, ChatBot.setMessages, ChatBot.setInput, ChatBot.append;
    simpl.
  do 4 f_equal. rewrite removeThinking_app. simpl. by rewrite app_nil_r.
Qed.

Lemma removeThinking_id (l : list ChatBot.Message) :
  Forall (λ m, ChatBot.content m ≠ ChatBot.thinking) l → ChatBot.removeThinking l = l.
Proof.
  unfold ChatBot.removeThinking. induction 1 as [|m l Hm _ IH]; [done|].
  simpl. rewrite bool_decide_eq_false_2 by done. simpl. by rewrite IH.
Qed.

(** X20.  When the request of a chat submission is answered with a
    reply that can be read, the field is emptied, the processing flag is
    cleared, the toasts are the loading toast, its dismissal and a success
    toast, and the transcript is the former one and the question, without
    the messages that read [Thinking...], followed by the reply; in a
    transcript with no such message and for a question that does not read
    so, exactly the question and the reply are appended. *)
Theorem answered_request_appends_turns (API_KEY : option string) (status : Z)
    (body : jsonText) (st : ChatBot.state) (aiResponse : string) :
  JsString.truthy (JsString.trim (ChatBot.input st)) = true →
  ChatBot.isProcessing st = false →
  JsString.truthy (default "" API_KEY) = true →
  200 ≤ status ≤ 299 →
  ChatBot.aiResponseOf body = Ok aiResponse →
  let question := {| ChatBot.role := ChatBot.user;
                     ChatBot.content := JsString.trim (ChatBot.input st) |} in
  let reply := {| ChatBot.role := ChatBot.assistant; ChatBot.content := aiResponse |} in
  let run := ChatBot.handleSubmit API_KEY (ChatBot.Response status body) st in
  let st' := snd (fst run) in
  fst (fst run) =
    [ToastLoading "Processing your question..." ChatBot.processingToast;
     ToastDismiss ChatBot.processingToast;
     ToastSuccess "Response generated successfully!"] ∧
  ChatBot.messages st' =
    ChatBot.removeThinking (ChatBot.messages st ++ [question]) ++ [reply] ∧
  (Forall (λ m, ChatBot.content m ≠ ChatBot.thinking) (ChatBot.messages st) →
   JsString.trim (ChatBot.input st) ≠ ChatBot.thinking →
   ChatBot.messages st' = ChatBot.messages st ++ [question; reply]) ∧
  ChatBot.input st' = "" ∧
  ChatBot.isProcessing st' = false.
Proof.
  intros Hinput Hproc Hkey Hstatus Hreply question reply run st'.
  assert (ChatBot.ok status = true) as Hok.
  { unfold ChatBot.ok. apply andb_true_intro. split; apply Z.leb_le; lia. }
  subst st' run.
  rewrite (handleSubmit_success API_KEY status body st aiResponse) by done.
  cbn [fst snd ChatBot.messages ChatBot.input ChatBot.isProcessing].
  split; [done|]. split; [done|]. split; [|done].
  intros Hclean Hquestion. rewrite removeThinking_id.
  - by rewrite <- app_assoc.
  - apply Forall_app. split; [done|]. by repeat constructor.
Qed.

Lemma answered_request_appends_turns_witness :
  let body :=
    stringified
      (JObject [("choices",
                 JArray [JObject [("message",
                                   JObject [("role", JString "assistant");
                                            ("content", JString "A table of rates.")])]])]) in
  let question := {| ChatBot.role := ChatBot.user;
                     ChatBot.content := JsString.trim (ChatBot.input Sample.asking) |} in
  let reply := {| ChatBot.role := ChatBot.assistant;
                  ChatBot.content := "A table of rates." |} in
  let run := ChatBot.handleSubmit (Some "sk-or-v1") (ChatBot.Response 200 body)
               Sample.asking in
  let st' := snd (fst run) in
  fst (fst run) =
    [ToastLoading "Processing your question..." ChatBot.processingToast;
     ToastDismiss ChatBot.processingToast;
     ToastSuccess "Response generated successfully!"] ∧
  ChatBot.messages st' =
    ChatBot.removeThinking (ChatBot.messages Sample.asking ++ [question]) ++ [reply] ∧
  (Forall (λ m, ChatBot.content m ≠ ChatBot.thinking) (ChatBot.messages Sample.asking) →
   JsString.trim (ChatBot.input Sample.asking) ≠ ChatBot.thinking →
   ChatBot.messages st' = ChatBot.messages Sample.asking ++ [question; reply]) ∧
  ChatBot.input st' = "" ∧
  ChatBot.isProcessing st' = false.
Proof.
  intros body.
  apply (answered_request_appends_turns (Some "sk-or-v1") 200 body Sample.asking
           "A table of rates.").
  - reflexivity.
  - reflexivity.
  - reflexivity.
  - lia.
  - reflexivity.
Defined.

(** X21.  A 429 response whose body is not JSON is reported as a rate
    limit: the error thrown carries the status, so that, unless the body
    mentions a network or an authentication failure, the last message
    of the transcript is the rate-limit text followed by the invitation
    to try again. *)
Theorem plain_rate_limit_reply_is_recognised (API_KEY : option string)
    (body : jsonText) (st : ChatBot.state) (syntaxError : string) :
  JsString.truthy (JsString.trim (ChatBot.input st)) = true →
  ChatBot.isProcessing st = false →
  JsString.truthy (default "" API_KEY) = true →
  parsed body = Throw syntaxError →
  JsString.includes (raw body) "Failed to fetch" = false →
  JsString.includes (raw body) "NetworkError" = false →
  JsString.includes (raw body) "401" = false →
  let st' := snd (fst (ChatBot.handleSubmit API_KEY (ChatBot.Response 429 body) st)) in
  last (ChatBot.messages st') =
    Some {| ChatBot.role := ChatBot.assistant;
            ChatBot.content :=
              "Rate limit exceeded. Please wait a moment and try again." +:+
              " Please try again or rephrase your question." |}.
Proof.
  intros Hinput Hproc Hkey Hbody Hfetch Hnetwork Hauth st'. subst st'.
  rewrite (handleSubmit_failure API_KEY (ChatBot.Response 429 body) st
             ("HTTP 429: " +:+ raw body)); try done.
  2: { unfold ChatBot.thrown, ChatBot.httpErrorMessage. by rewrite Hbody. }
  cbn [fst snd ChatBot.messages]. rewrite last_snoc. do 2 f_equal.
  unfold ChatBot.categorize.
  change (JsString.includes ("HTTP 429: " +:+ raw body) "Failed to fetch")
    with (JsString.includes (raw body) "Failed to fetch").
  change (JsString.includes ("HTTP 429: " +:+ raw body) "NetworkError")
    with (JsString.includes (raw body) "NetworkError").
  change (JsString.includes ("HTTP 429: " +:+ raw body) "401")
    with (JsString.includes (raw body) "401").
  rewrite Hfetch, Hnetwork, Hauth. done.
Qed.

Lemma plain_rate_limit_reply_is_recognised_witness :
  let st' := snd (fst (ChatBot.handleSubmit (Some "sk-or-v1")
                         (ChatBot.Response 429
                            {| raw := "Too Many Requests";
                               parsed := Throw "Unexpected token 'T'" |})
                         Sample.asking)) in
  last (ChatBot.messages st') =
    Some {| ChatBot.role := ChatBot.assistant;
            ChatBot.content :=
              "Rate limit exceeded. Please wait a moment and try again." +:+
              " Please try again or rephrase your question." |}.
Proof.
  apply (plain_rate_limit_reply_is_recognised (Some "sk-or-v1")
           {| raw := "Too Many Requests"; parsed := Throw "Unexpected token 'T'" |}
           Sample.asking "Unexpected token 'T'"); reflexivity.
Defined.

(** ** The visibility tracker before any item is laid out *)

(** X22.  When the virtualizer reports no item, [onChange] does not
    touch the current page and marks as loaded exactly the first three
    pages of the active sequence (all of them, if there are fewer). *)
Theorem onChange_without_items (pages : list Z) :
  fst (Virtualizer.onChange pages []) = None ∧
  ∀ p, Virtualizer.isLoaded (snd (Virtualizer.onChange pages [])) p = true ↔
       ∃ i : nat, (i ≤ 2)%nat ∧ pages !! i = Some p.
Proof.
  split; [done|]. intros p.
  unfold Virtualizer.isLoaded, Virtualizer.onChange. rewrite bool_decide_eq_true.
  cbn [snd head last default foldl Virtualizer.bufferOffsets map].
  rewrite !elem_of_addBuffered, elem_of_list_to_set, elem_of_nil. split.
  - intros Hp.
    assert (∃ i, 0 ≤ i ≤ 2 ∧ i < Z.of_nat (length pages) ∧
                 Some p = PDFViewer.index pages i) as (i & Hi & Hlen & Hpage).
    { decompose [or and] Hp; try done; try lia;
        [exists 0|exists 0|exists 1|exists 1|exists 2|exists 2];
        (split; [lia|split; [lia|done]]). }
    destruct (index_Some pages i) as (q & Hq & Hq'); [lia|].
    exists (Z.to_nat i). split; [lia|]. congruence.
  - intros (i & Hi & Hp).
    assert (PDFViewer.index pages (Z.of_nat i) = Some p) as Hpage.
    { unfold PDFViewer.index.
      destruct (Z.of_nat i <? 0) eqn:Hneg; [apply Z.ltb_lt in Hneg; lia|].
      by rewrite Nat2Z.id. }
    apply lookup_lt_Some in Hp as Hlt.
    assert (i = 0 ∨ i = 1 ∨ i = 2)%nat as [-> | [-> | ->]] by lia.
    + do 5 left. right. split; [simpl; lia|done].
    + do 3 left. right. split; [simpl; lia|done].
    + do 1 left. right. split; [simpl; lia|done].
Qed.

(** ** Reading a page number back *)

Lemma digitValue_char (d : N) :
  (d < 10)%N →
  PDFPageNavigator.digitValue (pretty_N_char d) = Some (Z.of_N d).
Proof.
  intros Hd.
  assert (d = 0 ∨ d = 1 ∨ d = 2 ∨ d = 3 ∨ d = 4 ∨ d = 5 ∨ d = 6 ∨ d = 7 ∨ d = 8 ∨ d = 9)%N
    as Hcases by lia.
  decompose [or] Hcases; subst; reflexivity.
Qed.

(** Reading the digits that [pretty] writes for [x] in front of [s]
    shifts the value read so far and adds [x]. *)
Lemma parseDigits_pretty_N_go (x : N) :
  (0 < x)%N →
  ∃ k, ∀ s acc,
    PDFPageNavigator.parseDigits 10 (pretty_N_go x s) acc =
    PDFPageNavigator.parseDigits 10 s (Some (default 0 acc * k + Z.of_N x)).
Proof.
  induction (N.lt_wf_0 x) as [x _ IH]. intros Hx.
  assert (x `mod` 10 < 10)%N as Hmod by (apply N.mod_lt; lia).
  destruct (decide (x < 10)%N) as [Hsmall|Hlarge].
  - exists 10. intros s acc. rewrite pretty_N_go_step by done.
    rewrite N.div_small, N.mod_small, pretty_N_go_0 by done.
    cbn [PDFPageNavigator.parseDigits]. rewrite digitValue_char by done.
    destruct (Z.of_N x <? 10) eqn:Hlt; [done|]. apply Z.ltb_ge in Hlt. lia.
  - destruct (IH (x `div` 10)%N) as [k Hk].
    { apply N.div_lt; lia. }
    { apply N.div_str_pos. lia. }
    exists (k * 10). intros s acc. rewrite pretty_N_go_step, Hk by done.
    cbn [PDFPageNavigator.parseDigits]. rewrite digitValue_char by done.
    destruct (Z.of_N (x `mod` 10) <? 10) eqn:Hlt; [|apply Z.ltb_ge in Hlt; lia].
    cbn [default]. unfold id. do 2 f_equal.
    pose proof (N.div_mod x 10) as Hx10. lia.
Qed.

(** The first digit [pretty] writes for a positive number is not zero. *)
Lemma pretty_N_go_head (x : N) (s : string) :
  (0 < x)%N →
  ∃ d rest, (1 ≤ d ≤ 9)%N ∧ pretty_N_go x s = String (pretty_N_char d) rest.
Proof.
  revert s. induction (N.lt_wf_0 x) as [x _ IH]. intros s Hx.
  rewrite pretty_N_go_step by done.
  destruct (decide (x < 10)%N) as [Hsmall|Hlarge].
  - rewrite N.div_small, N.mod_small, pretty_N_go_0 by done.
    exists x, s. split; [lia|done].
  - apply IH; [apply N.div_lt; lia|apply N.div_str_pos; lia].
Qed.

Lemma parseInt_digits (d : N) (rest : string) :
  (1 ≤ d ≤ 9)%N →
  PDFPageNavigator.parseInt (String (pretty_N_char d) rest) =
    (λ n, Double.roundZ (1 * n)) <$>
      PDFPageNavigator.parseDigits 10 (String (pretty_N_char d) rest) None ∧
  PDFPageNavigator.parseInt (String "-" (String (pretty_N_char d) rest)) =
    (λ n, Double.roundZ (-1 * n)) <$>
      PDFPageNavigator.parseDigits 10 (String (pretty_N_char d) rest) None.
Proof.
  intros Hd.
  assert (d = 1 ∨ d = 2 ∨ d = 3 ∨ d = 4 ∨ d = 5 ∨ d = 6 ∨ d = 7 ∨ d = 8 ∨ d = 9)%N
    as Hcases by lia.
  decompose [or] Hcases; subst; split; reflexivity.
Qed.

(** X23.  The navigator reads back the decimal numeral of every integer
    that a double holds exactly: for [p] below [2 ^ 53] in magnitude,
    [parseInt] of the numeral of [p] is [p]. *)
Theorem numeral_is_read_back (p : Z) :
  - 2 ^ 53 < p < 2 ^ 53 →
  PDFPageNavigator.parseInt (pretty p) = Some p.
Proof.
  intros Hsafe. destruct p as [|p|p]; [done| |].
  - unfold pretty, pretty_Z, pretty, pretty_positive, pretty, pretty_N.
    rewrite decide_False by done.
    destruct (pretty_N_go_head (N.pos p) "") as (d & rest & Hd & Hhead); [lia|].
    destruct (parseDigits_pretty_N_go (N.pos p)) as [k Hk]; [lia|].
    pose proof (Hk "" None) as Hvalue. rewrite Hhead in *.
    destruct (parseInt_digits d rest Hd) as [-> _]. rewrite Hvalue.
    cbn [PDFPageNavigator.parseDigits fmap option_fmap option_map]. f_equal.
    change (Z.of_N (N.pos p)) with (Z.pos p). change (default 0 None) with 0.
    rewrite roundZ_integer; lia.
  - unfold pretty, pretty_Z, pretty, pretty_positive, pretty, pretty_N.
    rewrite decide_False by done.
    destruct (pretty_N_go_head (N.pos p) "") as (d & rest & Hd & Hhead); [lia|].
    destruct (parseDigits_pretty_N_go (N.pos p)) as [k Hk]; [lia|].
    pose proof (Hk "" None) as Hvalue. rewrite Hhead in *.
    change ("-" +:+ String (pretty_N_char d) rest)
      with (String "-" (String (pretty_N_char d) rest)).
    destruct (parseInt_digits d rest Hd) as [_ ->]. rewrite Hvalue.
    cbn [PDFPageNavigator.parseDigits fmap option_fmap option_map]. f_equal.
    change (Z.of_N (N.pos p)) with (Z.pos p). change (default 0 None) with 0.
    rewrite roundZ_integer; lia.
Qed.

Lemma numeral_is_read_back_witness :
  PDFPageNavigator.parseInt (pretty 9007199254740991) = Some 9007199254740991.
Proof. apply (numeral_is_read_back 9007199254740991). lia. Defined.
